(** * TSNN-P Lab core: the fat-tree hierarchy, the SPC framework and the
    system architecture, embedded from [src/core/*.py].

    Conventions of the embedding.

    - Python [int] is [Z]; [range n] is empty for [n <= 0].
    - A Python [dict] keeps insertion order, so it is an association list
      whose keys are kept distinct by [dict_set].
    - numpy [float64] values are modelled by [npfloat]: a real number
      computed exactly, or one of the special values [+inf], [-inf], [nan]
      that numpy produces (with a RuntimeWarning, not an exception) when a
      float array or scalar is divided by zero.  There is a single zero,
      treated as [+0.0].  Rounding, overflow and underflow are outside the
      model: the program's value agrees with the model's up to rounding as
      long as no intermediate result leaves the range of [float64].  This
      matters for [np.linalg.norm], which squares the entries: the program
      returns [inf] for an array whose squared norm exceeds about 1.8e308
      (the array divided by it is then the zero array) and [0.0] when all
      the squares underflow.  A statement whose truth depends on the value of
      a norm therefore carries the hypothesis [well_scaled] (or
      [well_scaled_table]), which keeps the squared norm between 1e-200 and
      1e200, and the value it states for a norm, a purity or a quotient of
      norms is the program's value up to rounding.
    - [np.random.*], LAPACK's eigenvalue routine behind [np.linalg.eigvals]
      and the matrix power of [evolve_quantum_state] are library code: they
      are the fields of the class [Numpy].  The statements hold for every
      instance; the one about the entropy of a record assumes in addition
      that LAPACK returns the exact spectrum of a rank-one matrix
      ([geev_rank_one]).
    - Exceptions are values of [exn]; a method runs in the monad [Mon] over
      the object it mutates and the state of the random generator.
    - [print] is not modelled. *)

From Stdlib Require Import String Ascii List ZArith Lia Bool Permutation.
From Stdlib Require Import Reals Lra.
From Stdlib Require Import Decimal DecimalString DecimalZ DecimalPos.
Import ListNotations.

Set Implicit Arguments.

(* ================================================================== *)
(** ** Python values: exceptions, dictionaries, ranges, int formatting *)
(* ================================================================== *)

Module Py.

Inductive exn : Type :=
| ValueError
| KeyError
| LinAlgError.

Inductive result (A : Type) : Type :=
| Ok (a : A)
| Raise (e : exn).
Arguments Ok {A} a.
Arguments Raise {A} e.

Definition rbind {A B} (x : result A) (k : A -> result B) : result B :=
  match x with
  | Ok a => k a
  | Raise e => Raise e
  end.

(** [dict K = string]: insertion-ordered association list. *)
Definition dict (V : Type) : Type := list (string * V).

Fixpoint dict_get {V} (d : dict V) (k : string) : option V :=
  match d with
  | [] => None
  | (k', v) :: d' => if String.eqb k' k then Some v else dict_get d' k
  end.

(** [d[k] = v]: replaces the value in place when [k] is present (the key
    keeps its position), appends at the end otherwise. *)
Fixpoint dict_set {V} (d : dict V) (k : string) (v : V) : dict V :=
  match d with
  | [] => [(k, v)]
  | (k', v') :: d' =>
      if String.eqb k' k then (k', v) :: d' else (k', v') :: dict_set d' k v
  end.

(** [del d[k]] for a key that is present. *)
Fixpoint dict_del {V} (d : dict V) (k : string) : dict V :=
  match d with
  | [] => []
  | (k', v') :: d' =>
      if String.eqb k' k then d' else (k', v') :: dict_del d' k
  end.

Definition dict_contains {V} (d : dict V) (k : string) : bool :=
  match dict_get d k with Some _ => true | None => false end.

Definition keys {V} (d : dict V) : list string := map fst d.
Definition values {V} (d : dict V) : list V := map snd d.
Definition len {A} (l : list A) : Z := Z.of_nat (length l).

(** [range(n)] *)
Definition range (n : Z) : list Z := map Z.of_nat (seq 0 (Z.to_nat n)).

(** [f"{i}"] for an [int] *)
Definition str (i : Z) : string := NilZero.string_of_int (Z.to_int i).

End Py.
Import Py.

(* ================================================================== *)
(** ** numpy: float64 scalars, complex scalars, arrays *)
(* ================================================================== *)

Module Np.

Local Open Scope R_scope.

Inductive npfloat : Type :=
| Fin (r : R)
| PInf
| NInf
| NaN.

Definition Rltb (a b : R) : bool := if Rlt_dec a b then true else false.
Definition Reqb (a b : R) : bool := if Req_dec_T a b then true else false.

Definition fneg (x : npfloat) : npfloat :=
  match x with
  | Fin a => Fin (- a)
  | PInf => NInf
  | NInf => PInf
  | NaN => NaN
  end.

Definition fadd (x y : npfloat) : npfloat :=
  match x, y with
  | NaN, _ | _, NaN => NaN
  | Fin a, Fin b => Fin (a + b)
  | PInf, NInf | NInf, PInf => NaN
  | PInf, _ | _, PInf => PInf
  | NInf, _ | _, NInf => NInf
  end.

Definition fsub (x y : npfloat) : npfloat := fadd x (fneg y).

(** An infinity times a finite number: the sign rule, [inf * 0 = nan]. *)
Definition inf_times (positive : bool) (a : R) : npfloat :=
  if Reqb a 0 then NaN
  else if Bool.eqb positive (Rltb 0 a) then PInf else NInf.

Definition fmul (x y : npfloat) : npfloat :=
  match x, y with
  | NaN, _ | _, NaN => NaN
  | Fin a, Fin b => Fin (a * b)
  | PInf, Fin a | Fin a, PInf => inf_times true a
  | NInf, Fin a | Fin a, NInf => inf_times false a
  | PInf, PInf | NInf, NInf => PInf
  | PInf, NInf | NInf, PInf => NInf
  end.

(** numpy float division: [x / 0] is [+-inf], [0 / 0] is [nan]. *)
Definition fdiv (x y : npfloat) : npfloat :=
  match x, y with
  | NaN, _ | _, NaN => NaN
  | Fin a, Fin b =>
      if Reqb b 0 then
        (if Reqb a 0 then NaN else if Rltb 0 a then PInf else NInf)
      else Fin (a / b)
  | Fin _, (PInf | NInf) => Fin 0
  | PInf, Fin b => if Rltb b 0 then NInf else PInf
  | NInf, Fin b => if Rltb b 0 then PInf else NInf
  | (PInf | NInf), (PInf | NInf) => NaN
  end.

Definition fabs (x : npfloat) : npfloat :=
  match x with
  | Fin a => Fin (Rabs a)
  | PInf | NInf => PInf
  | NaN => NaN
  end.

Definition fsqrt (x : npfloat) : npfloat :=
  match x with
  | Fin a => if Rltb a 0 then NaN else Fin (sqrt a)
  | PInf => PInf
  | NInf | NaN => NaN
  end.

Definition flog2 (x : npfloat) : npfloat :=
  match x with
  | Fin a =>
      if Rltb 0 a then Fin (ln a / ln 2)
      else if Reqb a 0 then NInf else NaN
  | PInf => PInf
  | NInf | NaN => NaN
  end.

(** [x < y], [x > y]: false as soon as one side is [nan]. *)
Definition flt (x y : npfloat) : bool :=
  match x, y with
  | NaN, _ | _, NaN => false
  | Fin a, Fin b => Rltb a b
  | NInf, (Fin _ | PInf) => true
  | Fin _, PInf => true
  | _, _ => false
  end.

Definition fgt (x y : npfloat) : bool := flt y x.

(** [np.maximum], [np.minimum]: they propagate [nan]. *)
Definition maximum (x y : npfloat) : npfloat :=
  match x, y with
  | NaN, _ | _, NaN => NaN
  | _, _ => if flt x y then y else x
  end.

Definition minimum (x y : npfloat) : npfloat :=
  match x, y with
  | NaN, _ | _, NaN => NaN
  | _, _ => if flt y x then y else x
  end.

(** [np.clip(x, lo, hi)] is [minimum(maximum(x, lo), hi)]. *)
Definition clip (x lo hi : npfloat) : npfloat := minimum (maximum x lo) hi.

Definition is_finite (x : npfloat) : bool :=
  match x with Fin _ => true | _ => false end.

(** Python's built-in [sum] over floats, and the numpy reductions: a
    left-to-right sum starting from [0.0]. *)
Definition fsum (l : list npfloat) : npfloat := fold_left fadd l (Fin 0).

(** Complex scalars ([complex128]); a real array is a complex array whose
    imaginary parts are [0.0]. *)
Record cplx : Type := Cx { re : npfloat; im : npfloat }.

Definition of_real (x : npfloat) : cplx := Cx x (Fin 0).
Definition cadd (z w : cplx) : cplx := Cx (fadd (re z) (re w)) (fadd (im z) (im w)).
Definition cmul (z w : cplx) : cplx :=
  Cx (fsub (fmul (re z) (re w)) (fmul (im z) (im w)))
     (fadd (fmul (re z) (im w)) (fmul (im z) (re w))).
Definition conj (z : cplx) : cplx := Cx (re z) (fneg (im z)).
(** division of a complex entry by a real scalar *)
Definition cdivr (z : cplx) (s : npfloat) : cplx := Cx (fdiv (re z) s) (fdiv (im z) s).
Definition cabs2 (z : cplx) : npfloat := fadd (fmul (re z) (re z)) (fmul (im z) (im z)).
(** [np.abs] of a complex scalar *)
Definition cabs (z : cplx) : npfloat := fsqrt (cabs2 z).
Definition cfinite (z : cplx) : bool := is_finite (re z) && is_finite (im z).
Definition csum (l : list cplx) : cplx := fold_left cadd l (of_real (Fin 0)).

(** An n-dimensional array: its shape and its entries in row-major order
    ([ravel]/[flatten]). *)
Record ndarray : Type := Array { shape : list nat; ravel : list cplx }.

(** [np.linalg.norm(a)] with the default order: the 2-norm of the
    flattened array (Frobenius norm of a matrix), that is, the square root
    of the sum of the squared moduli.  The sum and the root are exact here;
    the program computes them in [float64], so the two agree (up to
    rounding) only while the squares and their sum stay within the range of
    [float64]. *)
Definition norm (a : ndarray) : npfloat := fsqrt (fsum (map cabs2 (ravel a))).

(** [a / s] for a real scalar [s] *)
Definition array_div (a : ndarray) (s : npfloat) : ndarray :=
  Array (shape a) (map (fun z => cdivr z s) (ravel a)).

(** [a + b] for arrays of one shape, where [b] is real *)
Definition array_add_real (a : ndarray) (b : list npfloat) : ndarray :=
  Array (shape a) (map (fun p => cadd (fst p) (of_real (snd p))) (combine (ravel a) b)).

(** [np.outer(a, b)]: both arguments are flattened. *)
Definition outer (a b : list cplx) : list (list cplx) :=
  map (fun x => map (fun y => cmul x y) b) a.

Definition cdot (r c : list cplx) : cplx :=
  csum (map (fun p => cmul (fst p) (snd p)) (combine r c)).

(** Column [j] of a matrix given by its rows. *)
Definition column (m : list (list cplx)) (j : nat) : list cplx :=
  map (fun r => nth j r (of_real (Fin 0))) m.

(** [a @ b] for two square matrices of one size (the only use in the
    registry is [density_matrix @ density_matrix]). *)
Definition matmul (a b : list (list cplx)) : list (list cplx) :=
  map (fun r => map (fun j => cdot r (column b j)) (seq 0 (length b))) a.

(** The main diagonal of a matrix given by its rows, starting at column
    [i]: entry [i + k] of the [k]-th row, as long as there is one. *)
Fixpoint diag_from {A} (i : nat) (m : list (list A)) : list A :=
  match m with
  | [] => []
  | r :: m' =>
      match nth_error r i with
      | Some x => x :: diag_from (S i) m'
      | None => []
      end
  end.

(** [np.trace] of a complex matrix given by its rows. *)
Definition ctrace (m : list (list cplx)) : cplx := csum (diag_from 0 m).

(** [np.vdot(a, b)]: conjugates its first argument, flattens both, and
    raises [ValueError] when the sizes differ. *)
Definition vdot (a b : list cplx) : result cplx :=
  if Nat.eqb (length a) (length b)
  then Ok (csum (map (fun p => cmul (conj (fst p)) (snd p)) (combine a b)))
  else Raise ValueError.

(** Library code of numpy that the repository calls. *)
Class Numpy : Type := {
  (** state of the global generator behind [np.random] *)
  rng : Type;
  (** the [i]-th variate of the next [np.random.rand] call *)
  uniform : rng -> nat -> R;
  (** the [i]-th standard normal variate of the next [np.random.normal] call *)
  gauss : rng -> nat -> R;
  (** generator state after [n] variates *)
  advance : rng -> nat -> rng;
  (** LAPACK's eigenvalue routine on a finite square matrix; [None] when it
      does not converge *)
  geev : list (list cplx) -> option (list cplx);
  (** [np.linalg.matrix_power(np.eye(d) - 1j * H * t / 1000, 1000) @ w] *)
  propagate : Z -> ndarray -> npfloat -> ndarray -> result ndarray
}.

(** What LAPACK computes, in exact arithmetic, for the rank-one matrix
    [outer(u, conj u)] of a finite vector: the squared norm of [u] once and
    [0] for the other [n - 1] eigenvalues, in some order. *)
Definition geev_rank_one (NP : Numpy) : Prop :=
  forall u : list cplx,
    forallb cfinite u = true -> u <> [] ->
    exists l : list cplx,
      geev (outer u (map conj u)) = Some l /\
      Permutation l (of_real (fsum (map cabs2 u))
                       :: repeat (of_real (Fin 0)) (length u - 1)%nat).

End Np.
Import Np.

(* ================================================================== *)
(** ** Methods: state of the receiver and of the generator, exceptions *)
(* ================================================================== *)

Module Meth.

(** A method body over a world [W] (the object it mutates, paired with the
    random generator): it returns or raises, and in both cases leaves the
    world as mutated so far. *)
Definition Mon (W A : Type) : Type := W -> result A * W.

Definition ret {W A} (a : A) : Mon W A := fun w => (Ok a, w).
Definition raise {W A} (e : exn) : Mon W A := fun w => (Raise e, w).
Definition lift {W A} (r : result A) : Mon W A := fun w => (r, w).

Definition bind {W A B} (m : Mon W A) (k : A -> Mon W B) : Mon W B :=
  fun w =>
    match m w with
    | (Ok a, w') => k a w'
    | (Raise e, w') => (Raise e, w')
    end.

(** [try: body except Exception as e: handler e] *)
Definition try_except {W A} (body : Mon W A) (handler : exn -> Mon W A) : Mon W A :=
  fun w =>
    match body w with
    | (Ok a, w') => (Ok a, w')
    | (Raise e, w') => handler e w'
    end.

(** [for x in l: body x] *)
Fixpoint for_each {W A} (l : list A) (body : A -> Mon W unit) : Mon W unit :=
  match l with
  | [] => ret tt
  | x :: l' => bind (body x) (fun _ => for_each l' body)
  end.

(** Run a method of a component [V] of the receiver [U]. *)
Definition zoom {U V G A} (proj : U -> V) (upd : U -> V -> U)
    (m : Mon (V * G) A) : Mon (U * G) A :=
  fun w =>
    match m (proj (fst w), snd w) with
    | (r, (v', g')) => (r, (upd (fst w) v', g'))
    end.

End Meth.
Import Meth.

Declare Scope meth_scope.
Delimit Scope meth_scope with meth.
Notation "x <- m ;; k" := (bind m (fun x => k))
  (at level 61, m at next level, right associativity) : meth_scope.
Notation "m ;;; k" := (bind m (fun _ => k))
  (at level 61, right associativity) : meth_scope.
Notation "x <~ r ;; k" := (rbind r (fun x => k))
  (at level 61, r at next level, right associativity) : meth_scope.

(* ================================================================== *)
(** ** numpy calls that use the generator or LAPACK *)
(* ================================================================== *)

Module NpCalls.
Section WithNumpy.
Context {NP : Numpy}.
Local Open Scope R_scope.

Definition matrix : Type := list (list npfloat).

(** [np.random.rand(d0, d1)]: a [d0 x d1] array of uniform variates;
    numpy refuses negative dimensions with [ValueError]. *)
Definition random_rand {S} (d0 d1 : Z) : Mon (S * rng) matrix :=
  fun w =>
    if (d0 <? 0)%Z || (d1 <? 0)%Z then (Raise ValueError, w)
    else
      let r := Z.to_nat d0 in
      let c := Z.to_nat d1 in
      (Ok (map (fun i => map (fun j => Fin (uniform (snd w) (i * c + j)%nat)) (seq 0 c))
               (seq 0 r)),
       (fst w, advance (snd w) (r * c))).

(** [np.random.normal(mu, sigma, shape)] for a shape of [n] entries. *)
Definition random_normal {S} (mu sigma : R) (n : nat) : Mon (S * rng) (list npfloat) :=
  fun w =>
    (Ok (map (fun i => Fin (mu + sigma * gauss (snd w) i)) (seq 0 n)),
     (fst w, advance (snd w) n)).

Definition is_square (m : list (list cplx)) : bool :=
  forallb (fun r => Nat.eqb (length r) (length m)) m.

(** [np.linalg.eigvals(m)]: it checks that [m] is square and holds no
    [inf] or [nan] (raising [LinAlgError] otherwise) before it calls
    LAPACK. *)
Definition eigvals (m : list (list cplx)) : result (list cplx) :=
  if negb (is_square m) then Raise LinAlgError
  else if negb (forallb (forallb cfinite) m) then Raise LinAlgError
  else match geev m with
       | Some l => Ok l
       | None => Raise LinAlgError
       end.

(** A real matrix seen as an array. *)
Definition asarray (m : matrix) : ndarray :=
  Array [length m; length (hd [] m)] (map of_real (concat m)).

End WithNumpy.
End NpCalls.
Import NpCalls.

(* ================================================================== *)
(** ** fat_tree_hierarchy.py *)
(* ================================================================== *)

Module FatTree.
Section WithNumpy.
Context {NP : Numpy}.
Local Open Scope R_scope.
Local Open Scope string_scope.
Local Open Scope meth_scope.

Record Node : Type := mkNode {
  id : string;
  layer : string;
  position : Z * Z;
  quantum_state : option matrix;
  ethical_constraints : option (dict npfloat)
}.

Record FatTreeHierarchy : Type := mkFatTree {
  core_nodes : Z;
  aggregation_nodes : Z;
  edge_nodes : Z;
  nodes : dict Node;
  edges : list (string * string)
}.

Definition set_nodes (self : FatTreeHierarchy) (ns : dict Node) : FatTreeHierarchy :=
  mkFatTree (core_nodes self) (aggregation_nodes self) (edge_nodes self) ns (edges self).

Definition set_edges (self : FatTreeHierarchy) (es : list (string * string)) : FatTreeHierarchy :=
  mkFatTree (core_nodes self) (aggregation_nodes self) (edge_nodes self) (nodes self) es.

(** [self.nodes[node_id] = node] *)
Definition store_node (node_id : string) (node : Node) : Mon (FatTreeHierarchy * rng) unit :=
  fun w => (Ok tt, (set_nodes (fst w) (dict_set (nodes (fst w)) node_id node), snd w)).

(** [self.edges.append(e)] *)
Definition append_edge (e : string * string) : Mon (FatTreeHierarchy * rng) unit :=
  fun w => (Ok tt, (set_edges (fst w) (edges (fst w) ++ [e]), snd w)).

Definition self_ : Mon (FatTreeHierarchy * rng) FatTreeHierarchy :=
  fun w => (Ok (fst w), w).

Definition _create_edges : Mon (FatTreeHierarchy * rng) unit :=
  self <- self_ ;;
  for_each (map (fun i => "core_" ++ str i) (range (core_nodes self))) (fun core_id =>
    for_each (map (fun i => "agg_" ++ str i) (range (aggregation_nodes self))) (fun agg_id =>
      append_edge (core_id, agg_id))) ;;;
  for_each (map (fun i => "agg_" ++ str i) (range (aggregation_nodes self))) (fun agg_id =>
    for_each (map (fun i => "edge_" ++ str i) (range (edge_nodes self))) (fun edge_id =>
      append_edge (agg_id, edge_id))).

Definition _build_hierarchy : Mon (FatTreeHierarchy * rng) unit :=
  self <- self_ ;;
  for_each (range (core_nodes self)) (fun i =>
    let node_id := "core_" ++ str i in
    q <- random_rand 4 4 ;;
    store_node node_id
      (mkNode node_id "core" (0%Z, i) (Some q)
              (Some [("fidelity_threshold", Fin (95 / 100))]))) ;;;
  for_each (range (aggregation_nodes self)) (fun i =>
    let node_id := "agg_" ++ str i in
    q <- random_rand 4 4 ;;
    store_node node_id
      (mkNode node_id "aggregation" (1%Z, i) (Some q)
              (Some [("fidelity_threshold", Fin (90 / 100))]))) ;;;
  for_each (range (edge_nodes self)) (fun i =>
    let node_id := "edge_" ++ str i in
    q <- random_rand 4 4 ;;
    store_node node_id
      (mkNode node_id "edge" (2%Z, i) (Some q)
              (Some [("fidelity_threshold", Fin (85 / 100))]))) ;;;
  _create_edges.

(** [FatTreeHierarchy(core_nodes, aggregation_nodes, edge_nodes)] *)
Definition __init__ (core_nodes aggregation_nodes edge_nodes : Z)
  : Mon rng FatTreeHierarchy :=
  fun g =>
    match _build_hierarchy (mkFatTree core_nodes aggregation_nodes edge_nodes [] [], g) with
    | (Ok _, (self, g')) => (Ok self, g')
    | (Raise e, (_, g')) => (Raise e, g')
    end.

(** Number of columns of a matrix given by its rows. *)
Definition ncols (m : matrix) : nat := length (hd [] m).

Definition dot (r1 r2 : list npfloat) : npfloat :=
  fsum (map (fun p => fmul (fst p) (snd p)) (combine r1 r2)).

(** [a @ b.T]: entry [(i, j)] is the product of row [i] of [a] and row [j]
    of [b]; numpy raises [ValueError] when the rows of [a] and [b] differ in
    length. *)
Definition matmul_T (a b : matrix) : result matrix :=
  if Nat.eqb (ncols a) (ncols b)
  then Ok (map (fun ra => map (fun rb => dot ra rb) b) a)
  else Raise ValueError.

Definition diagonal (m : matrix) : list npfloat := diag_from 0 m.

(** [np.trace] *)
Definition trace (m : matrix) : npfloat := fsum (diagonal m).

(** [np.linalg.norm] of a real matrix: the Frobenius norm, computed exactly
    (see [norm]: the program's value agrees up to rounding while the squares
    and their sum stay within the range of [float64]). *)
Definition frobenius (m : matrix) : npfloat :=
  fsqrt (fsum (map (fun x => fmul x x) (concat m))).

Definition _calculate_sync_fidelity (node1 node2 : Node) : result npfloat :=
  match quantum_state node1, quantum_state node2 with
  | Some a, Some b =>
      ab <~ matmul_T a b ;;
      let overlap := trace ab in
      let fidelity := fdiv (fabs overlap) (fmul (frobenius a) (frobenius b)) in
      Ok (clip fidelity (Fin 0) (Fin 1))
  | _, _ => Ok (Fin 0)
  end.

(** [d[k]] *)
Definition getitem {V} (d : dict V) (k : string) : result V :=
  match dict_get d k with
  | Some v => Ok v
  | None => Raise KeyError
  end.

(** The loop of [synchronize_layers]: the locals [total_fidelity] and
    [edge_count] after the edges [es]. *)
Fixpoint sync_loop (self : FatTreeHierarchy) (es : list (string * string))
    (total_fidelity : npfloat) (edge_count : Z) : result (npfloat * Z) :=
  match es with
  | [] => Ok (total_fidelity, edge_count)
  | edge :: es' =>
      node1 <~ getitem (nodes self) (fst edge) ;;
      node2 <~ getitem (nodes self) (snd edge) ;;
      fidelity <~ _calculate_sync_fidelity node1 node2 ;;
      sync_loop self es' (fadd total_fidelity fidelity) (edge_count + 1)%Z
  end.

Definition synchronize_layers (self : FatTreeHierarchy) : result npfloat :=
  acc <~ sync_loop self (edges self) (Fin 0) 0%Z ;;
  let total_fidelity := fst acc in
  let edge_count := snd acc in
  Ok (if (edge_count >? 0)%Z then fdiv total_fidelity (Fin (IZR edge_count))
      else Fin 0).

Definition _calculate_coherence (quantum_state : option matrix) : result npfloat :=
  match quantum_state with
  | None => Ok (Fin 0)
  | Some q =>
      eigenvalues <~ eigvals (map (map of_real) q) ;;
      let coherence :=
        fdiv (fsum (map cabs eigenvalues)) (Fin (INR (length eigenvalues))) in
      Ok (clip coherence (Fin 0) (Fin 1))
  end.

Definition _calculate_ethical_score (constraints : option (dict npfloat)) : npfloat :=
  match constraints with
  | None | Some [] => Fin 1
  | Some c =>
      match dict_get c "fidelity_threshold" with
      | Some t => t
      | None => Fin (9 / 10)
      end
  end.

Fixpoint utilities_loop (items : list (string * Node)) (utilities : dict npfloat)
  : result (dict npfloat) :=
  match items with
  | [] => Ok utilities
  | (node_id, node) :: items' =>
      coherence <~ _calculate_coherence (quantum_state node) ;;
      let ethical_score := _calculate_ethical_score (ethical_constraints node) in
      utilities_loop items' (dict_set utilities node_id (fmul coherence ethical_score))
  end.

Definition optimize_resource_allocation (self : FatTreeHierarchy) : result (dict npfloat) :=
  utilities_loop (nodes self) [].

Definition get_logarithmic_depth (self : FatTreeHierarchy) : npfloat :=
  let total_nodes := len (nodes self) in
  if (total_nodes >? 0)%Z then flog2 (Fin (IZR total_nodes)) else Fin 0.

Definition get_node_by_layer (self : FatTreeHierarchy) (l : string) : list Node :=
  filter (fun node => String.eqb (layer node) l) (values (nodes self)).

Definition get_connected_nodes (self : FatTreeHierarchy) (node_id : string) : list string :=
  flat_map (fun edge =>
              if String.eqb (fst edge) node_id then [snd edge]
              else if String.eqb (snd edge) node_id then [fst edge]
              else [])
           (edges self).

End WithNumpy.
End FatTree.

(* ================================================================== *)
(** ** spc_framework.py *)
(* ================================================================== *)

Module SPC.
Section WithNumpy.
Context {NP : Numpy}.
Local Open Scope R_scope.
Local Open Scope string_scope.
Local Open Scope meth_scope.

Record QuantumState : Type := mkQuantumState {
  wavefunction : ndarray;
  coherence : npfloat;
  entanglement_entropy : npfloat;
  ethical_fidelity : npfloat
}.

Record EthicalConstraint : Type := mkEthicalConstraint {
  name : string;
  threshold : npfloat;
  weight : npfloat;
  description : string
}.

Record SPCFramework : Type := mkSPC {
  dimension : Z;
  quantum_states : dict QuantumState;
  ethical_constraints : list EthicalConstraint;
  consciousness_field : option ndarray
}.

Definition set_quantum_states (self : SPCFramework) (qs : dict QuantumState) : SPCFramework :=
  mkSPC (dimension self) qs (ethical_constraints self) (consciousness_field self).

Definition set_ethical_constraints (self : SPCFramework) (cs : list EthicalConstraint) : SPCFramework :=
  mkSPC (dimension self) (quantum_states self) cs (consciousness_field self).

Definition set_consciousness_field (self : SPCFramework) (f : option ndarray) : SPCFramework :=
  mkSPC (dimension self) (quantum_states self) (ethical_constraints self) f.

Definition self_ : Mon (SPCFramework * rng) SPCFramework :=
  fun w => (Ok (fst w), w).

Definition modify (f : SPCFramework -> SPCFramework) : Mon (SPCFramework * rng) unit :=
  fun w => (Ok tt, (f (fst w), snd w)).

Definition _initialize_ethical_constraints : Mon (SPCFramework * rng) unit :=
  modify (fun self => set_ethical_constraints self
    [ mkEthicalConstraint "fidelity_threshold" (Fin (95 / 100)) (Fin 1)
        "Minimum quantum state fidelity";
      mkEthicalConstraint "coherence_threshold" (Fin (90 / 100)) (Fin (8 / 10))
        "Minimum quantum coherence";
      mkEthicalConstraint "entanglement_bound" (Fin (85 / 100)) (Fin (7 / 10))
        "Maximum entanglement entropy" ]).

Definition _initialize_consciousness_field : Mon (SPCFramework * rng) unit :=
  self <- self_ ;;
  field <- random_rand (dimension self) (dimension self) ;;
  modify (fun self => set_consciousness_field self (Some (asarray field))) ;;;
  modify (fun self => set_consciousness_field self
            (Some (array_div (asarray field) (norm (asarray field))))).

(** [SPCFramework(dimension)] *)
Definition __init__ (dimension : Z) : Mon rng SPCFramework :=
  fun g =>
    match (_initialize_ethical_constraints ;;; _initialize_consciousness_field)
            (mkSPC dimension [] [] None, g) with
    | (Ok _, (self, g')) => (Ok self, g')
    | (Raise e, (_, g')) => (Raise e, g')
    end.

Definition _calculate_coherence (wavefunction : ndarray) : npfloat :=
  let density_matrix := outer (ravel wavefunction) (map conj (ravel wavefunction)) in
  let purity := ctrace (matmul density_matrix density_matrix) in
  re purity.

(** The constant [1e-10]. *)
Definition tiny : R := / 10000000000.

(** The entropy formula applied to the eigenvalues that LAPACK returned. *)
Definition entropy_of_eigenvalues (eigenvalues : list cplx) : npfloat :=
  let eigenvalues := map re eigenvalues in
  let eigenvalues := filter (fun x => fgt x (Fin tiny)) eigenvalues in
  fneg (fsum (map (fun x => fmul x (flog2 (fadd x (Fin tiny)))) eigenvalues)).

Definition _calculate_entanglement_entropy (wavefunction : ndarray)
  : Mon (SPCFramework * rng) npfloat :=
  noise <- random_normal 0 (1 / 100) (length (ravel wavefunction)) ;;
  let noisy_state := array_add_real wavefunction noise in
  let noisy_state := array_div noisy_state (norm noisy_state) in
  let density_matrix := outer (ravel noisy_state) (map conj (ravel noisy_state)) in
  eigenvalues <- lift (eigvals density_matrix) ;;
  ret (entropy_of_eigenvalues eigenvalues).

Definition _calculate_ethical_fidelity (self : SPCFramework) (wavefunction : ndarray)
  : result npfloat :=
  match consciousness_field self with
  | None => Ok (Fin 1)
  | Some field =>
      v <~ vdot (ravel wavefunction) (ravel field) ;;
      let overlap := cabs v in
      let fidelity := fdiv overlap (fmul (norm wavefunction) (norm field)) in
      Ok (clip fidelity (Fin 0) (Fin 1))
  end.

(** [self.quantum_states[state_id] = quantum_state] *)
Definition store_state (state_id : string) (quantum_state : QuantumState)
  : Mon (SPCFramework * rng) unit :=
  modify (fun self =>
            set_quantum_states self (dict_set (quantum_states self) state_id quantum_state)).

Definition create_quantum_state (state_id : string) (wavefunction : ndarray)
  : Mon (SPCFramework * rng) QuantumState :=
  let wavefunction := array_div wavefunction (norm wavefunction) in
  let coherence := _calculate_coherence wavefunction in
  entanglement_entropy <- _calculate_entanglement_entropy wavefunction ;;
  self <- self_ ;;
  ethical_fidelity <- lift (_calculate_ethical_fidelity self wavefunction) ;;
  let quantum_state :=
    mkQuantumState wavefunction coherence entanglement_entropy ethical_fidelity in
  store_state state_id quantum_state ;;;
  ret quantum_state.

Definition evolve_quantum_state (state_id : string) (hamiltonian : ndarray) (time : npfloat)
  : Mon (SPCFramework * rng) QuantumState :=
  self <- self_ ;;
  match dict_get (quantum_states self) state_id with
  | None => raise ValueError
  | Some quantum_state =>
      evolved_wavefunction <-
        lift (propagate (dimension self) hamiltonian time (wavefunction quantum_state)) ;;
      let evolved_wavefunction :=
        array_div evolved_wavefunction (norm evolved_wavefunction) in
      let coherence := _calculate_coherence evolved_wavefunction in
      entanglement_entropy <- _calculate_entanglement_entropy evolved_wavefunction ;;
      ethical_fidelity <- lift (_calculate_ethical_fidelity self evolved_wavefunction) ;;
      let updated_state :=
        mkQuantumState evolved_wavefunction coherence entanglement_entropy ethical_fidelity in
      store_state state_id updated_state ;;;
      ret updated_state
  end.

(** The constraint loop of [apply_ethical_constraints]: [false] at the
    first violated constraint. *)
Fixpoint constraints_hold (quantum_state : QuantumState) (cs : list EthicalConstraint) : bool :=
  match cs with
  | [] => true
  | constraint :: cs' =>
      if String.eqb (name constraint) "fidelity_threshold" then
        if flt (ethical_fidelity quantum_state) (threshold constraint) then false
        else constraints_hold quantum_state cs'
      else if String.eqb (name constraint) "coherence_threshold" then
        if flt (coherence quantum_state) (threshold constraint) then false
        else constraints_hold quantum_state cs'
      else if String.eqb (name constraint) "entanglement_bound" then
        if fgt (entanglement_entropy quantum_state) (threshold constraint) then false
        else constraints_hold quantum_state cs'
      else constraints_hold quantum_state cs'
  end.

Definition apply_ethical_constraints (self : SPCFramework) (state_id : string) : bool :=
  match dict_get (quantum_states self) state_id with
  | None => false
  | Some quantum_state => constraints_hold quantum_state (ethical_constraints self)
  end.

Definition get_consciousness_integration (self : SPCFramework) (state_id : string)
  : result npfloat :=
  match dict_get (quantum_states self) state_id, consciousness_field self with
  | Some quantum_state, Some field =>
      v <~ vdot (ravel (wavefunction quantum_state)) (ravel field) ;;
      let integration := cabs v in
      Ok (clip integration (Fin 0) (Fin 1))
  | _, _ => Ok (Fin 0)
  end.

Definition update_consciousness_field (new_field : ndarray) : Mon (SPCFramework * rng) unit :=
  modify (fun self => set_consciousness_field self
            (Some (array_div new_field (norm new_field)))).

(** [np.mean(l)] of a list of floats ([nan] for the empty list). *)
Definition mean (l : list npfloat) : npfloat :=
  fdiv (fsum l) (Fin (INR (length l))).

(** The comprehension [[self.get_consciousness_integration(state_id) for
    state_id in self.quantum_states.keys()]]. *)
Fixpoint integration_scores (self : SPCFramework) (ids : list string)
  : result (list npfloat) :=
  match ids with
  | [] => Ok []
  | state_id :: ids' =>
      s <~ get_consciousness_integration self state_id ;;
      rest <~ integration_scores self ids' ;;
      Ok (s :: rest)
  end.

Definition get_system_health (self : SPCFramework) : result (dict npfloat) :=
  match quantum_states self with
  | [] =>
      Ok [("coherence", Fin 0); ("ethical_fidelity", Fin 0);
          ("consciousness_integration", Fin 0)]
  | _ =>
      let avg_coherence := mean (map coherence (values (quantum_states self))) in
      let avg_ethical_fidelity :=
        mean (map ethical_fidelity (values (quantum_states self))) in
      scores <~ integration_scores self (keys (quantum_states self)) ;;
      let avg_consciousness := mean scores in
      Ok [("coherence", avg_coherence); ("ethical_fidelity", avg_ethical_fidelity);
          ("consciousness_integration", avg_consciousness)]
  end.

End WithNumpy.
End SPC.

(* ================================================================== *)
(** ** system_architecture.py *)
(* ================================================================== *)

Module System.
Section WithNumpy.
Context {NP : Numpy}.
Local Open Scope R_scope.
Local Open Scope string_scope.
Local Open Scope meth_scope.

(** The dictionary [self.system_state], which always has these five keys. *)
Record SystemState : Type := mkSystemState {
  initialized : bool;
  synchronization_fidelity : npfloat;
  resource_optimization_score : npfloat;
  ethical_compliance : npfloat;
  consciousness_integration : npfloat
}.

Record SystemArchitecture : Type := mkSystem {
  fat_tree : FatTree.FatTreeHierarchy;
  spc_framework : SPC.SPCFramework;
  system_state : SystemState
}.

Definition set_spc_framework (self : SystemArchitecture) (spc : SPC.SPCFramework)
  : SystemArchitecture :=
  mkSystem (fat_tree self) spc (system_state self).

Definition set_system_state (self : SystemArchitecture) (st : SystemState)
  : SystemArchitecture :=
  mkSystem (fat_tree self) (spc_framework self) st.

Definition self_ : Mon (SystemArchitecture * rng) SystemArchitecture :=
  fun w => (Ok (fst w), w).

Definition modify_state (f : SystemState -> SystemState)
  : Mon (SystemArchitecture * rng) unit :=
  fun w => (Ok tt, (set_system_state (fst w) (f (system_state (fst w))), snd w)).

(** A call [self.spc_framework.m(...)] *)
Definition spc {A} (m : Mon (SPC.SPCFramework * rng) A) : Mon (SystemArchitecture * rng) A :=
  zoom spc_framework set_spc_framework m.

(** [SystemArchitecture(core_nodes, aggregation_nodes, edge_nodes,
    quantum_dimension)] *)
Definition __init__ (core_nodes aggregation_nodes edge_nodes quantum_dimension : Z)
  : Mon rng SystemArchitecture :=
  fat_tree <- FatTree.__init__ core_nodes aggregation_nodes edge_nodes ;;
  spc_framework <- SPC.__init__ quantum_dimension ;;
  ret (mkSystem fat_tree spc_framework
         (mkSystemState true (Fin 0) (Fin 0) (Fin 0) (Fin 0))).

(** [sum(l) / len(l) if l else 0.0] *)
Definition average (l : list npfloat) : npfloat :=
  match l with
  | [] => Fin 0
  | _ => fdiv (fsum l) (Fin (INR (length l)))
  end.

(** The body of the loop [for node_id, node in self.fat_tree.nodes.items()]
    of [initialize_system]. *)
Definition register_node (item : string * FatTree.Node)
  : Mon (SystemArchitecture * rng) unit :=
  let node_id := fst item in
  let node := snd item in
  match FatTree.quantum_state node with
  | Some q => spc (SPC.create_quantum_state node_id (asarray q)) ;;; ret tt
  | None => ret tt
  end.

(** The statements inside [try:] in [initialize_system]. *)
Definition initialize_body : Mon (SystemArchitecture * rng) bool :=
  self <- self_ ;;
  for_each (FatTree.nodes (fat_tree self)) register_node ;;;
  sync_fidelity <- lift (FatTree.synchronize_layers (fat_tree self)) ;;
  modify_state (fun st =>
    mkSystemState (initialized st) sync_fidelity (resource_optimization_score st)
                  (ethical_compliance st) (consciousness_integration st)) ;;;
  utilities <- lift (FatTree.optimize_resource_allocation (fat_tree self)) ;;
  let avg_utility := average (values utilities) in
  modify_state (fun st =>
    mkSystemState (initialized st) (synchronization_fidelity st) avg_utility
                  (ethical_compliance st) (consciousness_integration st)) ;;;
  ret true.

(** [try: ... return True / except Exception as e: print(...); return
    False] *)
Definition initialize_system : Mon (SystemArchitecture * rng) bool :=
  try_except initialize_body (fun e => ret false).

(** The two loops of [synchronize_system] over the registered ids. *)
Definition ethical_scores (spc : SPC.SPCFramework) : list npfloat :=
  map (fun state_id => if SPC.apply_ethical_constraints spc state_id then Fin 1 else Fin 0)
      (keys (SPC.quantum_states spc)).

Fixpoint consciousness_loop (spc : SPC.SPCFramework) (ids : list string)
    (consciousness_scores : list npfloat) : result (list npfloat) :=
  match ids with
  | [] => Ok consciousness_scores
  | state_id :: ids' =>
      s <~ SPC.get_consciousness_integration spc state_id ;;
      consciousness_loop spc ids' (consciousness_scores ++ [s])
  end.

Definition synchronize_system : Mon (SystemArchitecture * rng) npfloat :=
  self <- self_ ;;
  tree_sync <- lift (FatTree.synchronize_layers (fat_tree self)) ;;
  let ethical_scores := ethical_scores (spc_framework self) in
  let avg_ethical := average ethical_scores in
  consciousness_scores <-
    lift (consciousness_loop (spc_framework self)
            (keys (SPC.quantum_states (spc_framework self))) []) ;;
  let avg_consciousness := average consciousness_scores in
  modify_state (fun st =>
    mkSystemState (initialized st) tree_sync (resource_optimization_score st)
                  avg_ethical avg_consciousness) ;;;
  let overall_sync := fdiv (fadd (fadd tree_sync avg_ethical) avg_consciousness) (Fin 3) in
  ret overall_sync.

Definition add_quantum_state (state_id : string) (wavefunction : ndarray)
  : Mon (SystemArchitecture * rng) bool :=
  try_except
    (spc (SPC.create_quantum_state state_id wavefunction) ;;; ret true)
    (fun e => ret false).

Definition remove_quantum_state (state_id : string) : Mon (SystemArchitecture * rng) bool :=
  self <- self_ ;;
  if dict_contains (SPC.quantum_states (spc_framework self)) state_id then
    spc (SPC.modify (fun s =>
           SPC.set_quantum_states s (dict_del (SPC.quantum_states s) state_id))) ;;;
    ret true
  else ret false.

Definition update_consciousness_field (new_field : ndarray)
  : Mon (SystemArchitecture * rng) unit :=
  spc (SPC.update_consciousness_field new_field).

(** A value of the dictionary that [evolve_system] returns: the metrics of
    an evolved state, [{"error": str(e)}], or the health summary. *)
Inductive Metrics : Type :=
| StateMetrics (coherence ethical_fidelity entanglement_entropy : npfloat)
| ErrorMetrics (e : exn)
| HealthMetrics (system_health : dict npfloat).

(** The loop of [evolve_system] over the registered ids, with the local
    [evolution_metrics]. *)
Fixpoint evolve_loop (ids : list string) (hamiltonian : ndarray) (time : npfloat)
    (evolution_metrics : dict Metrics) : Mon (SystemArchitecture * rng) (dict Metrics) :=
  match ids with
  | [] => ret evolution_metrics
  | state_id :: ids' =>
      m <- try_except
             (evolved_state <- spc (SPC.evolve_quantum_state state_id hamiltonian time) ;;
              ret (StateMetrics (SPC.coherence evolved_state)
                                (SPC.ethical_fidelity evolved_state)
                                (SPC.entanglement_entropy evolved_state)))
             (fun e => (* print(f"Evolution failed for state {state_id}: {e}") *)
                ret (ErrorMetrics e)) ;;
      evolve_loop ids' hamiltonian time (dict_set evolution_metrics state_id m)
  end.

Definition evolve_system (hamiltonian : ndarray) (time : npfloat)
  : Mon (SystemArchitecture * rng) (dict Metrics) :=
  self <- self_ ;;
  evolution_metrics <-
    evolve_loop (keys (SPC.quantum_states (spc_framework self))) hamiltonian time [] ;;
  self <- self_ ;;
  system_health <- lift (SPC.get_system_health (spc_framework self)) ;;
  ret (dict_set evolution_metrics "system_health" (HealthMetrics system_health)).

(** The dictionary that [get_system_status] returns. *)
Record SystemStatus : Type := mkSystemStatus {
  status_system_state : SystemState;
  total_nodes : Z;
  total_edges : Z;
  logarithmic_depth : npfloat;
  layer_core : Z;
  layer_aggregation : Z;
  layer_edge : Z;
  spc_metrics : dict npfloat;
  status_quantum_states : Z;
  status_ethical_constraints : Z
}.

Definition get_system_status (self : SystemArchitecture) : result SystemStatus :=
  spc_metrics <~ SPC.get_system_health (spc_framework self) ;;
  Ok (mkSystemStatus
        (system_state self)
        (len (FatTree.nodes (fat_tree self)))
        (len (FatTree.edges (fat_tree self)))
        (FatTree.get_logarithmic_depth (fat_tree self))
        (len (FatTree.get_node_by_layer (fat_tree self) "core"))
        (len (FatTree.get_node_by_layer (fat_tree self) "aggregation"))
        (len (FatTree.get_node_by_layer (fat_tree self) "edge"))
        spc_metrics
        (len (SPC.quantum_states (spc_framework self)))
        (len (SPC.ethical_constraints (spc_framework self)))).

Definition get_node_connectivity (self : SystemArchitecture) (node_id : string)
  : list string :=
  FatTree.get_connected_nodes (fat_tree self) node_id.

Definition validate_system_integrity (self : SystemArchitecture)
  : result (dict bool) :=
  let validation_results :=
    [("fat_tree_valid", (len (FatTree.nodes (fat_tree self)) >? 0)%Z);
     ("spc_framework_valid", (len (SPC.quantum_states (spc_framework self)) >? 0)%Z);
     ("ethical_constraints_valid",
      (len (SPC.ethical_constraints (spc_framework self)) >? 0)%Z);
     ("consciousness_field_valid",
      match SPC.consciousness_field (spc_framework self) with
      | Some _ => true
      | None => false
      end)] in
  sync_fidelity <~ FatTree.synchronize_layers (fat_tree self) ;;
  let validation_results :=
    dict_set validation_results "synchronization_valid" (fgt sync_fidelity (Fin (1 / 2))) in
  let ethical_compliant :=
    forallb (SPC.apply_ethical_constraints (spc_framework self))
            (keys (SPC.quantum_states (spc_framework self))) in
  Ok (dict_set validation_results "ethical_compliance_valid" ethical_compliant).

End WithNumpy.
End System.

(* ================================================================== *)
(** ** A concrete numpy *)
(* ================================================================== *)

(** An instance of [Numpy] on which the definitions can be run: the
    generator is a counter, every uniform variate is [1/2], every normal
    variate is [0], the propagator is the identity, and the eigenvalue
    routine returns the trace followed by zeros, which is the spectrum of
    the rank-one matrices that the registry passes to it (and no eigenvalue
    for the 0x0 matrix). *)
Definition exact_numpy : Numpy :=
  {| rng := nat;
     uniform := fun _ _ => (1 / 2)%R;
     gauss := fun _ _ => 0%R;
     advance := fun g n => (g + n)%nat;
     geev := fun m =>
       match m with
       | [] => Some []
       | _ :: _ =>
           Some (of_real (re (ctrace m)) :: repeat (of_real (Fin 0)) (length m - 1))
       end;
     propagate := fun _ _ _ w => Ok w |}.

(* ================================================================== *)
(** ** Vocabulary of the statements *)
(* ================================================================== *)

Unset Implicit Arguments.

Section Vocabulary.
Context {NP : Numpy}.
Local Open Scope string_scope.
Local Open Scope R_scope.

(** The identifiers of the three layers, in creation order. *)
Definition core_ids (n : Z) : list string := map (fun i => "core_" ++ str i) (range n).
Definition agg_ids (n : Z) : list string := map (fun i => "agg_" ++ str i) (range n).
Definition edge_ids (n : Z) : list string := map (fun i => "edge_" ++ str i) (range n).

(** The three counts of a hierarchy are those of another one. *)
Definition same_config (t t' : FatTree.FatTreeHierarchy) : Prop :=
  FatTree.core_nodes t' = FatTree.core_nodes t /\
  FatTree.aggregation_nodes t' = FatTree.aggregation_nodes t /\
  FatTree.edge_nodes t' = FatTree.edge_nodes t.

(** Sums of real numbers, from the left as [fsum]. *)
Definition Rsum (rs : list R) : R := fold_left Rplus rs 0.

(** The value is [0.0] or [nan]. *)
Definition zero_or_nan (x : npfloat) : Prop := x = Fin 0 \/ x = NaN.

(** A score in [[0, 1]]; a score in [[0, 1]] or [nan]. *)
Definition in_unit (x : npfloat) : Prop := exists r, x = Fin r /\ 0 <= r <= 1.
Definition unit_or_nan (x : npfloat) : Prop := x = NaN \/ in_unit x.

(** A complex number with finite parts, and its squared modulus. *)
Definition cfin (p : R * R) : cplx := Cx (Fin (fst p)) (Fin (snd p)).
Definition sq2 (p : R * R) : R := fst p * fst p + snd p * snd p.

(** One of the two parts of a complex number is [nan]. *)
Definition has_nan (z : cplx) : Prop := re z = NaN \/ im z = NaN.

(** An entry of a finite array divided by the non-zero norm [r]. *)
Definition scaled (r : R) (p : R * R) : R * R := (fst p / r, snd p / r).

(** Entries of a finite array after a real perturbation is added. *)
Definition add_noise (ws : list (R * R)) (es : list R) : list (R * R) :=
  map (fun p => (fst (fst p) + snd p, snd (fst p) + 0)) (combine ws es).

(** The noise that [_calculate_entanglement_entropy] draws in generator
    state [g] for an array of [n] entries. *)
Definition noise_of (g : rng) (n : nat) : list R :=
  map (fun i => 0 + 1 / 100 * gauss g i) (seq 0 n).

(** The perturbed and renormalized state, and its density matrix, which
    goes to [np.linalg.eigvals]. *)
Definition noisy_state (w : ndarray) (g : rng) : ndarray :=
  let noisy := array_add_real w (map Fin (noise_of g (length (ravel w)))) in
  array_div noisy (norm noisy).

Definition noisy_density (w : ndarray) (g : rng) : list (list cplx) :=
  outer (ravel (noisy_state w g)) (map conj (ravel (noisy_state w g))).

(** The record that [create_quantum_state] and [evolve_quantum_state]
    build from a normalized wavefunction [w], in generator state [g]. *)
Definition make_record (self : SPC.SPCFramework) (g : rng) (w : ndarray)
  : result SPC.QuantumState :=
  (eigenvalues <~ eigvals (noisy_density w g) ;;
   ethical_fidelity <~ SPC._calculate_ethical_fidelity self w ;;
   Ok (SPC.mkQuantumState w (SPC._calculate_coherence w)
         (SPC.entropy_of_eigenvalues eigenvalues) ethical_fidelity))%meth.

(** The registry after [self.quantum_states[state_id] = qs]. *)
Definition stored (self : SPC.SPCFramework) (state_id : string) (qs : SPC.QuantumState)
  : SPC.SPCFramework :=
  SPC.set_quantum_states self (dict_set (SPC.quantum_states self) state_id qs).

(** The value the code computes for the spectrum [{1, 0, ..., 0}]:
    [-(1 * log2(1 + 1e-10))]. *)
Definition pure_state_entropy : R := - (ln (1 + SPC.tiny) / ln 2).

(** A node whose state is a non-empty array of norm zero. *)
Definition zero_state_node (item : string * FatTree.Node) : Prop :=
  exists q, FatTree.quantum_state (snd item) = Some q
            /\ ravel (asarray q) <> [] /\ norm (asarray q) = Fin 0.

(** A table of [r] rows and [c] columns of finite numbers, as
    [np.random.rand(r, c)] returns. *)
Definition finite_table (r c : nat) (q : matrix) : Prop :=
  exists rows : list (list R),
    q = map (map Fin) rows /\ length rows = r /\ Forall (fun row => length row = c) rows.

(** The node that [_build_hierarchy] stores at index [i] of a layer, and the
    items of a whole layer, given the states that were drawn. *)
Definition layer_node (prefix layer : string) (level : Z) (thr : R) (i : Z) (q : matrix)
  : FatTree.Node :=
  FatTree.mkNode (prefix ++ str i) layer (level, i) (Some q)
    (Some [("fidelity_threshold", Fin thr)]).

Definition layer_items (prefix layer : string) (level : Z) (thr : R)
    (indices : list Z) (qs : list matrix) : dict FatTree.Node :=
  map (fun p => (prefix ++ str (fst p), layer_node prefix layer level thr (fst p) (snd p)))
      (combine indices qs).

(** The complete bipartite edge set between two lists of identifiers, in
    the order of the two nested loops of [_create_edges]. *)
Definition pairs (xs ys : list string) : list (string * string) :=
  flat_map (fun x => map (fun y => (x, y)) ys) xs.

(** The hierarchy that [FatTreeHierarchy(c, a, e)] builds when the states
    [qc], [qa], [qe] are drawn for the three layers. *)
Definition built_tree (c a e : Z) (qc qa qe : list matrix) : FatTree.FatTreeHierarchy :=
  FatTree.mkFatTree c a e
    (layer_items "core_" "core" 0 (95 / 100) (range c) qc
     ++ layer_items "agg_" "aggregation" 1 (90 / 100) (range a) qa
     ++ layer_items "edge_" "edge" 2 (85 / 100) (range e) qe)%list
    (pairs (core_ids c) (agg_ids a) ++ pairs (agg_ids a) (edge_ids e))%list.

(** The states drawn for a layer: one finite 4x4 table per index. *)
Definition layer_states (n : Z) (qs : list matrix) : Prop :=
  length qs = length (range n) /\ Forall (finite_table 4 4) qs.

(** The three constraints that [_initialize_ethical_constraints] installs,
    applied to the metrics of a record. *)
Definition within_default_constraints (qs : SPC.QuantumState) : bool :=
  negb (flt (SPC.ethical_fidelity qs) (Fin (95 / 100)))
  && negb (flt (SPC.coherence qs) (Fin (90 / 100)))
  && negb (fgt (SPC.entanglement_entropy qs) (Fin (85 / 100))).

(** The registry of a system, and its identifiers. *)
Definition registry (sys : System.SystemArchitecture) : dict SPC.QuantumState :=
  SPC.quantum_states (System.spc_framework sys).

(** What [get_connected_nodes] selects from one edge: the other end of an
    edge that touches [x]. *)
Definition other_end (x : string) (edge : string * string) : list string :=
  if String.eqb (fst edge) x then [snd edge]
  else if String.eqb (snd edge) x then [fst edge]
  else [].

(** Products of rows, the trace of [a @ b.T] and the sum of the squared
    entries of a table of real numbers. *)
Definition Rdot (r1 r2 : list R) : R :=
  Rsum (map (fun p => fst p * snd p) (combine r1 r2)).
Definition Roverlap (a b : list (list R)) : R :=
  Rsum (map (fun p => Rdot (fst p) (snd p)) (combine a b)).
Definition Rsquares (a : list (list R)) : R :=
  Rsum (map (fun x => x * x) (concat a)).

(** No node of the hierarchy holds a state of norm zero. *)
Definition nonzero_states (self : FatTree.FatTreeHierarchy) : Prop :=
  Forall (fun node => forall q, FatTree.quantum_state node = Some q ->
                                FatTree.frobenius q <> Fin 0)
         (values (FatTree.nodes self)).

(** A utility: [nan], or a number between [0] and [bound]. *)
Definition utility_within (bound : R) (u : npfloat) : Prop :=
  u = NaN \/ exists r, u = Fin r /\ 0 <= r <= bound.

(** Product and conjugate of complex numbers given by their parts, and the
    terms of [np.vdot(a, b)]. *)
Definition Cmul (p q : R * R) : R * R :=
  (fst p * fst q + - (snd p * snd q), fst p * snd q + snd p * fst q).
Definition Cconj (p : R * R) : R * R := (fst p, - snd p).
Definition vdot_terms (a b : list (R * R)) : list (R * R) :=
  map (fun p => Cmul (Cconj (fst p)) (snd p)) (combine a b).


(** Bounds on a squared norm between which [np.linalg.norm] and the
    division by it neither overflow nor underflow in [float64]: 1e-200 and
    1e200. *)
Definition sq_norm_min : R := / 10 ^ 200.
Definition sq_norm_max : R := 10 ^ 200.

Definition well_scaled_table (a : list (list R)) : Prop :=
  sq_norm_min <= Rsquares a <= sq_norm_max.


End Vocabulary.

(* ================================================================== *)
(** ** Concrete inputs *)
(* ================================================================== *)

Section Inputs.
Local Open Scope string_scope.
Local Open Scope R_scope.

(** The 2x2 wavefunction [[[1, 0], [0, 0]]], the zero array of the same
    shape, and the zero Hamiltonian (for which the propagator of
    [evolve_quantum_state] is the identity). *)
Definition basis_state : ndarray :=
  Array [2%nat; 2%nat] (map cfin [(1, 0); (0, 0); (0, 0); (0, 0)]).
Definition zero_state : ndarray :=
  Array [2%nat; 2%nat] (map cfin [(0, 0); (0, 0); (0, 0); (0, 0)]).
Definition zero_hamiltonian : ndarray :=
  Array [2%nat; 2%nat] (map cfin [(0, 0); (0, 0); (0, 0); (0, 0)]).

(** A framework of dimension 2 with an empty registry, whose reference
    field is the normalized constant matrix. *)
Definition demo_field : ndarray :=
  Array [2%nat; 2%nat] (map cfin [(1 / 2, 0); (1 / 2, 0); (1 / 2, 0); (1 / 2, 0)]).
Definition demo_framework : SPC.SPCFramework :=
  SPC.mkSPC 2 [] [] (Some demo_field).

(** [np.zeros((4, 4))] and [np.ones((4, 4))] *)
Definition zeros_4x4 : matrix := repeat (repeat (Fin 0) 4) 4.
Definition ones_4x4 : matrix := repeat (repeat (Fin 1) 4) 4.

(** The nodes [core_0] and [agg_0] as [_build_hierarchy] creates them, with
    a given state. *)
Definition core_node (q : option matrix) : FatTree.Node :=
  FatTree.mkNode "core_0" "core" (0%Z, 0%Z) q
    (Some [("fidelity_threshold", Fin (95 / 100))]).
Definition agg_node (q : option matrix) : FatTree.Node :=
  FatTree.mkNode "agg_0" "aggregation" (1%Z, 0%Z) q
    (Some [("fidelity_threshold", Fin (90 / 100))]).

(** A framework of dimension 4 with an empty registry, and the status of a
    system that was just constructed. *)
Definition field_4x4 : ndarray :=
  Array [4%nat; 4%nat] (map cfin (repeat (1 / 4, 0) 16)).
Definition framework_4 : SPC.SPCFramework := SPC.mkSPC 4 [] [] (Some field_4x4).
Definition fresh_state : System.SystemState :=
  System.mkSystemState true (Fin 0) (Fin 0) (Fin 0) (Fin 0).

(** A system whose hierarchy has the single node [core_0], with the zero
    matrix as its state. *)
Definition zero_node_tree : FatTree.FatTreeHierarchy :=
  FatTree.mkFatTree 1 0 0 [("core_0", core_node (Some zeros_4x4))] [].
Definition zero_node_system : System.SystemArchitecture :=
  System.mkSystem zero_node_tree framework_4 fresh_state.

(** A system with no nodes and one registered record. *)
Definition unit_state_4x4 : ndarray :=
  Array [4%nat; 4%nat] (map cfin ((1, 0) :: repeat (0, 0) 15)).
Definition registered_record : SPC.QuantumState :=
  SPC.mkQuantumState unit_state_4x4 (Fin 1) (Fin pure_state_entropy) (Fin (1 / 4)).
Definition empty_tree : FatTree.FatTreeHierarchy := FatTree.mkFatTree 0 0 0 [] [].
Definition one_record_system : System.SystemArchitecture :=
  System.mkSystem empty_tree (stored framework_4 "psi" registered_record) fresh_state.

(** The zero matrix that is passed to [update_consciousness_field], the
    field that the call stores (every entry is [0.0 / 0.0]), and the system
    after the call. *)
Definition zero_field : ndarray := Array [4%nat; 4%nat] (map cfin (repeat (0, 0) 16)).
Definition nan_field : ndarray := Array [4%nat; 4%nat] (repeat (Cx NaN NaN) 16).
Definition nan_field_system : System.SystemArchitecture :=
  System.mkSystem empty_tree
    (SPC.set_consciousness_field (stored framework_4 "psi" registered_record)
       (Some nan_field))
    fresh_state.

(** A system with no nodes whose framework is [demo_framework]. *)
Definition demo_system : System.SystemArchitecture :=
  System.mkSystem empty_tree demo_framework fresh_state.

(** A framework whose record has 16 entries while its reference field has
    4. *)
Definition mismatched_framework : SPC.SPCFramework :=
  stored demo_framework "psi" registered_record.

(** The state that the concrete numpy draws for every node, and the
    hierarchy with the single node [core_0] that it builds. *)
Definition half_4x4 : matrix := repeat (repeat (Fin (1 / 2)) 4) 4.
Definition one_node_tree : FatTree.FatTreeHierarchy :=
  built_tree 1 0 0 [half_4x4] [] [].

(** The empty array [np.array([])], whose norm is [0.0]. *)
Definition empty_array : ndarray := Array [0%nat] [].

End Inputs.

(* ================================================================== *)
(** * Properties *)
(* ================================================================== *)

(** ** Dictionaries and node identifiers *)

Section DictFacts.
Variable V : Type.
Implicit Types (d : dict V) (k : string) (v : V).

Lemma dict_get_set_same d k v : dict_get (dict_set d k v) k = Some v.
Proof.
  induction d as [|[k' v'] d IH]; simpl.
  - now rewrite String.eqb_refl.
  - destruct (String.eqb k' k) eqn:E; simpl; rewrite E; auto.
Qed.

Lemma dict_get_in_keys d k : dict_get d k <> None <-> In k (keys d).
Proof.
  induction d as [|[k' v'] d IH]; simpl.
  - tauto.
  - destruct (String.eqb_spec k' k) as [->|Hne].
    + split; [auto | discriminate].
    + rewrite IH. split; [auto | intros [|]; congruence].
Qed.

Lemma keys_set_present d k v : In k (keys d) -> keys (dict_set d k v) = keys d.
Proof.
  induction d as [|[k' v'] d IH]; simpl; [tauto|].
  intros H. destruct (String.eqb_spec k' k) as [->|Hne]; simpl; auto.
  f_equal. apply IH. destruct H; congruence.
Qed.

Lemma keys_set_fresh d k v : ~ In k (keys d) -> keys (dict_set d k v) = keys d ++ [k].
Proof.
  induction d as [|[k' v'] d IH]; simpl; auto.
  intros H. destruct (String.eqb_spec k' k) as [->|Hne]; simpl.
  - tauto.
  - f_equal. apply IH. tauto.
Qed.

Lemma length_set_present d k v : In k (keys d) -> length (dict_set d k v) = length d.
Proof.
  intros H. apply (keys_set_present _ _ v) in H.
  apply (f_equal (@length string)) in H. unfold keys in H.
  now rewrite !length_map in H.
Qed.

End DictFacts.

Lemma to_int_not_nil (i : Z) : Z.to_int i <> Pos Nil /\ Z.to_int i <> Neg Nil.
Proof.
  destruct i; simpl; split; try discriminate;
    intros [= H]; now apply Unsigned.to_uint_nonnil in H.
Qed.

Lemma str_inj (i j : Z) : str i = str j -> i = j.
Proof.
  unfold str. intros H.
  apply DecimalZ.to_int_inj.
  destruct (to_int_not_nil i) as [Hi Hi'], (to_int_not_nil j) as [Hj Hj'].
  pose proof (@NilZero.isi _ Hi Hi') as Ei.
  pose proof (@NilZero.isi _ Hj Hj') as Ej.
  rewrite H in Ei. congruence.
Qed.

Lemma range_length (n : Z) : length (range n) = Z.to_nat n.
Proof. unfold range. now rewrite length_map, length_seq. Qed.

Lemma range_NoDup (n : Z) : NoDup (range n).
Proof.
  unfold range. apply Finite.Injective_map_NoDup.
  - intros a b. apply Nat2Z.inj.
  - apply seq_NoDup.
Qed.

Lemma ids_NoDup (prefix : string) (n : Z) :
  NoDup (map (fun i => (prefix ++ str i)%string) (range n)).
Proof.
  apply Finite.Injective_map_NoDup; [|apply range_NoDup].
  intros a b H. apply str_inj.
  induction prefix; simpl in H; [assumption|].
  injection H. auto.
Qed.

(** ** Building the hierarchy *)

Section BuildFacts.
Context {NP : Numpy}.
Import FatTree.
Local Open Scope meth_scope.

Lemma random_rand_returns {S} (d0 d1 : Z) (s : S) (g : rng) :
  (0 <= d0)%Z -> (0 <= d1)%Z ->
  exists q g', random_rand d0 d1 (s, g) = (Ok q, (s, g')).
Proof.
  intros H0 H1. unfold random_rand.
  destruct (Z.ltb_spec d0 0); [lia|]. destruct (Z.ltb_spec d1 0); [lia|].
  simpl. eauto.
Qed.

Lemma layer_loop (f : Z -> string) (mk : Z -> matrix -> Node) (l : list Z) :
  forall t g,
    NoDup (keys (nodes t) ++ map f l) ->
    exists t' g',
      for_each l (fun i => q <- random_rand 4 4 ;; store_node (f i) (mk i q)) (t, g)
      = (Ok tt, (t', g'))
      /\ keys (nodes t') = keys (nodes t) ++ map f l
      /\ edges t' = edges t
      /\ same_config t t'.
Proof.
  induction l as [|i l IH]; intros t g Hnd; simpl.
  - exists t, g. rewrite app_nil_r. unfold same_config. repeat split; reflexivity.
  - destruct (random_rand_returns (S:=FatTreeHierarchy) 4 4 t g) as (q & g1 & Hq); [lia | lia |].
    unfold bind at 1 2. rewrite Hq. unfold store_node at 1. simpl fst; simpl snd.
    set (t1 := set_nodes t (dict_set (nodes t) (f i) (mk i q))).
    assert (Hk : keys (nodes t1) = keys (nodes t) ++ [f i]).
    { subst t1. simpl. apply keys_set_fresh.
      intros Hin. apply NoDup_remove_2 in Hnd. apply Hnd.
      apply in_or_app. now left. }
    destruct (IH t1 g1) as (t' & g' & He & Hk' & Hed & Hc).
    { rewrite Hk, <- app_assoc. exact Hnd. }
    exists t', g'. rewrite He, Hk', Hk, <- app_assoc. repeat split; auto;
      destruct Hc as (? & ? & ?); subst t1; simpl in *; auto.
Qed.

Lemma inner_edge_loop (c : string) (l : list string) :
  forall t g,
    exists t',
      for_each l (fun a => append_edge (c, a)) (t, g) = (Ok tt, (t', g))
      /\ edges t' = edges t ++ map (fun a => (c, a)) l
      /\ nodes t' = nodes t
      /\ same_config t t'.
Proof.
  induction l as [|a l IH]; intros t g; simpl.
  - exists t. rewrite app_nil_r. unfold same_config. repeat split; reflexivity.
  - unfold bind at 1. unfold append_edge at 1. simpl fst; simpl snd.
    destruct (IH (set_edges t (edges t ++ [(c, a)])) g) as (t' & He & Hed & Hn & Hc).
    exists t'. rewrite He, Hed. simpl. rewrite <- app_assoc.
    repeat split; auto; destruct Hc as (? & ? & ?); simpl in *; auto.
Qed.

Lemma outer_edge_loop (outer inner : list string) :
  forall t g,
    exists t',
      for_each outer (fun c => for_each inner (fun a => append_edge (c, a))) (t, g)
      = (Ok tt, (t', g))
      /\ edges t' = edges t ++ flat_map (fun c => map (fun a => (c, a)) inner) outer
      /\ nodes t' = nodes t
      /\ same_config t t'.
Proof.
  induction outer as [|c outer IH]; intros t g; simpl.
  - exists t. rewrite app_nil_r. unfold same_config. repeat split; reflexivity.
  - destruct (inner_edge_loop c inner t g) as (t1 & He1 & Hed1 & Hn1 & Hc1).
    unfold bind at 1. rewrite He1.
    destruct (IH t1 g) as (t' & He & Hed & Hn & Hc).
    exists t'. rewrite He, Hed, Hed1, <- app_assoc.
    repeat split; try congruence;
      destruct Hc as (? & ? & ?), Hc1 as (? & ? & ?); congruence.
Qed.

Lemma pairs_length (outer inner : list string) :
  length (flat_map (fun c => map (fun a => (c, a)) inner) outer)
  = (length outer * length inner)%nat.
Proof.
  apply flat_map_constant_length. intros. apply length_map.
Qed.

Lemma all_ids_NoDup (c a e : Z) : NoDup (core_ids c ++ agg_ids a ++ edge_ids e).
Proof.
  unfold core_ids, agg_ids, edge_ids.
  apply NoDup_app; [apply ids_NoDup | apply NoDup_app; try apply ids_NoDup |].
  - intros k H1 H2. apply in_map_iff in H1 as (i & <- & _).
    apply in_map_iff in H2 as (j & Hj & _). discriminate.
  - intros k H1 H2. apply in_map_iff in H1 as (i & <- & _).
    apply in_app_or in H2 as [H2|H2]; apply in_map_iff in H2 as (j & Hj & _);
      discriminate.
Qed.

(** The constructor returns, whatever the counts, with the identifiers of
    the three layers in order and the two complete bipartite edge sets. *)
Lemma init_shape (c a e : Z) (g : rng) :
  exists self g',
    __init__ c a e g = (Ok self, g')
    /\ keys (nodes self) = core_ids c ++ agg_ids a ++ edge_ids e
    /\ edges self =
         flat_map (fun x => map (fun y => (x, y)) (agg_ids a)) (core_ids c)
         ++ flat_map (fun x => map (fun y => (x, y)) (edge_ids e)) (agg_ids a)
    /\ core_nodes self = c /\ aggregation_nodes self = a /\ edge_nodes self = e.
Proof.
  pose proof (all_ids_NoDup c a e) as Hnd.
  unfold __init__, _build_hierarchy.
  set (t0 := mkFatTree c a e [] []).
  unfold bind at 1. unfold self_ at 1. simpl fst.
  destruct (layer_loop (fun i => ("core_" ++ str i)%string)
              (fun i q => mkNode ("core_" ++ str i) "core" (0%Z, i) (Some q)
                            (Some [("fidelity_threshold"%string, Fin (95 / 100))]))
              (range (core_nodes t0)) t0 g)
    as (t1 & g1 & E1 & K1 & Ed1 & C1).
  { simpl. apply NoDup_app_remove_r with (l' := agg_ids a ++ edge_ids e).
    exact Hnd. }
  unfold bind at 1. rewrite E1. clear E1.
  destruct (layer_loop (fun i => ("agg_" ++ str i)%string)
              (fun i q => mkNode ("agg_" ++ str i) "aggregation" (1%Z, i) (Some q)
                            (Some [("fidelity_threshold"%string, Fin (90 / 100))]))
              (range (aggregation_nodes t0)) t1 g1)
    as (t2 & g2 & E2 & K2 & Ed2 & C2).
  { rewrite K1. simpl. apply NoDup_app_remove_r with (l' := edge_ids e).
    rewrite <- app_assoc. exact Hnd. }
  unfold bind at 1. rewrite E2. clear E2.
  destruct (layer_loop (fun i => ("edge_" ++ str i)%string)
              (fun i q => mkNode ("edge_" ++ str i) "edge" (2%Z, i) (Some q)
                            (Some [("fidelity_threshold"%string, Fin (85 / 100))]))
              (range (edge_nodes t0)) t2 g2)
    as (t3 & g3 & E3 & K3 & Ed3 & C3).
  { rewrite K2, K1. simpl. rewrite <- app_assoc. exact Hnd. }
  unfold bind at 1. rewrite E3. clear E3.
  destruct C1 as (C1a & C1b & C1c), C2 as (C2a & C2b & C2c), C3 as (C3a & C3b & C3c).
  simpl in C1a, C1b, C1c.
  assert (Hc : core_nodes t3 = c) by congruence.
  assert (Ha : aggregation_nodes t3 = a) by congruence.
  assert (He : edge_nodes t3 = e) by congruence.
  unfold _create_edges. unfold bind at 1. unfold self_ at 1. simpl fst.
  rewrite Hc, Ha, He.
  destruct (outer_edge_loop (core_ids c) (agg_ids a) t3 g3) as (t4 & E4 & Ed4 & N4 & C4).
  unfold bind at 1. unfold core_ids, agg_ids in E4. rewrite E4. clear E4.
  destruct (outer_edge_loop (agg_ids a) (edge_ids e) t4 g3) as (t5 & E5 & Ed5 & N5 & C5).
  unfold agg_ids, edge_ids in E5. rewrite E5. clear E5.
  exists t5, g3. split; [reflexivity|].
  destruct C4 as (? & ? & ?), C5 as (? & ? & ?).
  repeat split; try congruence.
  - rewrite N5, N4, K3, K2, K1. simpl. now rewrite <- app_assoc.
  - rewrite Ed5, Ed4, Ed3, Ed2, Ed1. simpl. reflexivity.
Qed.

End BuildFacts.

(** C1. For non-negative counts the constructor returns a hierarchy with
    exactly [core + agg + edge] nodes and exactly
    [core * agg + agg * edge] edges: the two complete bipartite edge sets
    core-aggregation and aggregation-edge. *)
Theorem hierarchy_counts {NP : Numpy} (core agg edge : Z) (g : rng) :
  (0 <= core)%Z -> (0 <= agg)%Z -> (0 <= edge)%Z ->
  exists self g',
    FatTree.__init__ core agg edge g = (Ok self, g')
    /\ len (FatTree.nodes self) = (core + agg + edge)%Z
    /\ len (FatTree.edges self) = (core * agg + agg * edge)%Z
    /\ FatTree.edges self =
         flat_map (fun x => map (fun y => (x, y)) (agg_ids agg)) (core_ids core)
         ++ flat_map (fun x => map (fun y => (x, y)) (edge_ids edge)) (agg_ids agg).
Proof.
  intros Hc Ha He.
  destruct (init_shape core agg edge g) as (self & g' & E & K & Ed & _).
  exists self, g'. split; [exact E|].
  assert (Hn : length (FatTree.nodes self)
               = (Z.to_nat core + Z.to_nat agg + Z.to_nat edge)%nat).
  { rewrite <- (length_map fst). fold (keys (FatTree.nodes self)). rewrite K.
    unfold core_ids, agg_ids, edge_ids.
    rewrite !length_app, !length_map, !range_length. lia. }
  assert (Hm : length (FatTree.edges self)
               = (Z.to_nat core * Z.to_nat agg + Z.to_nat agg * Z.to_nat edge)%nat).
  { rewrite Ed, length_app, !pairs_length. unfold core_ids, agg_ids, edge_ids.
    now rewrite !length_map, !range_length. }
  unfold len. rewrite Hn, Hm. repeat split; [lia | nia | exact Ed].
Qed.

Lemma hierarchy_counts_witness :
  exists self g',
    FatTree.__init__ (NP := exact_numpy) 4 8 16 0%nat = (Ok self, g')
    /\ len (FatTree.nodes self) = 28%Z
    /\ len (FatTree.edges self) = 160%Z.
Proof.
  destruct (hierarchy_counts (NP:=exact_numpy) 4 8 16 0%nat)
    as (self & g' & E & Hn & Hm & _); [lia | lia | lia |].
  exists self, g'. repeat split; assumption.
Defined.

(** ** Arithmetic of [npfloat] *)

Section FloatFacts.
Local Open Scope R_scope.

Lemma Rltb_true (a b : R) : a < b -> Rltb a b = true.
Proof. intros H. unfold Rltb. destruct (Rlt_dec a b); [reflexivity | contradiction]. Qed.

Lemma Rltb_false (a b : R) : b <= a -> Rltb a b = false.
Proof. intros H. unfold Rltb. destruct (Rlt_dec a b); [lra | reflexivity]. Qed.

Lemma Reqb_true (a b : R) : a = b -> Reqb a b = true.
Proof. intros H. unfold Reqb. destruct (Req_dec_T a b); [reflexivity | contradiction]. Qed.

Lemma Reqb_false (a b : R) : a <> b -> Reqb a b = false.
Proof. intros H. unfold Reqb. destruct (Req_dec_T a b); [contradiction | reflexivity]. Qed.

Lemma fadd_comm (x y : npfloat) : fadd x y = fadd y x.
Proof. destruct x, y; simpl; try reflexivity. f_equal. apply Rplus_comm. Qed.

Lemma fmul_comm (x y : npfloat) : fmul x y = fmul y x.
Proof. destruct x, y; simpl; try reflexivity. f_equal. apply Rmult_comm. Qed.

Lemma fadd_fin_inv (x y : npfloat) (c : R) :
  fadd x y = Fin c -> exists a b, x = Fin a /\ y = Fin b /\ c = a + b.
Proof.
  destruct x, y; simpl; try discriminate. intros [= <-]. eauto.
Qed.

Lemma fold_Rplus (rs : list R) (a : R) : fold_left Rplus rs a = a + Rsum rs.
Proof.
  unfold Rsum. revert a. induction rs as [|r rs IH]; intros a; simpl.
  - lra.
  - rewrite (IH (a + r)), (IH (0 + r)). lra.
Qed.

Lemma Rsum_cons (r : R) (rs : list R) : Rsum (r :: rs) = r + Rsum rs.
Proof. unfold Rsum. simpl. rewrite fold_Rplus. unfold Rsum. lra. Qed.

Lemma Rsum_nil : Rsum [] = 0.
Proof. reflexivity. Qed.

Lemma fold_fadd_fin (rs : list R) (a : R) :
  fold_left fadd (map Fin rs) (Fin a) = Fin (fold_left Rplus rs a).
Proof.
  revert a. induction rs as [|r rs IH]; intros a; simpl; [reflexivity | apply IH].
Qed.

Lemma fsum_fin (rs : list R) : fsum (map Fin rs) = Fin (Rsum rs).
Proof. apply fold_fadd_fin. Qed.

Lemma fold_fadd_fin_inv (l : list npfloat) :
  forall acc s,
    fold_left fadd l acc = Fin s ->
    exists a rs, acc = Fin a /\ l = map Fin rs /\ s = fold_left Rplus rs a.
Proof.
  induction l as [|x l IH]; intros acc s H; simpl in H.
  - exists s, []. auto.
  - apply IH in H as (a & rs & Ha & -> & ->).
    apply fadd_fin_inv in Ha as (a0 & b & -> & -> & ->).
    exists a0, (b :: rs). auto.
Qed.

Lemma fsum_fin_inv (l : list npfloat) (s : R) :
  fsum l = Fin s -> exists rs, l = map Fin rs /\ s = Rsum rs.
Proof.
  intros H. apply fold_fadd_fin_inv in H as (a & rs & [= <-] & -> & ->). eauto.
Qed.

Lemma fsqrt_fin_inv (x : npfloat) (r : R) :
  fsqrt x = Fin r -> exists a, x = Fin a /\ 0 <= a /\ r = sqrt a.
Proof.
  destruct x as [a| | |]; simpl; try discriminate.
  unfold Rltb. destruct (Rlt_dec a 0); [discriminate|].
  intros [= <-]. exists a. repeat split; lra.
Qed.

Lemma fdiv_fin (a b : R) : b <> 0 -> fdiv (Fin a) (Fin b) = Fin (a / b).
Proof. intros H. simpl. now rewrite Reqb_false. Qed.

Lemma fsqrt_fin (a : R) : 0 <= a -> fsqrt (Fin a) = Fin (sqrt a).
Proof. intros H. simpl. now rewrite Rltb_false. Qed.

Lemma fmul_self_fin_inv (x : npfloat) (c : R) :
  fmul x x = Fin c -> exists a, x = Fin a /\ c = a * a.
Proof. destruct x; simpl; try discriminate. intros [= <-]. eauto. Qed.

Lemma Rsum_squares_nonneg (rs : list R) : 0 <= Rsum (map (fun a => a * a) rs).
Proof.
  induction rs as [|r rs IH]; simpl.
  - rewrite Rsum_nil. lra.
  - rewrite Rsum_cons. nra.
Qed.

Lemma Rsum_squares_zero (rs : list R) :
  Rsum (map (fun a => a * a) rs) = 0 -> Forall (fun a => a = 0) rs.
Proof.
  induction rs as [|r rs IH]; simpl; intros H.
  - constructor.
  - rewrite Rsum_cons in H. pose proof (Rsum_squares_nonneg rs).
    constructor; [nra | apply IH; nra].
Qed.

(** A list of squares that sums to a number holds only numbers. *)
Lemma squares_fin_inv (l : list npfloat) (s : R) :
  fsum (map (fun x => fmul x x) l) = Fin s ->
  exists rs, l = map Fin rs /\ s = Rsum (map (fun a => a * a) rs).
Proof.
  intros H. apply fsum_fin_inv in H as (qs & Hq & ->).
  revert qs Hq. induction l as [|x l IH]; intros [|q qs]; simpl; try discriminate.
  - intros _. exists []. auto.
  - intros [= Hx Hl]. apply fmul_self_fin_inv in Hx as (a & -> & ->).
    destruct (IH qs Hl) as (rs & -> & E). exists (a :: rs). split; [reflexivity|].
    simpl. now rewrite !Rsum_cons, E.
Qed.

End FloatFacts.

(** ** Diagonals and products *)

Section MatrixFacts.
Local Open Scope R_scope.

Lemma skipn_nth_error_some {A} (v : list A) (i : nat) (b : A) :
  nth_error v i = Some b -> skipn i v = b :: skipn (S i) v.
Proof.
  revert i. induction v as [|x v IH]; intros [|i]; simpl; try discriminate.
  - now intros [= ->].
  - intros H. now rewrite (IH i H).
Qed.

Lemma skipn_nth_error_none {A} (v : list A) (i : nat) :
  nth_error v i = None -> skipn i v = [].
Proof.
  revert i. induction v as [|x v IH]; intros [|i]; simpl; try discriminate; auto.
Qed.

(** The diagonal of the table [f x y] is [f] along the two index lists. *)
Lemma diag_from_table {A B C} (f : A -> B -> C) (u : list A) (v : list B) :
  forall i,
    diag_from i (map (fun x => map (f x) v) u)
    = map (fun p => f (fst p) (snd p)) (combine u (skipn i v)).
Proof.
  induction u as [|x u IH]; intros i; simpl; [reflexivity|].
  rewrite nth_error_map. destruct (nth_error v i) as [b|] eqn:E; simpl.
  - rewrite (skipn_nth_error_some _ _ _ E). simpl. f_equal. apply IH.
  - now rewrite (skipn_nth_error_none _ _ E).
Qed.

Lemma map_combine_swap {A B C} (f : A -> B -> C) (l1 : list A) (l2 : list B) :
  map (fun p => f (fst p) (snd p)) (combine l1 l2)
  = map (fun p => f (snd p) (fst p)) (combine l2 l1).
Proof.
  revert l2. induction l1 as [|a l1 IH]; intros [|b l2]; simpl; try reflexivity.
  f_equal. apply IH.
Qed.

Lemma dot_comm (r1 r2 : list npfloat) : FatTree.dot r1 r2 = FatTree.dot r2 r1.
Proof.
  unfold FatTree.dot. f_equal.
  rewrite (map_combine_swap fmul r1 r2).
  apply map_ext. intros p. apply fmul_comm.
Qed.

Lemma trace_product (a b : matrix) :
  FatTree.trace (map (fun ra => map (fun rb => FatTree.dot ra rb) b) a)
  = fsum (map (fun p => FatTree.dot (fst p) (snd p)) (combine a b)).
Proof.
  unfold FatTree.trace, FatTree.diagonal.
  exact (f_equal fsum (diag_from_table FatTree.dot a b 0)).
Qed.

Lemma trace_product_comm (a b : matrix) :
  FatTree.trace (map (fun ra => map (fun rb => FatTree.dot ra rb) b) a)
  = FatTree.trace (map (fun rb => map (fun ra => FatTree.dot rb ra) a) b).
Proof.
  rewrite !trace_product. f_equal.
  rewrite (map_combine_swap FatTree.dot a b).
  apply map_ext. intros p. apply dot_comm.
Qed.

End MatrixFacts.

(** C7. The synchronization fidelity of two nodes does not depend on their
    order: the two calls return the same value, or raise the same
    exception. *)
Theorem sync_fidelity_symmetric (node1 node2 : FatTree.Node) :
  FatTree._calculate_sync_fidelity node1 node2
  = FatTree._calculate_sync_fidelity node2 node1.
Proof.
  unfold FatTree._calculate_sync_fidelity.
  destruct (FatTree.quantum_state node1) as [a|], (FatTree.quantum_state node2) as [b|];
    try reflexivity.
  unfold FatTree.matmul_T. rewrite (Nat.eqb_sym (FatTree.ncols b)).
  destruct (Nat.eqb (FatTree.ncols a) (FatTree.ncols b)); [|reflexivity].
  simpl. rewrite (trace_product_comm a b).
  now rewrite (fmul_comm (FatTree.frobenius a)).
Qed.

(** ** Zero norms *)

Section ZeroNorm.
Local Open Scope R_scope.

Lemma zn_fmul_zero (y : npfloat) : zero_or_nan (fmul (Fin 0) y).
Proof.
  destruct y as [b| | |]; simpl; unfold zero_or_nan, inf_times;
    rewrite ?(Reqb_true 0 0 eq_refl); auto.
  left. f_equal. ring.
Qed.

Lemma zn_fadd (x y : npfloat) : zero_or_nan x -> zero_or_nan y -> zero_or_nan (fadd x y).
Proof.
  intros [->| ->] [->| ->]; simpl; unfold zero_or_nan; auto.
  left. f_equal. ring.
Qed.

Lemma zn_fold (l : list npfloat) :
  Forall zero_or_nan l -> forall acc, zero_or_nan acc -> zero_or_nan (fold_left fadd l acc).
Proof.
  induction 1 as [|x l Hx Hl IH]; intros acc Hacc; simpl; [assumption|].
  apply IH. now apply zn_fadd.
Qed.

Lemma zn_fsum (l : list npfloat) : Forall zero_or_nan l -> zero_or_nan (fsum l).
Proof. intros H. apply zn_fold; [assumption | now left]. Qed.

Lemma zn_dot (ra rb : list npfloat) :
  Forall (fun x => x = Fin 0) ra -> zero_or_nan (FatTree.dot ra rb).
Proof.
  intros H. unfold FatTree.dot. apply zn_fsum.
  revert rb. induction H as [|x ra -> Hra IH]; intros [|y rb]; simpl; constructor.
  - apply zn_fmul_zero.
  - apply IH.
Qed.

Lemma fsqrt_zero_inv (x : npfloat) : fsqrt x = Fin 0 -> x = Fin 0.
Proof.
  intros H. apply fsqrt_fin_inv in H as (a & -> & Ha & E).
  f_equal. symmetry in E. now apply sqrt_eq_0.
Qed.

Lemma squares_zero_inv (l : list npfloat) :
  fsum (map (fun x => fmul x x) l) = Fin 0 -> Forall (fun x => x = Fin 0) l.
Proof.
  intros H. apply squares_fin_inv in H as (rs & -> & E).
  symmetry in E. apply Rsum_squares_zero in E.
  induction E as [|r rs -> _ IH]; simpl; constructor; auto.
Qed.

Lemma frobenius_zero_inv (a : matrix) :
  FatTree.frobenius a = Fin 0 -> Forall (Forall (fun x => x = Fin 0)) a.
Proof.
  intros H. apply fsqrt_zero_inv, squares_zero_inv in H.
  now apply Forall_concat in H.
Qed.

Lemma zn_fdiv (x y : npfloat) : zero_or_nan x -> zero_or_nan y -> fdiv x y = NaN.
Proof.
  intros [->| ->] [->| ->]; simpl; try reflexivity.
  now rewrite (Reqb_true 0 0 eq_refl).
Qed.

Lemma zn_fabs (x : npfloat) : zero_or_nan x -> zero_or_nan (fabs x).
Proof.
  intros [->| ->]; simpl; [left | now right]. f_equal. apply Rabs_R0.
Qed.

(** The parts of the description of the fidelity that the code follows: [0]
    for an absent state, and otherwise the clipped quotient of the absolute
    trace, which is the sum of the products of corresponding rows, by the
    product of the two norms. *)
Lemma sync_fidelity_absent (node1 node2 : FatTree.Node) :
  FatTree.quantum_state node1 = None \/ FatTree.quantum_state node2 = None ->
  FatTree._calculate_sync_fidelity node1 node2 = Ok (Fin 0).
Proof.
  unfold FatTree._calculate_sync_fidelity. intros [-> | ->]; [reflexivity|].
  now destruct (FatTree.quantum_state node1).
Qed.

Lemma sync_fidelity_formula (node1 node2 : FatTree.Node) (a b : matrix) :
  FatTree.quantum_state node1 = Some a ->
  FatTree.quantum_state node2 = Some b ->
  FatTree.ncols a = FatTree.ncols b ->
  FatTree._calculate_sync_fidelity node1 node2
  = Ok (clip (fdiv (fabs (fsum (map (fun p => FatTree.dot (fst p) (snd p)) (combine a b))))
                   (fmul (FatTree.frobenius a) (FatTree.frobenius b)))
             (Fin 0) (Fin 1)).
Proof.
  intros Ha Hb Hcols. unfold FatTree._calculate_sync_fidelity.
  rewrite Ha, Hb. unfold FatTree.matmul_T. rewrite Hcols, Nat.eqb_refl. simpl.
  now rewrite trace_product.
Qed.

(** The fidelity of a node whose state has Frobenius norm [0.0] is [nan],
    whatever the other state (of a compatible shape) is. *)
Lemma sync_fidelity_zero_norm (node1 node2 : FatTree.Node) (a b : matrix) :
  FatTree.quantum_state node1 = Some a ->
  FatTree.quantum_state node2 = Some b ->
  FatTree.ncols a = FatTree.ncols b ->
  FatTree.frobenius a = Fin 0 ->
  FatTree._calculate_sync_fidelity node1 node2 = Ok NaN.
Proof.
  intros Ha Hb Hcols Hz. unfold FatTree._calculate_sync_fidelity.
  rewrite Ha, Hb. unfold FatTree.matmul_T. rewrite Hcols, Nat.eqb_refl. simpl.
  rewrite Hz. rewrite zn_fdiv; [reflexivity | | apply zn_fmul_zero].
  apply zn_fabs. rewrite trace_product. apply zn_fsum.
  apply frobenius_zero_inv in Hz. clear Ha Hb Hcols.
  revert b. induction Hz as [|ra a Hra _ IH]; intros [|rb b]; simpl; constructor.
  - now apply zn_dot.
  - apply IH.
Qed.

End ZeroNorm.

(** ** Finite and poisoned complex arrays *)

Section ArrayFacts.
Local Open Scope R_scope.

Lemma cabs2_cfin (p : R * R) : cabs2 (cfin p) = Fin (sq2 p).
Proof. reflexivity. Qed.

Lemma cabs2_fin_inv (z : cplx) (q : R) :
  cabs2 z = Fin q -> exists p, z = cfin p /\ q = sq2 p.
Proof.
  destruct z as [x y]. unfold cabs2. simpl. intros H.
  apply fadd_fin_inv in H as (a & b & Ha & Hb & ->).
  apply fmul_self_fin_inv in Ha as (a' & -> & ->).
  apply fmul_self_fin_inv in Hb as (b' & -> & ->).
  now exists (a', b').
Qed.

Lemma cabs2_list_fin_inv (l : list cplx) (rs : list R) :
  map cabs2 l = map Fin rs -> exists ps, l = map cfin ps /\ rs = map sq2 ps.
Proof.
  revert rs. induction l as [|z l IH]; intros [|r rs]; simpl; try discriminate.
  - intros _. now exists [].
  - intros [= Hz Hl]. apply cabs2_fin_inv in Hz as (p & -> & ->).
    destruct (IH rs Hl) as (ps & -> & ->). now exists (p :: ps).
Qed.

Lemma Rsum_sq2_nonneg (ps : list (R * R)) : 0 <= Rsum (map sq2 ps).
Proof.
  induction ps as [|p ps IH]; simpl.
  - rewrite Rsum_nil. lra.
  - rewrite Rsum_cons. unfold sq2 at 1. nra.
Qed.

Lemma norm_cfin (sh : list nat) (ps : list (R * R)) :
  norm (Array sh (map cfin ps)) = Fin (sqrt (Rsum (map sq2 ps))).
Proof.
  unfold norm. simpl. rewrite map_map.
  rewrite (map_ext _ (fun p => Fin (sq2 p)) cabs2_cfin), <- (map_map sq2 Fin).
  rewrite fsum_fin. apply fsqrt_fin, Rsum_sq2_nonneg.
Qed.

Lemma norm_fin_inv (x : ndarray) (r : R) :
  norm x = Fin r ->
  exists ps, ravel x = map cfin ps /\ r = sqrt (Rsum (map sq2 ps)).
Proof.
  unfold norm. intros H.
  apply fsqrt_fin_inv in H as (s & Hs & _ & ->).
  apply fsum_fin_inv in Hs as (rs & Hrs & ->).
  apply cabs2_list_fin_inv in Hrs as (ps & Hps & ->). eauto.
Qed.

Lemma Rsum_sq2_zero (ps : list (R * R)) :
  Rsum (map sq2 ps) = 0 -> Forall (fun p => p = (0, 0)) ps.
Proof.
  induction ps as [|[a b] ps IH]; simpl; intros H; constructor.
  - rewrite Rsum_cons in H. pose proof (Rsum_sq2_nonneg ps). unfold sq2 in H at 1.
    simpl in H. assert (a = 0) by nra. assert (b = 0) by nra. congruence.
  - apply IH. rewrite Rsum_cons in H. pose proof (Rsum_sq2_nonneg ps).
    unfold sq2 in H at 1. simpl in H. nra.
Qed.

Lemma cdivr_cfin (r : R) (p : R * R) :
  r <> 0 -> cdivr (cfin p) (Fin r) = cfin (scaled r p).
Proof.
  intros Hr. unfold cdivr, cfin, scaled. simpl. now rewrite (Reqb_false _ _ Hr).
Qed.

Lemma Rsum_sq2_scaled (r : R) (ps : list (R * R)) :
  r <> 0 -> Rsum (map sq2 (map (scaled r) ps)) = Rsum (map sq2 ps) / (r * r).
Proof.
  intros Hr. induction ps as [|p ps IH]; simpl.
  - rewrite Rsum_nil. field. exact Hr.
  - rewrite !Rsum_cons, IH. unfold sq2 at 1 3, scaled. simpl. field. exact Hr.
Qed.

Lemma array_div_cfin (sh : list nat) (ps : list (R * R)) (r : R) :
  r <> 0 ->
  array_div (Array sh (map cfin ps)) (Fin r) = Array sh (map cfin (map (scaled r) ps)).
Proof.
  intros Hr. unfold array_div. simpl. f_equal. rewrite !map_map.
  apply map_ext. intros p. now apply cdivr_cfin.
Qed.

(** The norm of a normalized finite array of non-zero norm is 1 (exact
    arithmetic). *)
Lemma norm_normalized (sh : list nat) (ps : list (R * R)) :
  let s := Rsum (map sq2 ps) in
  sqrt s <> 0 ->
  norm (Array sh (map cfin (map (scaled (sqrt s)) ps))) = Fin 1.
Proof.
  intros s Hs. rewrite norm_cfin. f_equal.
  rewrite Rsum_sq2_scaled by exact Hs. fold s.
  rewrite sqrt_sqrt by apply Rsum_sq2_nonneg.
  assert (s <> 0) by (intros E; apply Hs; rewrite E; apply sqrt_0).
  replace (s / s) with 1 by (field; assumption). apply sqrt_1.
Qed.

Lemma has_nan_cabs2 (z : cplx) : has_nan z -> cabs2 z = NaN.
Proof.
  destruct z as [x y]. unfold has_nan, cabs2. simpl.
  intros [->| ->]; simpl; [reflexivity|].
  destruct (fmul x x); reflexivity.
Qed.

Lemma fold_fadd_nan (l : list npfloat) : fold_left fadd l NaN = NaN.
Proof. induction l as [|x l IH]; simpl; auto. Qed.

Lemma fold_fadd_poisoned (l : list npfloat) :
  In NaN l -> forall acc, fold_left fadd l acc = NaN.
Proof.
  induction l as [|x l IH]; simpl; [tauto|].
  intros [->|H] acc.
  - replace (fadd acc NaN) with NaN by (destruct acc; reflexivity).
    apply fold_fadd_nan.
  - apply IH, H.
Qed.

Lemma norm_poisoned (x : ndarray) : Exists has_nan (ravel x) -> norm x = NaN.
Proof.
  intros H. unfold norm, fsum. rewrite fold_fadd_poisoned; [reflexivity|].
  apply Exists_exists in H as (z & Hz & Hn).
  apply in_map_iff. exists z. split; [now apply has_nan_cabs2 | assumption].
Qed.

Lemma fdiv_nan_r (x : npfloat) : fdiv x NaN = NaN.
Proof. destruct x; reflexivity. Qed.

End ArrayFacts.

(** ** Normalization and the entropy routine *)

Section NormalizeFacts.
Context {NP : Numpy}.
Local Open Scope R_scope.

Lemma forallb_cfinite_inv (l : list cplx) :
  forallb cfinite l = true -> exists ps, l = map cfin ps.
Proof.
  induction l as [|[x y] l IH]; simpl; intros H.
  - now exists [].
  - apply andb_prop in H as [Hz Hl]. apply andb_prop in Hz as [Hx Hy].
    destruct (IH Hl) as (ps & ->).
    destruct x as [a| | |], y as [b| | |]; try discriminate.
    now exists ((a, b) :: ps).
Qed.

Lemma forallb_cfinite_false (l : list cplx) :
  forallb cfinite l = false -> Exists (fun z => cfinite z = false) l.
Proof.
  induction l as [|z l IH]; simpl; [discriminate|].
  destruct (cfinite z) eqn:E; simpl; intros H.
  - right. now apply IH.
  - now left.
Qed.

Lemma cdivr_inf_poisoned (z : cplx) : cfinite z = false -> has_nan (cdivr z PInf).
Proof.
  destruct z as [x y]. unfold cfinite, has_nan. simpl.
  destruct x, y; simpl; try discriminate; auto.
Qed.

(** Dividing a non-empty array by its norm gives either a finite array of
    norm 1 or an array with a [nan] in it. *)
Lemma normalize_cases (x : ndarray) :
  ravel x <> [] ->
  (exists ps,
      let r := sqrt (Rsum (map sq2 ps)) in
      r <> 0 /\ ravel x = map cfin ps /\ norm x = Fin r /\
      array_div x (norm x) = Array (shape x) (map cfin (map (scaled r) ps)))
  \/ Exists has_nan (ravel (array_div x (norm x))).
Proof.
  intros Hne. destruct (norm x) as [r| | |] eqn:E.
  - destruct (norm_fin_inv _ _ E) as (ps & Hps & Hr).
    destruct (Req_dec_T r 0) as [Hz|Hnz].
    + right. rewrite Hz in *. symmetry in Hr.
      apply sqrt_eq_0 in Hr; [|apply Rsum_sq2_nonneg].
      apply Rsum_sq2_zero in Hr. rename Hr into Hz0. unfold array_div. simpl. rewrite Hps in *.
      destruct ps as [|p ps]; [now elim Hne|].
      inversion Hz0 as [|? ? -> _]. simpl. left. left. simpl.
      now rewrite (Reqb_true 0 0 eq_refl).
    + left. exists ps. simpl. subst r. repeat split; auto.
      destruct x as [sh l]. simpl in *. subst l. now apply array_div_cfin.
  - right. destruct (forallb cfinite (ravel x)) eqn:F.
    + apply forallb_cfinite_inv in F as (ps & Hps). destruct x as [sh l]. simpl in *.
      subst l. rewrite norm_cfin in E. discriminate.
    + apply forallb_cfinite_false in F. unfold array_div. simpl.
      apply Exists_exists in F as (z & Hz & Hf). apply Exists_exists.
      exists (cdivr z PInf). split; [apply in_map_iff; exists z; auto | now apply cdivr_inf_poisoned].
  - exfalso. unfold norm in E. destruct (fsum (map cabs2 (ravel x))) as [a| | |];
      simpl in E; try discriminate. destruct (Rltb a 0); discriminate.
  - right. unfold array_div. simpl. destruct (ravel x) as [|z l]; [now elim Hne|].
    simpl. left. left. simpl. apply fdiv_nan_r.
Qed.

Lemma eigvals_nonfinite (m : list (list cplx)) :
  forallb (forallb cfinite) m = false -> eigvals m = Raise LinAlgError.
Proof.
  intros H. unfold eigvals. rewrite H. simpl. now destruct (negb (is_square m)).
Qed.

Lemma add_noise_poisoned (l : list cplx) (noise : list npfloat) :
  length noise = length l ->
  Exists has_nan l ->
  Exists has_nan (map (fun p => cadd (fst p) (of_real (snd p))) (combine l noise)).
Proof.
  intros Hlen H. revert noise Hlen.
  induction H as [z l Hz|z l _ IH]; intros [|e noise]; simpl; try discriminate; intros [= Hlen].
  - left. destruct z as [x y]. unfold has_nan in *. simpl in *.
    destruct Hz as [->| ->]; simpl; auto.
  - right. now apply IH.
Qed.

Lemma outer_all_nan (u : list cplx) :
  u <> [] -> Forall (fun z => z = Cx NaN NaN) u ->
  forallb (forallb cfinite) (outer u (map conj u)) = false.
Proof.
  intros Hne H. destruct H as [|z u -> _]; [now elim Hne|]. reflexivity.
Qed.

(** When the normalized wavefunction holds a [nan], the entropy routine
    draws its noise and then fails in [np.linalg.eigvals]. *)
Lemma entropy_poisoned (w : ndarray) (s : SPC.SPCFramework) (g : rng) :
  Exists has_nan (ravel w) ->
  SPC._calculate_entanglement_entropy w (s, g)
  = (Raise LinAlgError, (s, advance g (length (ravel w)))).
Proof.
  intros H. unfold SPC._calculate_entanglement_entropy, bind, random_normal.
  simpl fst; simpl snd. cbv beta iota.
  set (noise := map _ (seq 0 (length (ravel w)))).
  assert (Hlen : length noise = length (ravel w))
    by (subst noise; now rewrite length_map, length_seq).
  pose proof (add_noise_poisoned (ravel w) noise Hlen H) as Hp.
  change (map _ (combine (ravel w) noise)) with (ravel (array_add_real w noise)) in Hp.
  rewrite (norm_poisoned _ Hp).
  unfold lift. rewrite eigvals_nonfinite; [reflexivity|].
  apply outer_all_nan.
  - unfold array_div, array_add_real. simpl. intros E.
    apply (f_equal (@length cplx)) in E. rewrite !length_map, length_combine, Hlen in E.
    simpl in E. rewrite Nat.min_id in E. apply Exists_exists in H as (z & Hz & _).
    destruct (ravel w); [contradiction | discriminate].
  - unfold array_div. simpl. apply Forall_map. apply Forall_forall. intros z _.
    unfold cdivr. now rewrite !fdiv_nan_r.
Qed.

End NormalizeFacts.

(** ** Registering and evolving records *)

Section RegistryFacts.
Context {NP : Numpy}.
Local Open Scope R_scope.
Local Open Scope meth_scope.

Lemma entropy_unfold (w : ndarray) (s : SPC.SPCFramework) (g : rng) :
  SPC._calculate_entanglement_entropy w (s, g)
  = (rbind (eigvals (noisy_density w g)) (fun l => Ok (SPC.entropy_of_eigenvalues l)),
     (s, advance g (length (ravel w)))).
Proof.
  unfold SPC._calculate_entanglement_entropy, bind, random_normal, lift, ret.
  simpl fst; simpl snd. cbv beta iota.
  unfold noisy_density, noisy_state, noise_of. rewrite map_map.
  destruct (eigvals _); reflexivity.
Qed.

Lemma create_unfold (state_id : string) (x : ndarray) (self : SPC.SPCFramework) (g : rng) :
  SPC.create_quantum_state state_id x (self, g)
  = match make_record self g (array_div x (norm x)) with
    | Ok qs => (Ok qs, (stored self state_id qs, advance g (length (ravel x))))
    | Raise e => (Raise e, (self, advance g (length (ravel x))))
    end.
Proof.
  unfold SPC.create_quantum_state. unfold bind at 1. rewrite entropy_unfold.
  unfold make_record. simpl ravel. rewrite length_map.
  destruct (eigvals _) as [l|e]; simpl; [|reflexivity].
  unfold bind, SPC.self_, lift. simpl.
  destruct (SPC._calculate_ethical_fidelity self _) as [f|e]; reflexivity.
Qed.

Lemma evolve_unfold (state_id : string) (hamiltonian : ndarray) (time : npfloat)
    (self : SPC.SPCFramework) (g : rng) :
  SPC.evolve_quantum_state state_id hamiltonian time (self, g)
  = match dict_get (SPC.quantum_states self) state_id with
    | None => (Raise ValueError, (self, g))
    | Some old =>
        match propagate (SPC.dimension self) hamiltonian time (SPC.wavefunction old) with
        | Raise e => (Raise e, (self, g))
        | Ok raw =>
            match make_record self g (array_div raw (norm raw)) with
            | Ok qs => (Ok qs, (stored self state_id qs, advance g (length (ravel raw))))
            | Raise e => (Raise e, (self, advance g (length (ravel raw))))
            end
        end
    end.
Proof.
  unfold SPC.evolve_quantum_state. unfold bind at 1. unfold SPC.self_ at 1. simpl fst.
  destruct (dict_get _ state_id) as [old|]; [|reflexivity].
  unfold bind at 1. unfold lift at 1.
  destruct (propagate _ _ _ _) as [raw|e]; [|reflexivity].
  unfold bind at 1. rewrite entropy_unfold.
  unfold make_record. simpl ravel. rewrite length_map.
  destruct (eigvals _) as [l|e]; simpl; [|reflexivity].
  unfold bind, lift. simpl.
  destruct (SPC._calculate_ethical_fidelity self _) as [f|e]; reflexivity.
Qed.

Lemma make_record_wavefunction (self : SPC.SPCFramework) (g : rng) (w : ndarray)
    (qs : SPC.QuantumState) :
  make_record self g w = Ok qs -> SPC.wavefunction qs = w.
Proof.
  unfold make_record. destruct (eigvals _); simpl; [|discriminate].
  destruct (SPC._calculate_ethical_fidelity self w); simpl; [|discriminate].
  now intros [= <-].
Qed.

Lemma make_record_poisoned (self : SPC.SPCFramework) (g : rng) (w : ndarray) :
  Exists has_nan (ravel w) -> make_record self g w = Raise LinAlgError.
Proof.
  intros H. pose proof (entropy_poisoned w self g H) as E.
  rewrite entropy_unfold in E. unfold make_record.
  destruct (eigvals _); simpl in *; congruence.
Qed.

(** A record built from a non-empty array divided by its norm holds a
    wavefunction of norm 1 (exact arithmetic). *)
Lemma make_record_unit_norm (self : SPC.SPCFramework) (g : rng) (x : ndarray)
    (qs : SPC.QuantumState) :
  make_record self g (array_div x (norm x)) = Ok qs ->
  ravel (SPC.wavefunction qs) <> [] ->
  norm (SPC.wavefunction qs) = Fin 1.
Proof.
  intros Hm Hne. pose proof (make_record_wavefunction _ _ _ _ Hm) as Hw.
  rewrite Hw in *.
  destruct (normalize_cases x) as [(ps & Hr & Hps & Hn & Hd)|Hp].
  - intros E. apply Hne. unfold array_div. simpl. now rewrite E.
  - rewrite Hd. now apply norm_normalized.
  - rewrite (make_record_poisoned self g _ Hp) in Hm. discriminate.
Qed.

End RegistryFacts.

(** ** The entropy of a registered record *)

Section EntropyFacts.
Context {NP : Numpy}.
Local Open Scope R_scope.

Lemma array_add_real_cfin (sh : list nat) (ws : list (R * R)) (es : list R) :
  array_add_real (Array sh (map cfin ws)) (map Fin es)
  = Array sh (map cfin (add_noise ws es)).
Proof.
  unfold array_add_real, add_noise. simpl. f_equal. rewrite map_map.
  revert es. induction ws as [|w ws IH]; intros [|e es]; simpl; try reflexivity.
  f_equal. apply IH.
Qed.

Lemma tiny_pos : 0 < SPC.tiny < 1.
Proof. unfold SPC.tiny. lra. Qed.

Lemma filter_Permutation {A} (f : A -> bool) (l l' : list A) :
  Permutation l l' -> Permutation (filter f l) (filter f l').
Proof.
  induction 1 as [|x l l' _ IH|x y l|l l' l'' _ IH1 _ IH2]; simpl.
  - constructor.
  - destruct (f x); [now constructor | assumption].
  - destruct (f x), (f y); try apply Permutation_refl. constructor.
  - now transitivity (filter f l').
Qed.

Lemma pure_state_entropy_negative : pure_state_entropy < 0.
Proof.
  unfold pure_state_entropy. pose proof tiny_pos as [Ht _].
  assert (H1 : 0 < ln (1 + SPC.tiny)).
  { rewrite <- ln_1. apply ln_increasing; lra. }
  assert (H2 : 0 < ln 2).
  { rewrite <- ln_1. apply ln_increasing; lra. }
  assert (0 < ln (1 + SPC.tiny) / ln 2) by (apply Rdiv_lt_0_compat; assumption).
  lra.
Qed.

Lemma entropy_of_pure_spectrum (l : list cplx) (k : nat) :
  Permutation l (of_real (Fin 1) :: repeat (of_real (Fin 0)) k) ->
  SPC.entropy_of_eigenvalues l = Fin pure_state_entropy.
Proof.
  intros H. unfold SPC.entropy_of_eigenvalues.
  pose proof tiny_pos as [Ht0 Ht1].
  assert (E : filter (fun x => fgt x (Fin SPC.tiny))
                (map re (of_real (Fin 1) :: repeat (of_real (Fin 0)) k)) = [Fin 1]).
  { simpl. rewrite (Rltb_true _ _ Ht1). f_equal. clear H.
    induction k as [|k IH]; simpl; [reflexivity|].
    rewrite Rltb_false by lra. exact IH. }
  apply (Permutation_map re) in H.
  apply (filter_Permutation (fun x => fgt x (Fin SPC.tiny))) in H.
  rewrite E in H. apply Permutation_sym, Permutation_length_1_inv in H. rewrite H.
  simpl. rewrite Rltb_true by lra. simpl. unfold pure_state_entropy. f_equal. ring.
Qed.

Lemma outer_cfin_finite (us vs : list (R * R)) :
  forallb (forallb cfinite) (outer (map cfin us) (map conj (map cfin vs))) = true.
Proof.
  unfold outer. apply forallb_forall. intros row Hrow.
  apply in_map_iff in Hrow as (z & <- & Hz). apply in_map_iff in Hz as (p & <- & _).
  apply forallb_forall. intros c Hc.
  apply in_map_iff in Hc as (z & <- & Hz). apply in_map_iff in Hz as (z' & <- & Hz').
  apply in_map_iff in Hz' as (q & <- & _). reflexivity.
Qed.

Lemma outer_square (u v : list cplx) :
  length v = length u -> is_square (outer u v) = true.
Proof.
  intros H. unfold is_square, outer. rewrite length_map.
  apply forallb_forall. intros row Hrow. apply in_map_iff in Hrow as (z & <- & _).
  rewrite length_map, H. apply Nat.eqb_refl.
Qed.

Lemma eigvals_rank_one_finite (us : list (R * R)) :
  eigvals (outer (map cfin us) (map conj (map cfin us)))
  = match geev (outer (map cfin us) (map conj (map cfin us))) with
    | Some l => Ok l
    | None => Raise LinAlgError
    end.
Proof.
  unfold eigvals. rewrite outer_square by now rewrite !length_map.
  now rewrite outer_cfin_finite.
Qed.

Lemma cfin_finite (ps : list (R * R)) : forallb cfinite (map cfin ps) = true.
Proof. induction ps; simpl; auto. Qed.

Lemma fsum_cabs2_cfin (ps : list (R * R)) :
  fsum (map cabs2 (map cfin ps)) = Fin (Rsum (map sq2 ps)).
Proof.
  rewrite map_map, (map_ext _ (fun p => Fin (sq2 p)) cabs2_cfin), <- (map_map sq2 Fin).
  apply fsum_fin.
Qed.

(** Under the exact spectrum of rank-one matrices, every record built from
    a non-empty wavefunction stores the same, negative, entropy. *)
Lemma make_record_entropy (self : SPC.SPCFramework) (g : rng) (w : ndarray)
    (qs : SPC.QuantumState) :
  geev_rank_one NP ->
  ravel w <> [] ->
  make_record self g w = Ok qs ->
  SPC.entanglement_entropy qs = Fin pure_state_entropy.
Proof.
  intros Hlaw Hne Hm.
  set (noisy := array_add_real w (map Fin (noise_of g (length (ravel w))))).
  assert (Hnoisy : ravel noisy <> []).
  { subst noisy. unfold array_add_real. simpl. intros E.
    apply (f_equal (@length cplx)) in E.
    rewrite length_map, length_combine, length_map in E. unfold noise_of in E.
    rewrite length_map, length_seq, Nat.min_id in E.
    destruct (ravel w); [contradiction | discriminate]. }
  destruct (normalize_cases noisy Hnoisy) as [(us & Hr & Hus & Hn & Hd)|Hp].
  - unfold make_record, noisy_density, noisy_state in Hm. fold noisy in Hm.
    rewrite Hd in Hm. simpl ravel in Hm.
    set (r := sqrt (Rsum (map sq2 us))) in *.
    rewrite eigvals_rank_one_finite in Hm.
    destruct (Hlaw (map cfin (map (scaled r) us))) as (l & Hl & Hperm).
    { apply cfin_finite. }
    { intros E. apply Hnoisy. rewrite Hus.
      destruct us; [reflexivity | discriminate]. }
    rewrite Hl in Hm. simpl in Hm.
    destruct (SPC._calculate_ethical_fidelity self w); simpl in Hm; [|discriminate].
    injection Hm as <-. simpl.
    rewrite fsum_cabs2_cfin in Hperm.
    assert (Hone : Rsum (map sq2 (map (scaled r) us)) = 1).
    { pose proof (norm_normalized (shape noisy) us Hr) as Hnn.
      rewrite norm_cfin in Hnn. injection Hnn as Hnn. fold r in Hnn.
      rewrite <- (sqrt_sqrt (Rsum (map sq2 (map (scaled r) us))))
        by apply Rsum_sq2_nonneg.
      rewrite Hnn. ring. }
    rewrite Hone in Hperm. eapply entropy_of_pure_spectrum, Hperm.
  - exfalso. unfold make_record, noisy_density, noisy_state in Hm. fold noisy in Hm.
    set (n := norm noisy) in *.
    assert (Hraise : eigvals (outer (ravel (array_div noisy n))
                                (map conj (ravel (array_div noisy n))))
                     = Raise LinAlgError).
    { pose proof (make_record_poisoned self g (array_div noisy n) Hp) as Hmp.
      pose proof (norm_poisoned _ Hp) as Hnn.
      apply eigvals_nonfinite.
      apply Exists_exists in Hp as (z & Hz & Hzn).
      unfold outer. clear Hmp Hnn.
      destruct (ravel (array_div noisy n)) as [|z0 rest] eqn:Er; [contradiction|].
      apply not_true_is_false. intros Hall.
      rewrite forallb_forall in Hall.
      assert (Hz' : cfinite z = true).
      { destruct Hz as [<-|Hz].
        - specialize (Hall _ (or_introl eq_refl)). simpl in Hall.
          apply andb_prop in Hall as [Hc _].
          destruct z0 as [[a| | |] [b| | |]]; simpl in *; try discriminate; reflexivity.
        - assert (Hrow : In (map (fun y => cmul z y) (map conj (z0 :: rest)))
                            (map (fun x => map (fun y => cmul x y) (map conj (z0 :: rest)))
                                 (z0 :: rest))).
          { apply in_map_iff. exists z. split; [reflexivity | now right]. }
          specialize (Hall _ Hrow). rewrite forallb_forall in Hall.
          assert (Hin : In (cmul z (conj z)) (map (fun y => cmul z y) (map conj (z0 :: rest)))).
          { apply in_map_iff. exists (conj z). split; [reflexivity|].
            apply in_map. now right. }
          specialize (Hall _ Hin).
          destruct z as [[a| | |] [b| | |]]; simpl in *; try discriminate; reflexivity. }
      destruct z as [x y]. unfold has_nan in Hzn. simpl in Hzn.
      destruct Hzn as [->| ->]; simpl in Hz'; try discriminate.
      destruct x; discriminate. }
    rewrite Hraise in Hm. discriminate.
Qed.

End EntropyFacts.

(** ** When a registration succeeds *)

Section SuccessFacts.
Context {NP : Numpy}.
Local Open Scope R_scope.

Lemma ethical_fidelity_returns (self : SPC.SPCFramework) (w : ndarray) :
  match SPC.consciousness_field self with
  | Some field => length (ravel w) = length (ravel field)
  | None => True
  end ->
  exists f, SPC._calculate_ethical_fidelity self w = Ok f.
Proof.
  unfold SPC._calculate_ethical_fidelity, vdot.
  destruct (SPC.consciousness_field self) as [field|]; [|eauto].
  intros ->. rewrite Nat.eqb_refl. simpl. eauto.
Qed.

(** A finite wavefunction whose perturbed copy has a non-zero norm gets a
    record as soon as LAPACK converges and the sizes of the wavefunction
    and of the reference field agree. *)
Lemma make_record_returns (self : SPC.SPCFramework) (g : rng)
    (sh : list nat) (ws : list (R * R)) :
  let w := Array sh (map cfin ws) in
  let ns := add_noise ws (noise_of g (length ws)) in
  let r := sqrt (Rsum (map sq2 ns)) in
  r <> 0 ->
  (exists l, geev (outer (map cfin (map (scaled r) ns))
                         (map conj (map cfin (map (scaled r) ns)))) = Some l) ->
  (exists f, SPC._calculate_ethical_fidelity self w = Ok f) ->
  exists qs, make_record self g w = Ok qs.
Proof.
  intros w ns r Hr (l & Hl) (f & Hf).
  unfold make_record, noisy_density, noisy_state. subst w. cbn [ravel].
  rewrite length_map, array_add_real_cfin. fold ns.
  rewrite norm_cfin. fold r. rewrite array_div_cfin by exact Hr. cbn [ravel].
  rewrite eigvals_rank_one_finite, Hl. simpl. rewrite Hf. simpl. eauto.
Qed.

Lemma make_record_registry_irrelevant (self : SPC.SPCFramework) (g : rng) (w : ndarray)
    (d : dict SPC.QuantumState) :
  make_record (SPC.set_quantum_states self d) g w = make_record self g w.
Proof. reflexivity. Qed.

End SuccessFacts.

(** ** The concrete numpy has the exact spectrum on rank-one matrices *)

Section ExactNumpy.
Local Open Scope R_scope.

Lemma re_fold_cadd (l : list cplx) (z : cplx) :
  re (fold_left cadd l z) = fold_left fadd (map re l) (re z).
Proof.
  revert z. induction l as [|x l IH]; intros z; simpl; [reflexivity|].
  now rewrite IH.
Qed.

Lemma re_ctrace_rank_one (us : list (R * R)) :
  re (ctrace (outer (map cfin us) (map conj (map cfin us))))
  = Fin (Rsum (map sq2 us)).
Proof.
  unfold ctrace, csum, outer.
  rewrite re_fold_cadd.
  pose proof (diag_from_table cmul (map cfin us) (map conj (map cfin us)) 0) as D.
  simpl skipn in D.
  change (diag_from 0
            (map (fun x => map (fun y => cmul x y) (map conj (map cfin us))) (map cfin us)))
    with (diag_from 0
            (map (fun x => map (cmul x) (map conj (map cfin us))) (map cfin us))).
  rewrite D. clear D. simpl re.
  assert (E : map re (map (fun p => cmul (fst p) (snd p))
                        (combine (map cfin us) (map conj (map cfin us))))
              = map Fin (map sq2 us)).
  { induction us as [|[a b] us IH]; simpl; [reflexivity|].
    rewrite IH. f_equal. f_equal. unfold sq2. simpl. ring. }
  rewrite E. apply fold_fadd_fin.
Qed.

Lemma exact_geev_nonempty (m : list (list cplx)) :
  m <> [] ->
  geev (Numpy := exact_numpy) m
  = Some (of_real (re (ctrace m)) :: repeat (of_real (Fin 0)) (length m - 1)).
Proof. destruct m; [contradiction | reflexivity]. Qed.

Lemma exact_geev_returns (m : list (list cplx)) :
  exists l, geev (Numpy := exact_numpy) m = Some l.
Proof. destruct m; eexists; reflexivity. Qed.

Lemma exact_numpy_rank_one : geev_rank_one exact_numpy.
Proof.
  intros u Hfin Hne. apply forallb_cfinite_inv in Hfin as (us & ->).
  eexists. split.
  - apply exact_geev_nonempty. unfold outer. destruct us; [contradiction | discriminate].
  - rewrite re_ctrace_rank_one, fsum_cabs2_cfin.
    unfold outer. rewrite !length_map. apply Permutation_refl.
Qed.

End ExactNumpy.

(** ** A run on the concrete numpy *)

Section Demo.
Local Open Scope R_scope.
Local Open Scope string_scope.


Lemma norm_zero_state : norm zero_state = Fin 0.
Proof.
  unfold zero_state. rewrite norm_cfin. f_equal.
  replace (Rsum _) with 0 by (unfold Rsum, sq2; simpl; lra). apply sqrt_0.
Qed.

Lemma exact_noise_neutral (g : @rng exact_numpy) (ps : list (R * R)) :
  Rsum (map sq2 (add_noise ps (noise_of (NP := exact_numpy) g (length ps))))
  = Rsum (map sq2 ps).
Proof.
  unfold noise_of. simpl gauss. generalize 0%nat as start.
  induction ps as [|[a b] ps IH]; intros start; [reflexivity|].
  simpl. rewrite !Rsum_cons. unfold add_noise in IH. rewrite IH.
  unfold sq2. simpl. ring.
Qed.

Lemma add_noise_length (ps : list (R * R)) (es : list R) :
  length es = length ps -> length (add_noise ps es) = length ps.
Proof.
  intros H. unfold add_noise. rewrite length_map, length_combine, H. apply Nat.min_id.
Qed.

(** On the concrete numpy every finite array of four entries and non-zero
    norm can be registered in a framework whose reference field is
    [demo_field]. *)
Lemma exact_create_returns (self : SPC.SPCFramework) (state_id : string)
    (g : @rng exact_numpy) (sh : list nat) (ps : list (R * R)) :
  SPC.consciousness_field self = Some demo_field ->
  length ps = 4%nat ->
  0 < Rsum (map sq2 ps) ->
  exists qs,
    SPC.create_quantum_state (NP := exact_numpy) state_id (Array sh (map cfin ps)) (self, g)
    = (Ok qs, (stored self state_id qs, advance g 4))
    /\ SPC.wavefunction qs
       = Array sh (map cfin (map (scaled (sqrt (Rsum (map sq2 ps)))) ps)).
Proof.
  intros Hf Hlen Hpos.
  assert (Hr : sqrt (Rsum (map sq2 ps)) <> 0).
  { apply Rgt_not_eq. now apply sqrt_lt_R0. }
  rewrite create_unfold, norm_cfin, array_div_cfin by exact Hr.
  cbn [ravel]. rewrite length_map, Hlen.
  set (ws := map (scaled (sqrt (Rsum (map sq2 ps)))) ps).
  assert (Hone : Rsum (map sq2 ws) = 1).
  { subst ws. rewrite Rsum_sq2_scaled by exact Hr.
    rewrite sqrt_sqrt by lra. field. lra. }
  destruct (make_record_returns (NP := exact_numpy) self g sh ws) as (qs & Hqs).
  - rewrite exact_noise_neutral, Hone, sqrt_1. lra.
  - apply exact_geev_returns.
  - apply ethical_fidelity_returns. rewrite Hf. cbn [ravel].
    subst ws. now rewrite !length_map, Hlen.
  - rewrite Hqs. exists qs. split; [reflexivity|].
    now apply make_record_wavefunction in Hqs.
Qed.

(** On the concrete numpy, whose propagator is the identity, a record
    registered in this way can be evolved. *)
Lemma exact_evolve_returns (self : SPC.SPCFramework) (state_id : string)
    (g : @rng exact_numpy) (hamiltonian : ndarray) (time : npfloat)
    (old : SPC.QuantumState) (sh : list nat) (ps : list (R * R)) :
  SPC.consciousness_field self = Some demo_field ->
  dict_get (SPC.quantum_states self) state_id = Some old ->
  SPC.wavefunction old = Array sh (map cfin ps) ->
  length ps = 4%nat ->
  0 < Rsum (map sq2 ps) ->
  exists qs,
    SPC.evolve_quantum_state (NP := exact_numpy) state_id hamiltonian time (self, g)
    = (Ok qs, (stored self state_id qs, advance g 4))
    /\ SPC.wavefunction qs
       = Array sh (map cfin (map (scaled (sqrt (Rsum (map sq2 ps)))) ps)).
Proof.
  intros Hf Hold Hw Hlen Hpos.
  assert (Hr : sqrt (Rsum (map sq2 ps)) <> 0).
  { apply Rgt_not_eq. now apply sqrt_lt_R0. }
  rewrite evolve_unfold, Hold. simpl propagate. rewrite Hw.
  rewrite norm_cfin, array_div_cfin by exact Hr.
  cbn [ravel]. rewrite length_map, Hlen.
  set (ws := map (scaled (sqrt (Rsum (map sq2 ps)))) ps).
  assert (Hone : Rsum (map sq2 ws) = 1).
  { subst ws. rewrite Rsum_sq2_scaled by exact Hr.
    rewrite sqrt_sqrt by lra. field. lra. }
  destruct (make_record_returns (NP := exact_numpy) self g sh ws) as (qs & Hqs).
  - rewrite exact_noise_neutral, Hone, sqrt_1. lra.
  - apply exact_geev_returns.
  - apply ethical_fidelity_returns. rewrite Hf. cbn [ravel].
    subst ws. now rewrite !length_map, Hlen.
  - rewrite Hqs. exists qs. split; [reflexivity|].
    now apply make_record_wavefunction in Hqs.
Qed.

Lemma basis_state_norm_positive : 0 < Rsum (map sq2 [(1, 0); (0, 0); (0, 0); (0, 0)]).
Proof. unfold Rsum, sq2. simpl. lra. Qed.

(** Registering [[[1, 0], [0, 0]]] and then evolving the record. *)
Lemma demo_register (self : SPC.SPCFramework) (state_id : string) (g : @rng exact_numpy) :
  SPC.consciousness_field self = Some demo_field ->
  exists qs,
    SPC.create_quantum_state (NP := exact_numpy) state_id basis_state (self, g)
    = (Ok qs, (stored self state_id qs, advance g 4)).
Proof.
  intros Hf.
  destruct (exact_create_returns self state_id g [2%nat; 2%nat]
              [(1, 0); (0, 0); (0, 0); (0, 0)] Hf eq_refl
              basis_state_norm_positive) as (qs & E & _).
  now exists qs.
Qed.

Lemma demo_register_evolve (g : @rng exact_numpy) (hamiltonian : ndarray) (time : npfloat) :
  exists qs1 qs2 self1 self2 g1 g2,
    SPC.create_quantum_state (NP := exact_numpy) "psi" basis_state (demo_framework, g)
    = (Ok qs1, (self1, g1))
    /\ SPC.evolve_quantum_state (NP := exact_numpy) "psi" hamiltonian time (self1, g1)
       = (Ok qs2, (self2, g2))
    /\ ravel (SPC.wavefunction qs1) <> []
    /\ ravel (SPC.wavefunction qs2) <> [].
Proof.
  destruct (exact_create_returns demo_framework "psi" g [2%nat; 2%nat]
              [(1, 0); (0, 0); (0, 0); (0, 0)] eq_refl eq_refl
              basis_state_norm_positive) as (qs1 & E1 & Hw1).
  set (r := sqrt (Rsum (map sq2 [(1, 0); (0, 0); (0, 0); (0, 0)]))) in *.
  assert (Hr : r <> 0).
  { apply Rgt_not_eq. apply sqrt_lt_R0, basis_state_norm_positive. }
  destruct (exact_evolve_returns (stored demo_framework "psi" qs1) "psi"
              (advance (Numpy := exact_numpy) g 4) hamiltonian time qs1 [2%nat; 2%nat]
              (map (scaled r) [(1, 0); (0, 0); (0, 0); (0, 0)]))
    as (qs2 & E2 & Hw2).
  - reflexivity.
  - apply dict_get_set_same.
  - exact Hw1.
  - reflexivity.
  - rewrite Rsum_sq2_scaled by exact Hr. unfold r.
    rewrite sqrt_sqrt by (pose proof basis_state_norm_positive; lra).
    pose proof basis_state_norm_positive.
    replace (_ / _) with 1 by (field; lra). lra.
  - exists qs1, qs2, (stored demo_framework "psi" qs1),
      (stored (stored demo_framework "psi" qs1) "psi" qs2),
      (advance (Numpy := exact_numpy) g 4),
      (advance (Numpy := exact_numpy) (advance (Numpy := exact_numpy) g 4) 4).
    repeat split; try assumption.
    + rewrite Hw1. discriminate.
    + rewrite Hw2. discriminate.
Qed.

End Demo.

(** ** The registry claims *)

Lemma create_returns_inv {NP : Numpy} (state_id : string) (x : ndarray)
    (self self' : SPC.SPCFramework) (g g' : rng) (qs : SPC.QuantumState) :
  SPC.create_quantum_state state_id x (self, g) = (Ok qs, (self', g')) ->
  make_record self g (array_div x (norm x)) = Ok qs /\ self' = stored self state_id qs.
Proof.
  rewrite create_unfold.
  destruct (make_record self g (array_div x (norm x))) as [q|e]; [|discriminate].
  intros [= -> <- _]. auto.
Qed.

Lemma evolve_returns_inv {NP : Numpy} (state_id : string) (hamiltonian : ndarray)
    (time : npfloat) (self self' : SPC.SPCFramework) (g g' : rng) (qs : SPC.QuantumState) :
  SPC.evolve_quantum_state state_id hamiltonian time (self, g) = (Ok qs, (self', g')) ->
  exists raw,
    make_record self g (array_div raw (norm raw)) = Ok qs /\ self' = stored self state_id qs.
Proof.
  rewrite evolve_unfold.
  destruct (dict_get _ state_id) as [old|]; [|discriminate].
  destruct (propagate _ _ _ _) as [raw|e]; [|discriminate].
  destruct (make_record self g (array_div raw (norm raw))) as [q|e] eqn:E; [|discriminate].
  intros [= -> <- _]. eauto.
Qed.

(** A non-empty array of norm zero cannot be registered. *)
Lemma zero_norm_create_raises {NP : Numpy} (self : SPC.SPCFramework) (g : rng)
    (state_id : string) (wavefunction : ndarray) :
  ravel wavefunction <> [] ->
  norm wavefunction = Fin 0 ->
  SPC.create_quantum_state state_id wavefunction (self, g)
  = (Raise LinAlgError, (self, advance g (length (ravel wavefunction)))).
Proof.
  intros Hne Hz. rewrite create_unfold.
  destruct (normalize_cases wavefunction Hne) as [(ps & Hr & _ & Hn & _)|Hp].
  - rewrite Hz in Hn. injection Hn as Hn. symmetry in Hn. contradiction.
  - now rewrite (make_record_poisoned self g _ Hp).
Qed.

(** ** The empty array, and arrays within the range of [float64] *)

Section ScaleFacts.
Local Open Scope R_scope.

Lemma norm_empty_array : norm empty_array = Fin 0.
Proof.
  change empty_array with (Array [0%nat] (map cfin [])).
  rewrite norm_cfin. simpl map. rewrite Rsum_nil. f_equal. apply sqrt_0.
Qed.

(** The framework of dimension 0 has an empty reference field, and
    registers the empty array: no entry becomes [nan], the density matrix
    is the 0x0 matrix and [np.vdot] of two empty arrays is [0]. *)
Lemma exact_empty_registration :
  exists self g1 qs g',
    SPC.__init__ (NP := exact_numpy) 0 0%nat = (Ok self, g1)
    /\ SPC.create_quantum_state (NP := exact_numpy) "psi" empty_array (self, g1)
       = (Ok qs, (stored self "psi" qs, g'))
    /\ SPC.wavefunction qs = empty_array.
Proof.
  do 4 eexists. split; [reflexivity|].
  rewrite (create_unfold (NP := exact_numpy)).
  split; reflexivity.
Qed.

Lemma sq_norm_min_pos : 0 < sq_norm_min.
Proof. unfold sq_norm_min. apply Rinv_0_lt_compat, pow_lt. lra. Qed.





End ScaleFacts.


(** C2 is refuted by the code for the empty array: its norm is exactly
    [0.0], and the framework of dimension 0 registers it.  The code has no
    check of the norm; what stops a zero vector is the [nan] that the
    division produces in an array with at least one entry. *)
Lemma empty_array_is_registered :
  norm empty_array = Fin 0
  /\ exists self g1 qs self' g',
       SPC.__init__ (NP := exact_numpy) 0 0%nat = (Ok self, g1)
       /\ SPC.create_quantum_state (NP := exact_numpy) "psi" empty_array (self, g1)
          = (Ok qs, (self', g'))
       /\ dict_get (SPC.quantum_states self') "psi" = Some qs.
Proof.
  split; [exact norm_empty_array|].
  destruct exact_empty_registration as (self & g1 & qs & g' & Ei & Ec & _).
  exists self, g1, qs. do 2 eexists. split; [exact Ei|]. split; [exact Ec|].
  apply dict_get_set_same.
Qed.

(** C2, amended.  Registering an array with at least one entry whose norm
    is exactly zero raises: the division by the norm turns every entry into
    [nan], and [np.linalg.eigvals] refuses the density matrix with numpy's
    [LinAlgError] (the code defines no exception of its own), before
    anything is stored.  The registry is the one the call started with, so no
    record is stored under the identifier and nothing is defaulted. *)
Theorem register_zero_vector_raises {NP : Numpy} (self : SPC.SPCFramework) (g : rng)
    (state_id : string) (wavefunction : ndarray) :
  ravel wavefunction <> [] ->
  norm wavefunction = Fin 0 ->
  exists g',
    SPC.create_quantum_state state_id wavefunction (self, g)
    = (Raise LinAlgError, (self, g')).
Proof.
  intros Hne Hz. eexists. now apply zero_norm_create_raises.
Qed.

Lemma register_zero_vector_raises_witness :
  exists g',
    SPC.create_quantum_state (NP := exact_numpy) "psi" zero_state (demo_framework, 0%nat)
    = (Raise LinAlgError, (demo_framework, g')).
Proof.
  apply (register_zero_vector_raises (NP := exact_numpy) demo_framework 0%nat "psi" zero_state).
  - discriminate.
  - exact norm_zero_state.
Defined.




(** C8 (the code at the inputs that break the claim).  When LAPACK returns
    the exact spectrum of the rank-one density matrix, every record that
    [create_quantum_state] or [evolve_quantum_state] stores for a non-empty
    wavefunction carries the entropy [-(1 * log2(1 + 1e-10))], for every
    value of the random perturbation: a negative number. *)
Theorem stored_entropy_negative {NP : Numpy} (self self' : SPC.SPCFramework)
    (g g' : rng) (state_id : string) (wavefunction hamiltonian : ndarray)
    (time : npfloat) (qs : SPC.QuantumState) :
  geev_rank_one NP ->
  SPC.create_quantum_state state_id wavefunction (self, g) = (Ok qs, (self', g')) \/
  SPC.evolve_quantum_state state_id hamiltonian time (self, g) = (Ok qs, (self', g')) ->
  ravel (SPC.wavefunction qs) <> [] ->
  SPC.entanglement_entropy qs = Fin pure_state_entropy
  /\ (pure_state_entropy < 0)%R.
Proof.
  intros Hlaw H Hne. split; [|apply pure_state_entropy_negative].
  destruct H as [H|H].
  - apply create_returns_inv in H as [Hm _].
    pose proof (make_record_wavefunction _ _ _ _ Hm) as Hw. rewrite Hw in Hne.
    exact (make_record_entropy self g _ qs Hlaw Hne Hm).
  - apply evolve_returns_inv in H as (raw & Hm & _).
    pose proof (make_record_wavefunction _ _ _ _ Hm) as Hw. rewrite Hw in Hne.
    exact (make_record_entropy self g _ qs Hlaw Hne Hm).
Qed.

Lemma stored_entropy_negative_witness :
  exists qs1 qs2 self1 self2 g1 g2,
    SPC.create_quantum_state (NP := exact_numpy) "psi" basis_state (demo_framework, 0%nat)
    = (Ok qs1, (self1, g1))
    /\ SPC.evolve_quantum_state (NP := exact_numpy) "psi" zero_hamiltonian (Fin 1) (self1, g1)
       = (Ok qs2, (self2, g2))
    /\ SPC.entanglement_entropy qs1 = Fin pure_state_entropy
    /\ SPC.entanglement_entropy qs2 = Fin pure_state_entropy
    /\ (pure_state_entropy < 0)%R.
Proof.
  destruct (demo_register_evolve 0%nat zero_hamiltonian (Fin 1))
    as (qs1 & qs2 & self1 & self2 & g1 & g2 & E1 & E2 & H1 & H2).
  exists qs1, qs2, self1, self2, g1, g2.
  destruct (stored_entropy_negative (NP := exact_numpy) demo_framework self1 0%nat g1
              "psi" basis_state zero_hamiltonian (Fin 1) qs1 exact_numpy_rank_one
              (or_introl E1) H1) as [He1 Hneg].
  destruct (stored_entropy_negative (NP := exact_numpy) self1 self2 g1 g2
              "psi" basis_state zero_hamiltonian (Fin 1) qs2 exact_numpy_rank_one
              (or_intror E2) H2) as [He2 _].
  repeat split; assumption.
Defined.

(** C10. Registering under an identifier that is already present raises
    nothing of its own (the call returns or raises exactly as it does on an
    empty registry); when it returns, the identifier maps to the new record,
    the keys keep their order and the number of records is unchanged. *)
Theorem register_overwrites {NP : Numpy} (self : SPC.SPCFramework) (g : rng)
    (state_id : string) (wavefunction : ndarray) (old : SPC.QuantumState) :
  dict_get (SPC.quantum_states self) state_id = Some old ->
  fst (SPC.create_quantum_state state_id wavefunction (self, g))
  = fst (SPC.create_quantum_state state_id wavefunction (SPC.set_quantum_states self [], g))
  /\ forall qs,
       fst (SPC.create_quantum_state state_id wavefunction (self, g)) = Ok qs ->
       exists self' g',
         SPC.create_quantum_state state_id wavefunction (self, g) = (Ok qs, (self', g'))
         /\ dict_get (SPC.quantum_states self') state_id = Some qs
         /\ keys (SPC.quantum_states self') = keys (SPC.quantum_states self)
         /\ len (SPC.quantum_states self') = len (SPC.quantum_states self).
Proof.
  intros Hold. rewrite !create_unfold, make_record_registry_irrelevant.
  assert (Hin : In state_id (keys (SPC.quantum_states self))).
  { apply dict_get_in_keys. rewrite Hold. discriminate. }
  destruct (make_record self g _) as [q|e]; simpl; split; try reflexivity.
  - intros qs [= ->]. do 2 eexists. split; [reflexivity|]. simpl.
    repeat split.
    + apply dict_get_set_same.
    + now apply keys_set_present.
    + unfold len. f_equal. now apply length_set_present.
  - discriminate.
Qed.

Lemma register_overwrites_witness :
  exists qs1 qs2 self1 self2 g1 g2,
    SPC.create_quantum_state (NP := exact_numpy) "psi" basis_state (demo_framework, 0%nat)
    = (Ok qs1, (self1, g1))
    /\ SPC.create_quantum_state (NP := exact_numpy) "psi" basis_state (self1, g1)
       = (Ok qs2, (self2, g2))
    /\ dict_get (SPC.quantum_states self2) "psi" = Some qs2
    /\ len (SPC.quantum_states self2) = 1%Z.
Proof.
  destruct (demo_register demo_framework "psi" 0%nat eq_refl) as (qs1 & E1).
  set (self1 := stored demo_framework "psi" qs1) in *.
  set (g1 := advance (Numpy := exact_numpy) 0%nat 4) in *.
  destruct (demo_register self1 "psi" g1 eq_refl) as (qs2 & E2).
  destruct (register_overwrites (NP := exact_numpy) self1 g1 "psi" basis_state qs1 eq_refl)
    as [_ H].
  destruct (H qs2) as (self2 & g2 & E2' & Hget & _ & Hlen).
  { now rewrite E2. }
  exists qs1, qs2, self1, self2, g1, g2. repeat split; assumption.
Defined.

(** ** The fidelity of a zero state *)

Section ZeroState.
Local Open Scope R_scope.
Local Open Scope string_scope.

Lemma frobenius_zeros : FatTree.frobenius zeros_4x4 = Fin 0.
Proof.
  unfold FatTree.frobenius, zeros_4x4. simpl.
  rewrite Rltb_false by lra. f_equal.
  replace (_ + _) with 0 by lra. apply sqrt_0.
Qed.

End ZeroState.

(** C3 (the code at an input that breaks the claim).  For a node whose
    state is the 4x4 zero matrix the code has no guard: it divides
    [|trace| = 0.0] by the product of the norms, [0.0], and returns [nan],
    not [0]. *)
Theorem sync_fidelity_zero_state_nan :
  FatTree._calculate_sync_fidelity (core_node (Some zeros_4x4)) (agg_node (Some ones_4x4))
  = Ok NaN.
Proof.
  apply (sync_fidelity_zero_norm _ _ zeros_4x4 ones_4x4);
    [reflexivity | reflexivity | reflexivity | exact frobenius_zeros].
Qed.

(** ** Construction *)

Section ConstructionFacts.
Context {NP : Numpy}.
Local Open Scope Z_scope.


Lemma spc_init_cases (dimension : Z) (g : rng) :
  if dimension <? 0
  then SPC.__init__ dimension g = (Raise ValueError, g)
  else exists self g',
      SPC.__init__ dimension g = (Ok self, g')
      /\ SPC.dimension self = dimension
      /\ SPC.quantum_states self = []
      /\ exists field, SPC.consciousness_field self = Some field.
Proof.
  unfold SPC.__init__, SPC._initialize_ethical_constraints,
    SPC._initialize_consciousness_field, SPC.modify, SPC.self_, bind.
  simpl. unfold random_rand. simpl.
  destruct (dimension <? 0); simpl; [reflexivity|].
  do 2 eexists. split; [reflexivity|]. simpl. eauto.
Qed.

End ConstructionFacts.



(** ** Initialization *)

Section InitializeFacts.
Context {NP : Numpy}.
Local Open Scope R_scope.
Local Open Scope meth_scope.

Lemma register_loop_raises (items : list (string * FatTree.Node)) :
  Exists zero_state_node items ->
  forall sys g, exists e w', for_each items System.register_node (sys, g) = (Raise e, w').
Proof.
  induction 1 as [item items (q & Hq & Hne & Hz)|item items _ IH]; intros sys g; simpl.
  - unfold bind at 1. unfold System.register_node at 1. cbv zeta. rewrite Hq.
    unfold bind, System.spc, zoom. simpl fst; simpl snd.
    rewrite (zero_norm_create_raises _ _ _ _ Hne Hz). eauto.
  - unfold bind at 1. destruct (System.register_node item (sys, g)) as [[[]|e] [sys1 g1]].
    + apply IH.
    + eauto.
Qed.

Lemma initialize_body_first_zero (sys : System.SystemArchitecture) (g : rng)
    (item : string * FatTree.Node) (items : list (string * FatTree.Node)) :
  FatTree.nodes (System.fat_tree sys) = item :: items ->
  zero_state_node item ->
  exists w', System.initialize_body (sys, g) = (Raise LinAlgError, w').
Proof.
  intros Hn (q & Hq & Hne & Hz).
  unfold System.initialize_body. unfold bind at 1. unfold System.self_ at 1.
  simpl fst. unfold bind at 1. rewrite Hn. simpl for_each.
  unfold bind at 1. unfold System.register_node at 1. cbv zeta. rewrite Hq.
  unfold bind at 1.
  unfold System.spc, zoom. simpl fst; simpl snd.
  rewrite (zero_norm_create_raises _ _ _ _ Hne Hz). eauto.
Qed.

Lemma initialize_body_true (w w' : System.SystemArchitecture * rng) (b : bool) :
  System.initialize_body w = (Ok b, w') -> b = true.
Proof.
  unfold System.initialize_body, bind, System.self_, lift, System.modify_state, ret.
  destruct (for_each _ _ w) as [[[]|e] w1]; [|discriminate].
  destruct (FatTree.synchronize_layers _); [|discriminate].
  destruct (FatTree.optimize_resource_allocation _); [|discriminate].
  now intros [= <- _].
Qed.

Lemma initialize_zero_node (sys : System.SystemArchitecture) (g : rng) :
  Exists zero_state_node (FatTree.nodes (System.fat_tree sys)) ->
  exists w', System.initialize_system (sys, g) = (Ok false, w').
Proof.
  intros H. destruct (register_loop_raises _ H sys g) as (e & w1 & E).
  unfold System.initialize_system, try_except, System.initialize_body.
  unfold bind at 1. unfold System.self_ at 1. simpl fst.
  unfold bind at 1.
  rewrite E. unfold ret. eauto.
Qed.

End InitializeFacts.

Section InitializeDemo.
Local Open Scope R_scope.
Local Open Scope string_scope.

Lemma norm_asarray_zeros : norm (asarray zeros_4x4) = Fin 0.
Proof.
  change (asarray zeros_4x4) with (Array [4%nat; 4%nat] (map cfin (repeat (0, 0) 16))).
  rewrite norm_cfin. f_equal.
  replace (Rsum _) with 0 by (unfold Rsum, sq2; simpl; lra). apply sqrt_0.
Qed.

Lemma zero_node_system_has_zero_node :
  Exists zero_state_node (FatTree.nodes (System.fat_tree zero_node_system)).
Proof.
  left. exists zeros_4x4. repeat split; [discriminate | exact norm_asarray_zeros].
Qed.

End InitializeDemo.

(** C6 is refuted by the code: in a system whose node [core_0] holds the
    zero matrix, the body of [initialize_system] raises [LinAlgError] while
    it registers the node, and [initialize_system] itself does not raise: it
    catches the exception and returns [False]. *)
Lemma initialize_swallows_exception :
  (exists w', System.initialize_body (NP := exact_numpy) (zero_node_system, 0%nat)
              = (Raise LinAlgError, w'))
  /\ (exists w', System.initialize_system (NP := exact_numpy) (zero_node_system, 0%nat)
                 = (Ok false, w')).
Proof.
  split.
  - apply (initialize_body_first_zero (NP := exact_numpy) zero_node_system 0%nat
             ("core_0"%string, core_node (Some zeros_4x4)) []); [reflexivity|].
    exists zeros_4x4. repeat split; [discriminate | exact norm_asarray_zeros].
  - exact (initialize_zero_node (NP := exact_numpy) zero_node_system 0%nat
             zero_node_system_has_zero_node).
Qed.

(** C6, amended.  [initialize_system] never raises: an exception raised
    inside it is caught and reported by the return value [False], with the
    registry and the status left as they were when the exception occurred;
    it returns [True] exactly when its body ran to the end. *)
Theorem initialize_reports_exception_as_false {NP : Numpy}
    (sys : System.SystemArchitecture) (g : rng) :
  match System.initialize_body (sys, g) with
  | (Ok b, w') => b = true /\ System.initialize_system (sys, g) = (Ok true, w')
  | (Raise e, w') => System.initialize_system (sys, g) = (Ok false, w')
  end.
Proof.
  unfold System.initialize_system, try_except.
  destruct (System.initialize_body (sys, g)) as [[b|e] w'] eqn:E; [|reflexivity].
  apply initialize_body_true in E. subst b. auto.
Qed.

(** ** Averages of scores *)

Section AverageFacts.
Local Open Scope R_scope.

Lemma in_unit_0 : in_unit (Fin 0).
Proof. exists 0. split; [reflexivity | lra]. Qed.

Lemma in_unit_1 : in_unit (Fin 1).
Proof. exists 1. split; [reflexivity | lra]. Qed.

Lemma clip_unit_or_nan (x : npfloat) : unit_or_nan (clip x (Fin 0) (Fin 1)).
Proof.
  unfold clip. destruct x as [a| | |]; simpl.
  - unfold Rltb. destruct (Rlt_dec a 0); simpl; unfold Rltb.
    + destruct (Rlt_dec 1 0); [lra|]. right. apply in_unit_0.
    + destruct (Rlt_dec 1 a); right; [apply in_unit_1|].
      exists a. split; [reflexivity | lra].
  - right. apply in_unit_1.
  - rewrite Rltb_false by lra. right. apply in_unit_0.
  - now left.
Qed.

Lemma Rsum_unit_bounds (rs : list R) :
  Forall (fun r => 0 <= r <= 1) rs -> 0 <= Rsum rs <= INR (length rs).
Proof.
  induction 1 as [|r rs Hr _ IH].
  - rewrite Rsum_nil. simpl. lra.
  - rewrite Rsum_cons. change (length (r :: rs)) with (S (length rs)).
    rewrite S_INR. lra.
Qed.

Lemma in_unit_list (l : list npfloat) :
  Forall in_unit l -> exists rs, l = map Fin rs /\ Forall (fun r => 0 <= r <= 1) rs.
Proof.
  induction 1 as [|x l (r & -> & Hr) _ (rs & -> & Hrs)].
  - exists []. split; [reflexivity | constructor].
  - exists (r :: rs). split; [reflexivity | now constructor].
Qed.

Lemma unit_fraction (s n : R) : 0 < n -> 0 <= s <= n -> 0 <= s / n <= 1.
Proof.
  intros Hn Hs. assert (Hinv : 0 < / n) by now apply Rinv_0_lt_compat.
  assert (Hone : n * / n = 1) by (field; lra).
  unfold Rdiv. split; nra.
Qed.

Lemma average_in_unit (l : list npfloat) : Forall in_unit l -> in_unit (System.average l).
Proof.
  intros H. destruct l as [|x l]; [apply in_unit_0|].
  apply in_unit_list in H as (rs & E & Hrs). rewrite E.
  unfold System.average. destruct rs as [|r rs]; [discriminate|].
  change (map Fin (r :: rs)) with (Fin r :: map Fin rs).
  cbv iota. change (Fin r :: map Fin rs) with (map Fin (r :: rs)).
  rewrite fsum_fin, length_map.
  pose proof (Rsum_unit_bounds _ Hrs) as Hb.
  assert (Hn : 0 < INR (length (r :: rs))) by (apply lt_0_INR; simpl; lia).
  rewrite fdiv_fin by lra.
  eexists. split; [reflexivity|]. now apply unit_fraction.
Qed.

Lemma unit_or_nan_split (l : list npfloat) :
  Forall unit_or_nan l -> Forall in_unit l \/ In NaN l.
Proof.
  induction 1 as [|x l [->|Hx] _ [IH|IH]]; simpl; auto.
Qed.

Lemma average_poisoned (l : list npfloat) : In NaN l -> System.average l = NaN.
Proof.
  intros H. unfold System.average. destruct l as [|x l]; [contradiction|].
  unfold fsum. now rewrite (fold_fadd_poisoned _ H).
Qed.

Lemma average_unit_or_nan (l : list npfloat) :
  Forall unit_or_nan l -> unit_or_nan (System.average l).
Proof.
  intros H. destruct (unit_or_nan_split _ H) as [Hu|Hn].
  - right. now apply average_in_unit.
  - left. now apply average_poisoned.
Qed.

(** The overall score: the sum of three scores divided by [3.0]. *)
Lemma overall_in_unit (a b c : npfloat) :
  in_unit a -> in_unit b -> in_unit c ->
  in_unit (fdiv (fadd (fadd a b) c) (Fin 3)).
Proof.
  intros (x & -> & Hx) (y & -> & Hy) (z & -> & Hz). cbn [fadd].
  rewrite fdiv_fin by lra. eexists. split; [reflexivity|].
  apply unit_fraction; lra.
Qed.

Lemma overall_unit_or_nan (a b c : npfloat) :
  unit_or_nan a -> unit_or_nan b -> unit_or_nan c ->
  unit_or_nan (fdiv (fadd (fadd a b) c) (Fin 3)).
Proof.
  intros [->|Ha] [->|Hb] [->|Hc];
    try (right; now apply overall_in_unit); left;
    repeat match goal with
           | H : in_unit _ |- _ => destruct H as (? & -> & _)
           end; reflexivity.
Qed.

End AverageFacts.

(** ** Synchronization *)

Section SynchronizeFacts.
Context {NP : Numpy}.
Local Open Scope R_scope.
Local Open Scope meth_scope.

Lemma sync_fidelity_unit_or_nan (node1 node2 : FatTree.Node) (f : npfloat) :
  FatTree._calculate_sync_fidelity node1 node2 = Ok f -> unit_or_nan f.
Proof.
  unfold FatTree._calculate_sync_fidelity.
  destruct (FatTree.quantum_state node1) as [a|], (FatTree.quantum_state node2) as [b|];
    try (intros [= <-]; right; apply in_unit_0).
  destruct (FatTree.matmul_T a b); simpl; [|discriminate].
  intros [= <-]. apply clip_unit_or_nan.
Qed.

(** The loop of [synchronize_layers] adds one fidelity per edge. *)
Lemma sync_loop_fold (self : FatTree.FatTreeHierarchy) (es : list (string * string)) :
  forall t k acc,
    FatTree.sync_loop self es t k = Ok acc ->
    exists fs,
      length fs = length es /\ Forall unit_or_nan fs
      /\ acc = (fold_left fadd fs t, (k + Z.of_nat (length es))%Z).
Proof.
  induction es as [|edge es IH]; intros t k acc; simpl.
  - intros [= <-]. exists []. repeat split; [constructor | now rewrite Z.add_0_r].
  - destruct (FatTree.getitem _ (fst edge)) as [n1|]; simpl; [|discriminate].
    destruct (FatTree.getitem _ (snd edge)) as [n2|]; simpl; [|discriminate].
    destruct (FatTree._calculate_sync_fidelity n1 n2) as [f|] eqn:Ef; simpl; [|discriminate].
    intros H. apply IH in H as (fs & Hlen & Hfs & ->).
    exists (f :: fs). simpl. repeat split.
    + now rewrite Hlen.
    + constructor; [now apply sync_fidelity_unit_or_nan in Ef | assumption].
    + f_equal. lia.
Qed.

(** [synchronize_layers] returns the average of the edge fidelities. *)
Lemma synchronize_layers_average (self : FatTree.FatTreeHierarchy) (v : npfloat) :
  FatTree.synchronize_layers self = Ok v ->
  exists fs,
    length fs = length (FatTree.edges self) /\ Forall unit_or_nan fs
    /\ v = System.average fs.
Proof.
  unfold FatTree.synchronize_layers.
  destruct (FatTree.sync_loop self (FatTree.edges self) (Fin 0) 0) as [acc|] eqn:E;
    simpl; [|discriminate].
  apply sync_loop_fold in E as (fs & Hlen & Hfs & ->). simpl.
  intros [= <-]. exists fs. repeat split; auto.
  unfold System.average. rewrite <- Hlen.
  destruct fs as [|f fs]; [reflexivity|].
  replace (Z.of_nat (length (f :: fs)) >? 0)%Z with true
    by (symmetry; apply Z.gtb_lt; simpl length; lia).
  now rewrite <- INR_IZR_INZ.
Qed.

Lemma ethical_scores_in_unit (spc : SPC.SPCFramework) :
  Forall in_unit (System.ethical_scores spc).
Proof.
  unfold System.ethical_scores. apply Forall_map, Forall_forall. intros k _.
  destruct (SPC.apply_ethical_constraints spc k); [apply in_unit_1 | apply in_unit_0].
Qed.

Lemma consciousness_integration_unit_or_nan (spc : SPC.SPCFramework) (k : string)
    (s : npfloat) :
  SPC.get_consciousness_integration spc k = Ok s -> unit_or_nan s.
Proof.
  unfold SPC.get_consciousness_integration.
  destruct (dict_get _ k) as [qs|]; [|intros [= <-]; right; apply in_unit_0].
  destruct (SPC.consciousness_field spc) as [field|];
    [|intros [= <-]; right; apply in_unit_0].
  destruct (vdot _ _); simpl; [|discriminate].
  intros [= <-]. apply clip_unit_or_nan.
Qed.

Lemma consciousness_loop_scores (spc : SPC.SPCFramework) (ids : list string) :
  forall acc scores,
    System.consciousness_loop spc ids acc = Ok scores ->
    Forall unit_or_nan acc ->
    Forall unit_or_nan scores /\ length scores = (length acc + length ids)%nat.
Proof.
  induction ids as [|k ids IH]; intros acc scores; simpl.
  - intros [= <-] H. split; [assumption | lia].
  - destruct (SPC.get_consciousness_integration spc k) as [s|] eqn:E; simpl; [|discriminate].
    intros H Hacc. apply IH in H as [Hs Hlen].
    + split; [assumption|]. rewrite Hlen, length_app. simpl. lia.
    + apply Forall_app. split; [assumption|]. constructor; [|constructor].
      now apply consciousness_integration_unit_or_nan in E.
Qed.

Lemma synchronize_unfold (sys : System.SystemArchitecture) (g : rng) :
  System.synchronize_system (sys, g)
  = match FatTree.synchronize_layers (System.fat_tree sys) with
    | Raise e => (Raise e, (sys, g))
    | Ok tree_sync =>
        let spc := System.spc_framework sys in
        match System.consciousness_loop spc (keys (SPC.quantum_states spc)) [] with
        | Raise e => (Raise e, (sys, g))
        | Ok scores =>
            let avg_ethical := System.average (System.ethical_scores spc) in
            let avg_consciousness := System.average scores in
            (Ok (fdiv (fadd (fadd tree_sync avg_ethical) avg_consciousness) (Fin 3)),
             (System.set_system_state sys
                (System.mkSystemState
                   (System.initialized (System.system_state sys)) tree_sync
                   (System.resource_optimization_score (System.system_state sys))
                   avg_ethical avg_consciousness),
              g))
        end
    end.
Proof.
  unfold System.synchronize_system, bind, System.self_, lift, System.modify_state, ret.
  simpl fst; simpl snd.
  destruct (FatTree.synchronize_layers _); [|reflexivity].
  destruct (System.consciousness_loop _ _ _); reflexivity.
Qed.

End SynchronizeFacts.

Section SynchronizeDemo.
Local Open Scope R_scope.
Local Open Scope string_scope.

Lemma normalized_zero_field : array_div zero_field (norm zero_field) = nan_field.
Proof.
  assert (Hn : norm zero_field = Fin 0).
  { unfold zero_field. rewrite norm_cfin. f_equal.
    replace (Rsum _) with 0 by (unfold Rsum, sq2; simpl; lra). apply sqrt_0. }
  rewrite Hn. unfold array_div, zero_field, nan_field, cdivr. simpl.
  now rewrite (Reqb_true 0 0 eq_refl).
Qed.

Lemma update_with_zero_field (g : @rng exact_numpy) :
  System.update_consciousness_field (NP := exact_numpy) zero_field (one_record_system, g)
  = (Ok tt, (nan_field_system, g)).
Proof.
  unfold System.update_consciousness_field, System.spc, zoom,
    SPC.update_consciousness_field, SPC.modify.
  simpl. now rewrite normalized_zero_field.
Qed.

Lemma fadd_nan_r (x : npfloat) : fadd x NaN = NaN.
Proof. destruct x; reflexivity. Qed.

Lemma synchronize_nan_field (g : @rng exact_numpy) :
  exists w', System.synchronize_system (NP := exact_numpy) (nan_field_system, g)
             = (Ok NaN, w').
Proof.
  rewrite synchronize_unfold.
  assert (Et : FatTree.synchronize_layers (System.fat_tree nan_field_system) = Ok (Fin 0))
    by reflexivity.
  assert (Ec : System.consciousness_loop (System.spc_framework nan_field_system)
                 (keys (SPC.quantum_states (System.spc_framework nan_field_system))) []
               = Ok [NaN]) by reflexivity.
  rewrite Et. cbv zeta. rewrite Ec.
  rewrite (average_poisoned [NaN]) by now left.
  rewrite fadd_nan_r. simpl. eauto.
Qed.

Lemma cabs_fin (a b : R) : cabs (Cx (Fin a) (Fin b)) = Fin (sqrt (a * a + b * b)).
Proof. unfold cabs, cabs2. simpl. rewrite Rltb_false by nra. reflexivity. Qed.

Lemma clip_fin_in_unit (a : R) : in_unit (clip (Fin a) (Fin 0) (Fin 1)).
Proof.
  destruct (clip_unit_or_nan (Fin a)) as [H|H]; [|exact H].
  exfalso. revert H. unfold clip. simpl.
  destruct (Rltb a 0); simpl; [destruct (Rltb 1 0) | destruct (Rltb 1 a)]; discriminate.
Qed.

Lemma synchronize_one_record (g : @rng exact_numpy) :
  exists v w', System.synchronize_system (NP := exact_numpy) (one_record_system, g)
               = (Ok v, w').
Proof.
  rewrite synchronize_unfold.
  assert (Et : FatTree.synchronize_layers (System.fat_tree one_record_system) = Ok (Fin 0))
    by reflexivity.
  rewrite Et. cbv zeta.
  destruct (System.consciousness_loop _ _ _) as [scores|e] eqn:Ec; [eauto|].
  exfalso. revert Ec. unfold one_record_system. simpl. discriminate.
Qed.

Lemma one_record_scores :
  exists a b,
    System.consciousness_loop (System.spc_framework one_record_system)
      (keys (SPC.quantum_states (System.spc_framework one_record_system))) []
    = Ok [clip (cabs (Cx (Fin a) (Fin b))) (Fin 0) (Fin 1)].
Proof. do 2 eexists. reflexivity. Qed.

End SynchronizeDemo.

(** C5 is refuted by the code: after
    [update_consciousness_field(np.zeros((4, 4)))] on a system with one
    registered record, [synchronize_system] returns [nan], which is not a
    number of [[0, 1]]. *)
Lemma synchronize_can_return_nan :
  System.update_consciousness_field (NP := exact_numpy) zero_field (one_record_system, 0%nat)
  = (Ok tt, (nan_field_system, 0%nat))
  /\ (exists w', System.synchronize_system (NP := exact_numpy) (nan_field_system, 0%nat)
                 = (Ok NaN, w'))
  /\ ~ in_unit NaN.
Proof.
  split; [apply update_with_zero_field|]. split; [apply synchronize_nan_field|].
  intros (r & H & _). discriminate.
Qed.

(** C5, amended.  When [synchronize_system] returns, its value is the
    unweighted average [(tree_sync + avg_ethical + avg_consciousness) / 3]
    of the result of [synchronize_layers], the mean constraint-pass score and
    the mean consciousness-integration score; an empty edge list, and an
    empty registry, contribute [0] to it; the value is [nan] or lies in
    [[0, 1]], and it lies in [[0, 1]] whenever the layer synchronization and
    the mean integration score are numbers. *)
Theorem synchronize_is_average_of_three {NP : Numpy} (sys : System.SystemArchitecture)
    (g : rng) (v : npfloat) (w' : System.SystemArchitecture * rng) :
  System.synchronize_system (sys, g) = (Ok v, w') ->
  let spc := System.spc_framework sys in
  exists tree_sync scores,
    FatTree.synchronize_layers (System.fat_tree sys) = Ok tree_sync
    /\ System.consciousness_loop spc (keys (SPC.quantum_states spc)) [] = Ok scores
    /\ v = fdiv (fadd (fadd tree_sync (System.average (System.ethical_scores spc)))
                      (System.average scores)) (Fin 3)
    /\ (FatTree.edges (System.fat_tree sys) = [] -> tree_sync = Fin 0)
    /\ (SPC.quantum_states spc = [] ->
        System.average (System.ethical_scores spc) = Fin 0
        /\ System.average scores = Fin 0)
    /\ unit_or_nan v
    /\ (tree_sync <> NaN -> System.average scores <> NaN -> in_unit v).
Proof.
  intros H spc. rewrite synchronize_unfold in H. cbv zeta in H. fold spc in H.
  destruct (FatTree.synchronize_layers _) as [tree_sync|] eqn:Et; [|discriminate].
  destruct (System.consciousness_loop _ _ _) as [scores|] eqn:Ec; [|discriminate].
  injection H as <- _.
  exists tree_sync, scores.
  apply synchronize_layers_average in Et as (fs & Hlen & Hfs & ->).
  apply consciousness_loop_scores in Ec as [Hs Hslen]; [|constructor].
  pose proof (average_unit_or_nan _ Hfs) as Ha.
  pose proof (average_in_unit _ (ethical_scores_in_unit spc)) as Hb.
  pose proof (average_unit_or_nan _ Hs) as Hc.
  repeat split; try reflexivity.
  - intros He. rewrite He in Hlen. destruct fs; [reflexivity | discriminate].
  - unfold System.ethical_scores. now rewrite H.
  - rewrite H in Hslen. destruct scores; [reflexivity | discriminate].
  - apply overall_unit_or_nan; auto. now right.
  - intros Hna Hnc. apply overall_in_unit; auto.
    + destruct Ha; [contradiction | assumption].
    + destruct Hc; [contradiction | assumption].
Qed.

Lemma synchronize_is_average_of_three_witness :
  exists v w',
    System.synchronize_system (NP := exact_numpy) (one_record_system, 0%nat) = (Ok v, w')
    /\ in_unit v.
Proof.
  destruct one_record_scores as (a & b & Hscores).
  destruct (synchronize_one_record 0%nat) as (v & w' & E).
  exists v, w'. split; [exact E|].
  destruct (synchronize_is_average_of_three (NP := exact_numpy)
              one_record_system 0%nat v w' E)
    as (tree_sync & scores & Et & Ec & _ & _ & _ & _ & Hv).
  apply Hv.
  - injection Et as <-. discriminate.
  - rewrite Hscores in Ec. injection Ec as <-. rewrite cabs_fin.
    destruct (average_in_unit [clip (Fin (sqrt (a * a + b * b))) (Fin 0) (Fin 1)])
      as (r & Hr & _).
    + constructor; [apply clip_fin_in_unit | constructor].
    + rewrite Hr. discriminate.
Defined.

(* ================================================================== *)
(** * Further properties of the three modules *)
(* ================================================================== *)

(** ** Dictionaries: fresh keys, deletion *)

Section DictMore.
Variable V : Type.
Implicit Types (d : dict V) (k : string) (v : V).

Lemma dict_set_fresh d k v : ~ In k (keys d) -> dict_set d k v = d ++ [(k, v)].
Proof.
  induction d as [|[k' v'] d IH]; simpl; [reflexivity|].
  intros H. destruct (String.eqb_spec k' k) as [->|Hne]; [tauto|].
  f_equal. apply IH. tauto.
Qed.

Lemma dict_del_set_fresh d k v : ~ In k (keys d) -> dict_del (dict_set d k v) k = d.
Proof.
  induction d as [|[k' v'] d IH]; simpl.
  - now rewrite String.eqb_refl.
  - intros H. destruct (String.eqb_spec k' k) as [->|Hne]; [tauto|].
    simpl. destruct (String.eqb_spec k' k); [contradiction|].
    f_equal. apply IH. tauto.
Qed.

Lemma dict_get_set_other d k k' v : k <> k' -> dict_get (dict_set d k v) k' = dict_get d k'.
Proof.
  intros Hne. induction d as [|[k0 v0] d IH]; simpl.
  - destruct (String.eqb_spec k k'); [contradiction | reflexivity].
  - destruct (String.eqb_spec k0 k) as [->|H0]; simpl.
    + destruct (String.eqb_spec k k'); [contradiction | reflexivity].
    + now rewrite IH.
Qed.

Lemma dict_get_none_keys d k : dict_get d k = None <-> ~ In k (keys d).
Proof.
  rewrite <- dict_get_in_keys. destruct (dict_get d k); split; intros H;
    try congruence; tauto.
Qed.

Lemma dict_get_del_same d k : NoDup (keys d) -> dict_get (dict_del d k) k = None.
Proof.
  induction d as [|[k' v'] d IH]; simpl; [reflexivity|].
  intros H. inversion H as [|? ? Hnotin Hnd]; subst.
  destruct (String.eqb_spec k' k) as [->|Hne].
  - now apply dict_get_none_keys.
  - simpl. destruct (String.eqb_spec k' k); [contradiction|]. now apply IH.
Qed.

Lemma dict_get_del_other d k k' : k <> k' -> dict_get (dict_del d k) k' = dict_get d k'.
Proof.
  intros Hne. induction d as [|[k0 v0] d IH]; simpl; [reflexivity|].
  destruct (String.eqb_spec k0 k) as [->|H0]; simpl.
  - destruct (String.eqb_spec k k'); [contradiction | reflexivity].
  - now rewrite IH.
Qed.

Lemma keys_set_member d k v : In k (keys (dict_set d k v)).
Proof.
  apply dict_get_in_keys. rewrite dict_get_set_same. discriminate.
Qed.

Lemma keys_set_incl d k v k' : In k' (keys d) -> In k' (keys (dict_set d k v)).
Proof.
  intros H. destruct (in_dec string_dec k (keys d)) as [Hin|Hout].
  - now rewrite keys_set_present.
  - rewrite keys_set_fresh by assumption. apply in_or_app. now left.
Qed.

End DictMore.

(** ** The contents of a constructed hierarchy *)

Section BuildContents.
Context {NP : Numpy}.
Import FatTree.
Local Open Scope meth_scope.

Lemma random_rand_table {S} (s : S) (g : rng) :
  exists q g', random_rand 4 4 (s, g) = (Ok q, (s, g')) /\ finite_table 4 4 q.
Proof.
  exists (map (map Fin)
            (map (fun i => map (fun j => uniform g (i * 4 + j)) (seq 0 4)) (seq 0 4))).
  exists (advance g 16). split; [reflexivity|].
  eexists. split; [reflexivity|]. split; [reflexivity|]. repeat constructor.
Qed.

Lemma keys_items {A} (f : Z -> string) (mk : Z -> A -> Node) (l : list Z) (qs : list A) :
  length qs = length l ->
  keys (map (fun p => (f (fst p), mk (fst p) (snd p))) (combine l qs)) = map f l.
Proof.
  revert qs. induction l as [|i l IH]; intros [|q qs]; simpl; try discriminate; auto.
  intros [= H]. f_equal. now apply IH.
Qed.

Lemma set_nodes_same (t : FatTreeHierarchy) : set_nodes t (nodes t) = t.
Proof. now destruct t. Qed.

Lemma layer_loop_items (f : Z -> string) (mk : Z -> matrix -> Node) (l : list Z) :
  forall t g,
    NoDup (keys (nodes t) ++ map f l) ->
    exists qs g',
      for_each l (fun i => q <- random_rand 4 4 ;; store_node (f i) (mk i q)) (t, g)
      = (Ok tt,
         (set_nodes t (nodes t ++ map (fun p => (f (fst p), mk (fst p) (snd p)))
                                      (combine l qs)), g'))
      /\ length qs = length l /\ Forall (finite_table 4 4) qs.
Proof.
  induction l as [|i l IH]; intros t g Hnd; simpl.
  - exists [], g. rewrite app_nil_r, set_nodes_same. repeat split. constructor.
  - destruct (random_rand_table t g) as (q & g1 & Hq & Hfin).
    unfold bind at 1 2. rewrite Hq. unfold store_node at 1. simpl fst; simpl snd.
    rewrite dict_set_fresh.
    2:{ intros Hin. apply NoDup_remove_2 in Hnd. apply Hnd. apply in_or_app. now left. }
    set (t1 := set_nodes t (nodes t ++ [(f i, mk i q)])).
    destruct (IH t1 g1) as (qs & g' & He & Hlen & Hqs).
    { subst t1. simpl. unfold keys. rewrite map_app. simpl. rewrite <- app_assoc. exact Hnd. }
    exists (q :: qs), g'. rewrite He. subst t1. simpl. rewrite <- app_assoc. simpl.
    repeat split; auto.
Qed.

Lemma edge_loops_result (xs ys : list string) (t : FatTreeHierarchy) (g : rng) :
  for_each xs (fun x => for_each ys (fun y => append_edge (x, y))) (t, g)
  = (Ok tt, (set_edges t (edges t ++ pairs xs ys), g)).
Proof.
  destruct (outer_edge_loop xs ys t g) as (t' & E & Ed & N & C1 & C2 & C3).
  rewrite E. do 2 f_equal. destruct t, t'. simpl in *. unfold set_edges. simpl.
  unfold pairs. congruence.
Qed.

Lemma keys_layer_items (prefix layer : string) (level : Z) (thr : R)
    (indices : list Z) (qs : list matrix) :
  length qs = length indices ->
  keys (layer_items prefix layer level thr indices qs)
  = map (fun i => (prefix ++ str i)%string) indices.
Proof.
  intros H. unfold layer_items.
  exact (keys_items (fun i => (prefix ++ str i)%string)
           (fun i q => layer_node prefix layer level thr i q) indices qs H).
Qed.

(** The constructor returns, whatever the counts: the nodes of the three
    layers in creation order, each with a finite 4x4 state and the
    threshold of its layer, and the two complete bipartite edge sets. *)
Lemma init_contents (c a e : Z) (g : rng) :
  exists qc qa qe g',
    __init__ c a e g = (Ok (built_tree c a e qc qa qe), g')
    /\ layer_states c qc /\ layer_states a qa /\ layer_states e qe.
Proof.
  pose proof (all_ids_NoDup c a e) as Hnd.
  unfold __init__, _build_hierarchy.
  set (t0 := mkFatTree c a e [] []).
  unfold bind at 1. unfold self_ at 1. simpl fst.
  destruct (layer_loop_items (fun i => ("core_" ++ str i)%string)
              (fun i q => mkNode ("core_" ++ str i) "core" (0%Z, i) (Some q)
                            (Some [("fidelity_threshold"%string, Fin (95 / 100))]))
              (range (core_nodes t0)) t0 g)
    as (qc & g1 & E1 & L1 & F1).
  { simpl. apply NoDup_app_remove_r with (l' := agg_ids a ++ edge_ids e). exact Hnd. }
  unfold bind at 1. rewrite E1. clear E1.
  set (t1 := set_nodes t0 _).
  assert (K1 : keys (nodes t1) = core_ids c).
  { change (keys (layer_items "core_" "core" 0 (95 / 100) (range c) qc) = core_ids c).
    now apply keys_layer_items. }
  destruct (layer_loop_items (fun i => ("agg_" ++ str i)%string)
              (fun i q => mkNode ("agg_" ++ str i) "aggregation" (1%Z, i) (Some q)
                            (Some [("fidelity_threshold"%string, Fin (90 / 100))]))
              (range (aggregation_nodes t0)) t1 g1)
    as (qa & g2 & E2 & L2 & F2).
  { rewrite K1. simpl. apply NoDup_app_remove_r with (l' := edge_ids e).
    rewrite <- app_assoc. exact Hnd. }
  unfold bind at 1. rewrite E2. clear E2.
  set (t2 := set_nodes t1 _).
  assert (K2 : keys (nodes t2) = (core_ids c ++ agg_ids a)%list).
  { change (keys (nodes t1 ++ layer_items "agg_" "aggregation" 1 (90 / 100) (range a) qa)
            = (core_ids c ++ agg_ids a)%list).
    unfold keys. rewrite map_app. fold (keys (nodes t1)). rewrite K1. f_equal.
    now apply keys_layer_items. }
  destruct (layer_loop_items (fun i => ("edge_" ++ str i)%string)
              (fun i q => mkNode ("edge_" ++ str i) "edge" (2%Z, i) (Some q)
                            (Some [("fidelity_threshold"%string, Fin (85 / 100))]))
              (range (edge_nodes t0)) t2 g2)
    as (qe & g3 & E3 & L3 & F3).
  { rewrite K2. simpl. rewrite <- app_assoc. exact Hnd. }
  unfold bind at 1. rewrite E3. clear E3.
  unfold _create_edges. unfold bind at 1. unfold self_ at 1. simpl fst.
  unfold bind at 1. rewrite edge_loops_result. rewrite edge_loops_result.
  exists qc, qa, qe, g3. split.
  - f_equal. f_equal. subst t2 t1 t0. unfold built_tree, set_edges, set_nodes. simpl.
    unfold layer_items, layer_node, core_ids, agg_ids, edge_ids.
    now rewrite <- app_assoc.
  - unfold layer_states. auto.
Qed.

Lemma keys_built_tree (c a e : Z) (qc qa qe : list matrix) :
  layer_states c qc -> layer_states a qa -> layer_states e qe ->
  keys (nodes (built_tree c a e qc qa qe)) = (core_ids c ++ agg_ids a ++ edge_ids e)%list.
Proof.
  intros [Hc _] [Ha _] [He _]. simpl. unfold keys. rewrite !map_app.
  fold (keys (layer_items "core_" "core" 0 (95 / 100) (range c) qc)).
  fold (keys (layer_items "agg_" "aggregation" 1 (90 / 100) (range a) qa)).
  fold (keys (layer_items "edge_" "edge" 2 (85 / 100) (range e) qe)).
  now rewrite !keys_layer_items.
Qed.

End BuildContents.

(** ** Layers and neighbours of a constructed hierarchy *)

Section LayerFacts.
Context {NP : Numpy}.
Import FatTree.
Local Open Scope string_scope.

Lemma filter_layer_items (prefix layer : string) (level : Z) (thr : R)
    (indices : list Z) (qs : list matrix) (l : string) :
  filter (fun node => String.eqb (FatTree.layer node) l)
         (values (layer_items prefix layer level thr indices qs))
  = if String.eqb layer l then values (layer_items prefix layer level thr indices qs)
    else [].
Proof.
  unfold layer_items, values. rewrite map_map. simpl.
  induction (combine indices qs) as [|p ps IH]; simpl.
  - now destruct (String.eqb layer l).
  - rewrite IH. now destruct (String.eqb layer l).
Qed.

Lemma ids_layer_items (prefix layer : string) (level : Z) (thr : R)
    (indices : list Z) (qs : list matrix) :
  length qs = length indices ->
  map id (values (layer_items prefix layer level thr indices qs))
  = map (fun i => prefix ++ str i) indices.
Proof.
  intros H. rewrite <- (keys_layer_items prefix layer level thr indices qs H).
  unfold layer_items, values, keys. rewrite !map_map. reflexivity.
Qed.

Lemma layer_of_built_tree (c a e : Z) (qc qa qe : list matrix) (l : string) :
  get_node_by_layer (built_tree c a e qc qa qe) l
  = ((if String.eqb "core" l
      then values (layer_items "core_" "core" 0 (95 / 100) (range c) qc) else [])
     ++ (if String.eqb "aggregation" l
         then values (layer_items "agg_" "aggregation" 1 (90 / 100) (range a) qa) else [])
     ++ (if String.eqb "edge" l
         then values (layer_items "edge_" "edge" 2 (85 / 100) (range e) qe) else []))%list.
Proof.
  unfold get_node_by_layer, built_tree. cbn [nodes]. unfold values at 1.
  rewrite !map_app, !filter_app.
  fold (values (layer_items "core_" "core" 0 (95 / 100) (range c) qc)).
  fold (values (layer_items "agg_" "aggregation" 1 (90 / 100) (range a) qa)).
  fold (values (layer_items "edge_" "edge" 2 (85 / 100) (range e) qe)).
  now rewrite !filter_layer_items.
Qed.

Lemma dict_get_In {V} (d : dict V) (k : string) (v : V) :
  dict_get d k = Some v -> In (k, v) d.
Proof.
  induction d as [|[k' v'] d IH]; simpl; [discriminate|].
  destruct (String.eqb_spec k' k) as [->|Hne].
  - intros [= ->]. now left.
  - intros H. right. now apply IH.
Qed.

Lemma dict_get_NoDup {V} (d : dict V) (k : string) (v : V) :
  NoDup (keys d) -> In (k, v) d -> dict_get d k = Some v.
Proof.
  induction d as [|[k' v'] d IH]; simpl; [tauto|].
  intros Hnd [H|H]; inversion Hnd as [|? ? Hout Hnd']; subst.
  - injection H as -> ->. now rewrite String.eqb_refl.
  - destruct (String.eqb_spec k' k) as [->|Hne]; [|now apply IH].
    elim Hout. change k with (fst (k, v)). now apply in_map.
Qed.

Lemma built_items_own_id (c a e : Z) (qc qa qe : list matrix) (k : string) (node : Node) :
  In (k, node) (nodes (built_tree c a e qc qa qe)) -> id node = k.
Proof.
  cbn [built_tree nodes]. unfold layer_items. intros H.
  repeat (apply in_app_or in H as [H|H]);
    apply in_map_iff in H as ([i q] & [= <- <-] & _); reflexivity.
Qed.

End LayerFacts.

(** X1. A constructed hierarchy has, in creation order, the nodes [core_i]
    in the layer ["core"], [agg_i] in ["aggregation"] and [edge_i] in
    ["edge"]; every other layer name selects nothing, and every node is
    stored under its own identifier. *)
Theorem layers_of_constructed_hierarchy {NP : Numpy} (c a e : Z) (g : rng) :
  exists self g',
    FatTree.__init__ c a e g = (Ok self, g')
    /\ map FatTree.id (FatTree.get_node_by_layer self "core") = core_ids c
    /\ map FatTree.id (FatTree.get_node_by_layer self "aggregation") = agg_ids a
    /\ map FatTree.id (FatTree.get_node_by_layer self "edge") = edge_ids e
    /\ (forall l : string,
          l <> "core"%string -> l <> "aggregation"%string -> l <> "edge"%string ->
          FatTree.get_node_by_layer self l = [])
    /\ (forall k node,
          dict_get (FatTree.nodes self) k = Some node -> FatTree.id node = k).
Proof.
  destruct (init_contents c a e g) as (qc & qa & qe & g' & E & [Lc Fc] & [La Fa] & [Le Fe]).
  exists (built_tree c a e qc qa qe), g'. split; [exact E|].
  rewrite !layer_of_built_tree. simpl String.eqb. cbv iota.
  rewrite !app_nil_r, !app_nil_l.
  rewrite !ids_layer_items by assumption.
  split; [reflexivity|]. split; [reflexivity|]. split; [reflexivity|]. split.
  - intros l H1 H2 H3. rewrite layer_of_built_tree.
    destruct (String.eqb_spec "core" l); [congruence|].
    destruct (String.eqb_spec "aggregation" l); [congruence|].
    destruct (String.eqb_spec "edge" l); [congruence|]. reflexivity.
  - intros k node H. apply dict_get_In in H. now apply built_items_own_id in H.
Qed.

Section NeighbourFacts.
Local Open Scope string_scope.

Lemma other_end_from (x : string) (ys : list string) :
  flat_map (other_end x) (map (fun y => (x, y)) ys) = ys.
Proof.
  induction ys as [|y ys IH]; simpl; [reflexivity|].
  unfold other_end at 1. simpl. rewrite String.eqb_refl. simpl. now rewrite IH.
Qed.

Lemma other_end_unrelated (x x0 : string) (ys : list string) :
  x0 <> x -> ~ In x ys -> flat_map (other_end x) (map (fun y => (x0, y)) ys) = [].
Proof.
  intros Hne. induction ys as [|y ys IH]; simpl; [reflexivity|].
  intros H. unfold other_end at 1. simpl.
  destruct (String.eqb_spec x0 x); [contradiction|].
  destruct (String.eqb_spec y x); [tauto|]. simpl. apply IH. tauto.
Qed.

Lemma other_end_to (y x0 : string) (ys : list string) :
  x0 <> y -> NoDup ys -> In y ys ->
  flat_map (other_end y) (map (fun b => (x0, b)) ys) = [x0].
Proof.
  intros Hne Hnd. induction Hnd as [|b ys Hout Hnd IH]; simpl; [tauto|].
  intros H. unfold other_end at 1. simpl.
  destruct (String.eqb_spec x0 y); [contradiction|].
  destruct (String.eqb_spec b y) as [->|Hb]; simpl.
  - f_equal. now apply other_end_unrelated.
  - apply IH. destruct H; [contradiction | assumption].
Qed.

Lemma connected_none (x : string) (xs ys : list string) :
  ~ In x xs -> ~ In x ys -> flat_map (other_end x) (pairs xs ys) = [].
Proof.
  intros Hx Hy. unfold pairs. induction xs as [|x0 xs IH]; simpl; [reflexivity|].
  simpl in Hx. rewrite flat_map_app, other_end_unrelated by tauto.
  simpl. apply IH. tauto.
Qed.

Lemma connected_left (x : string) (xs ys : list string) :
  NoDup xs -> In x xs -> ~ In x ys -> flat_map (other_end x) (pairs xs ys) = ys.
Proof.
  intros Hnd Hx Hy. unfold pairs.
  induction Hnd as [|x0 xs Hout Hnd IH]; simpl; [contradiction|].
  rewrite flat_map_app. destruct (string_dec x0 x) as [->|Hne].
  - rewrite other_end_from. fold (pairs xs ys).
    rewrite connected_none by assumption. apply app_nil_r.
  - rewrite other_end_unrelated by assumption. simpl. apply IH.
    destruct Hx; [contradiction | assumption].
Qed.

Lemma connected_right (y : string) (xs ys : list string) :
  NoDup ys -> In y ys -> ~ In y xs -> flat_map (other_end y) (pairs xs ys) = xs.
Proof.
  intros Hnd Hy Hx. unfold pairs. induction xs as [|x0 xs IH]; simpl; [reflexivity|].
  simpl in Hx. rewrite flat_map_app, other_end_to by tauto.
  simpl. f_equal. apply IH. tauto.
Qed.

Lemma connected_of_built_tree (c a e : Z) (qc qa qe : list matrix) (x : string) :
  FatTree.get_connected_nodes (built_tree c a e qc qa qe) x
  = (flat_map (other_end x) (pairs (core_ids c) (agg_ids a))
     ++ flat_map (other_end x) (pairs (agg_ids a) (edge_ids e)))%list.
Proof.
  unfold FatTree.get_connected_nodes, built_tree. cbn [FatTree.edges].
  now rewrite flat_map_app.
Qed.

Lemma core_not_agg (c a : Z) (x : string) : In x (core_ids c) -> ~ In x (agg_ids a).
Proof.
  intros H1 H2. apply in_map_iff in H1 as (i & <- & _).
  apply in_map_iff in H2 as (j & Hj & _). discriminate.
Qed.

Lemma core_not_edge (c e : Z) (x : string) : In x (core_ids c) -> ~ In x (edge_ids e).
Proof.
  intros H1 H2. apply in_map_iff in H1 as (i & <- & _).
  apply in_map_iff in H2 as (j & Hj & _). discriminate.
Qed.

Lemma agg_not_edge (a e : Z) (x : string) : In x (agg_ids a) -> ~ In x (edge_ids e).
Proof.
  intros H1 H2. apply in_map_iff in H1 as (i & <- & _).
  apply in_map_iff in H2 as (j & Hj & _). discriminate.
Qed.

Lemma neighbours_of_built_tree (c a e : Z) (qc qa qe : list matrix) :
  let self := built_tree c a e qc qa qe in
  (forall x, In x (core_ids c) -> FatTree.get_connected_nodes self x = agg_ids a)
  /\ (forall x, In x (agg_ids a) ->
        FatTree.get_connected_nodes self x = (core_ids c ++ edge_ids e)%list)
  /\ (forall x, In x (edge_ids e) -> FatTree.get_connected_nodes self x = agg_ids a)
  /\ (forall x, ~ In x (core_ids c ++ agg_ids a ++ edge_ids e)%list ->
        FatTree.get_connected_nodes self x = []).
Proof.
  intros self. subst self.
  pose proof (ids_NoDup "core_" c) as Nc. fold (core_ids c) in Nc.
  pose proof (ids_NoDup "agg_" a) as Na. fold (agg_ids a) in Na.
  pose proof (ids_NoDup "edge_" e) as Ne. fold (edge_ids e) in Ne.
  repeat split; intros x H; rewrite connected_of_built_tree.
  - pose proof (core_not_agg c a x H). pose proof (core_not_edge c e x H).
    rewrite connected_left, connected_none by assumption. apply app_nil_r.
  - pose proof (agg_not_edge a e x H).
    assert (~ In x (core_ids c)) by (intros H'; now apply (core_not_agg c a x)).
    now rewrite connected_right, connected_left by assumption.
  - assert (~ In x (core_ids c)) by (intros H'; now apply (core_not_edge c e x)).
    assert (~ In x (agg_ids a)) by (intros H'; now apply (agg_not_edge a e x)).
    now rewrite connected_none, connected_right by assumption.
  - assert (~ In x (core_ids c)) by (intros H'; apply H; apply in_or_app; auto).
    assert (~ In x (agg_ids a))
      by (intros H'; apply H; apply in_or_app; right; apply in_or_app; auto).
    assert (~ In x (edge_ids e))
      by (intros H'; apply H; apply in_or_app; right; apply in_or_app; auto).
    now rewrite !connected_none by assumption.
Qed.

End NeighbourFacts.

(** X2. In a constructed hierarchy [get_connected_nodes] returns, for a
    core node, all aggregation nodes; for an aggregation node, all core
    nodes followed by all edge nodes; for an edge node, all aggregation
    nodes; and the empty list for an identifier that is not a node. *)
Theorem neighbours_in_constructed_hierarchy {NP : Numpy} (c a e : Z) (g : rng) :
  exists self g',
    FatTree.__init__ c a e g = (Ok self, g')
    /\ (forall x, In x (core_ids c) -> FatTree.get_connected_nodes self x = agg_ids a)
    /\ (forall x, In x (agg_ids a) ->
          FatTree.get_connected_nodes self x = core_ids c ++ edge_ids e)
    /\ (forall x, In x (edge_ids e) -> FatTree.get_connected_nodes self x = agg_ids a)
    /\ (forall x, ~ In x (keys (FatTree.nodes self)) ->
          FatTree.get_connected_nodes self x = []).
Proof.
  destruct (init_contents c a e g) as (qc & qa & qe & g' & E & Hc & Ha & He).
  exists (built_tree c a e qc qa qe), g'. split; [exact E|].
  rewrite (keys_built_tree c a e qc qa qe Hc Ha He).
  apply neighbours_of_built_tree.
Qed.

(** ** Fidelity of finite states *)

Section FidelityFacts.
Local Open Scope R_scope.

Lemma Rsum_app (l1 l2 : list R) : Rsum (l1 ++ l2) = Rsum l1 + Rsum l2.
Proof.
  unfold Rsum. rewrite fold_left_app, (fold_Rplus l2). reflexivity.
Qed.

Lemma dot_fin (r1 r2 : list R) :
  FatTree.dot (map Fin r1) (map Fin r2) = Fin (Rdot r1 r2).
Proof.
  unfold FatTree.dot, Rdot. rewrite <- fsum_fin. f_equal.
  revert r2. induction r1 as [|x r1 IH]; intros [|y r2]; simpl; try reflexivity.
  f_equal. apply IH.
Qed.

Lemma overlap_fin (a b : list (list R)) :
  fsum (map (fun p => FatTree.dot (fst p) (snd p))
            (combine (map (map Fin) a) (map (map Fin) b)))
  = Fin (Roverlap a b).
Proof.
  unfold Roverlap. rewrite <- fsum_fin. f_equal.
  revert b. induction a as [|ra a IH]; intros [|rb b]; simpl; try reflexivity.
  rewrite dot_fin. f_equal. apply IH.
Qed.

Lemma Rsquares_nonneg (a : list (list R)) : 0 <= Rsquares a.
Proof. apply Rsum_squares_nonneg. Qed.

Lemma frobenius_fin (a : list (list R)) :
  FatTree.frobenius (map (map Fin) a) = Fin (sqrt (Rsquares a)).
Proof.
  unfold FatTree.frobenius, Rsquares. rewrite <- concat_map, !map_map.
  rewrite <- (map_map (fun x => x * x) Fin), fsum_fin.
  apply fsqrt_fin, Rsum_squares_nonneg.
Qed.

(** The fidelity of two finite states whose rows have one length: the
    clipped quotient when both norms are non-zero, [nan] otherwise. *)
Lemma sync_fidelity_finite (node1 node2 : FatTree.Node) (a b : list (list R)) :
  FatTree.quantum_state node1 = Some (map (map Fin) a) ->
  FatTree.quantum_state node2 = Some (map (map Fin) b) ->
  FatTree.ncols (map (map Fin) a) = FatTree.ncols (map (map Fin) b) ->
  exists f,
    FatTree._calculate_sync_fidelity node1 node2 = Ok f
    /\ unit_or_nan f
    /\ (FatTree.frobenius (map (map Fin) a) <> Fin 0 ->
        FatTree.frobenius (map (map Fin) b) <> Fin 0 ->
        f = clip (Fin (Rabs (Roverlap a b) / (sqrt (Rsquares a) * sqrt (Rsquares b))))
                 (Fin 0) (Fin 1)
        /\ in_unit f).
Proof.
  intros Ha Hb Hcols. rewrite (sync_fidelity_formula _ _ _ _ Ha Hb Hcols).
  eexists. split; [reflexivity|]. split; [apply clip_unit_or_nan|].
  rewrite overlap_fin, !frobenius_fin. intros Hna Hnb.
  assert (sqrt (Rsquares a) * sqrt (Rsquares b) <> 0).
  { apply Rmult_integral_contrapositive. split; congruence. }
  simpl fabs. simpl fmul. rewrite fdiv_fin by assumption.
  split; [reflexivity | apply clip_fin_in_unit].
Qed.

Lemma ncols_finite_table (r c : nat) (q : matrix) :
  finite_table (S r) c q -> FatTree.ncols q = c.
Proof.
  intros (rows & -> & Hlen & Hrows). destruct rows as [|row rows]; [discriminate|].
  inversion Hrows as [|? ? Hrow _]; subst. unfold FatTree.ncols. simpl.
  now rewrite length_map.
Qed.

End FidelityFacts.

(** ** Synchronization of a constructed hierarchy *)

Section SynchronizeConstructed.
Import FatTree.
Local Open Scope R_scope.

Lemma in_pairs (xs ys : list string) (edge : string * string) :
  In edge (pairs xs ys) -> In (fst edge) xs /\ In (snd edge) ys.
Proof.
  unfold pairs. intros H. apply in_flat_map in H as (x & Hx & H).
  apply in_map_iff in H as (y & <- & Hy). auto.
Qed.

Lemma layer_items_states (prefix layer : string) (level : Z) (thr : R)
    (indices : list Z) (qs : list matrix) (k : string) (node : Node) :
  Forall (finite_table 4 4) qs ->
  In (k, node) (layer_items prefix layer level thr indices qs) ->
  exists q, quantum_state node = Some q /\ finite_table 4 4 q.
Proof.
  intros Hqs H. unfold layer_items in H. apply in_map_iff in H as ([i q] & [= _ <-] & H).
  apply in_combine_r in H. exists q. split; [reflexivity|].
  rewrite Forall_forall in Hqs. now apply Hqs.
Qed.

Lemma built_lookup (c a e : Z) (qc qa qe : list matrix) (x : string) :
  layer_states c qc -> layer_states a qa -> layer_states e qe ->
  In x (core_ids c ++ agg_ids a ++ edge_ids e) ->
  exists node q,
    getitem (nodes (built_tree c a e qc qa qe)) x = Ok node
    /\ In node (values (nodes (built_tree c a e qc qa qe)))
    /\ quantum_state node = Some q /\ finite_table 4 4 q.
Proof.
  intros Hc Ha He Hx. rewrite <- (keys_built_tree c a e qc qa qe Hc Ha He) in Hx.
  apply dict_get_in_keys in Hx. unfold getitem.
  destruct (dict_get _ x) as [node|] eqn:E; [|congruence].
  apply dict_get_In in E.
  assert (Hin : In node (values (nodes (built_tree c a e qc qa qe)))).
  { change node with (snd (x, node)). now apply in_map. }
  destruct Hc as [_ Fc], Ha as [_ Fa], He as [_ Fe].
  cbn [built_tree nodes] in E.
  repeat (apply in_app_or in E as [E|E]);
    (eapply layer_items_states in E as (q & Hq & Hfin); [|eassumption]);
    exists node, q; auto.
Qed.

Lemma sync_loop_finite (self : FatTreeHierarchy) (es : list (string * string)) :
  Forall (fun edge =>
            forall x, x = fst edge \/ x = snd edge ->
              exists node q,
                getitem (nodes self) x = Ok node
                /\ In node (values (nodes self))
                /\ quantum_state node = Some q /\ finite_table 4 4 q) es ->
  forall t k,
    exists fs,
      sync_loop self es t k = Ok (fold_left fadd fs t, (k + Z.of_nat (length es))%Z)
      /\ length fs = length es
      /\ Forall unit_or_nan fs
      /\ (nonzero_states self -> Forall in_unit fs).
Proof.
  induction 1 as [|edge es Hedge _ IH]; intros t k.
  - exists []. simpl. rewrite Z.add_0_r. repeat split; constructor.
  - destruct (Hedge (fst edge)) as (n1 & q1 & G1 & I1 & S1 & F1); [now left|].
    destruct (Hedge (snd edge)) as (n2 & q2 & G2 & I2 & S2 & F2); [now right|].
    pose proof (ncols_finite_table _ _ _ F1) as C1.
    pose proof (ncols_finite_table _ _ _ F2) as C2.
    destruct F1 as (r1 & -> & _), F2 as (r2 & -> & _).
    destruct (sync_fidelity_finite n1 n2 r1 r2 S1 S2) as (f & Ef & Uf & Hf);
      [congruence|].
    simpl. rewrite G1, G2. simpl. rewrite Ef. simpl.
    destruct (IH (fadd t f) (k + 1)%Z) as (fs & E & Hlen & Hu & Hin).
    exists (f :: fs). rewrite E. simpl. repeat split.
    + do 2 f_equal. lia.
    + now rewrite Hlen.
    + now constructor.
    + intros Hnz. constructor; [|now apply Hin].
      unfold nonzero_states in Hnz. rewrite Forall_forall in Hnz.
      apply Hf; [now apply (Hnz n1) | now apply (Hnz n2)].
Qed.

End SynchronizeConstructed.

Lemma synchronize_built_tree (c a e : Z) (qc qa qe : list matrix) :
  layer_states c qc -> layer_states a qa -> layer_states e qe ->
  let self := built_tree c a e qc qa qe in
  exists fs,
    FatTree.synchronize_layers self = Ok (System.average fs)
    /\ length fs = length (FatTree.edges self)
    /\ Forall unit_or_nan fs
    /\ (nonzero_states self -> Forall in_unit fs).
Proof.
  intros Hc Ha He self.
  destruct (sync_loop_finite self (FatTree.edges self)) with (t := Fin 0) (k := 0%Z)
    as (fs & E & Hlen & Hu & Hin).
  { apply Forall_forall. intros edge Hedge x Hx. apply (built_lookup c a e); auto.
    subst self. cbn [built_tree FatTree.edges] in Hedge.
    apply in_app_or in Hedge as [H|H]; apply in_pairs in H as [H1 H2];
      destruct Hx as [-> | ->]; rewrite !in_app_iff; tauto. }
  exists fs. unfold FatTree.synchronize_layers. rewrite E. cbn [rbind fst snd].
  repeat split; auto. f_equal. unfold System.average. rewrite Z.add_0_l, <- Hlen.
  destruct fs as [|f fs]; [reflexivity|].
  replace (Z.of_nat (length (f :: fs)) >? 0)%Z with true
    by (symmetry; apply Z.gtb_lt; simpl length; lia).
  now rewrite <- INR_IZR_INZ.
Qed.

(** X4. [synchronize_layers] never raises on a constructed hierarchy: every
    edge joins two existing nodes with 4x4 states.  Its value is [nan] or
    lies in [[0, 1]]; it lies in [[0, 1]] when no node state has norm zero,
    and it is [0.0] when the hierarchy has no edge. *)
Theorem synchronize_constructed_hierarchy {NP : Numpy} (c a e : Z) (g : rng) :
  exists self g' v,
    FatTree.__init__ c a e g = (Ok self, g')
    /\ FatTree.synchronize_layers self = Ok v
    /\ unit_or_nan v
    /\ (nonzero_states self -> in_unit v)
    /\ (FatTree.edges self = [] -> v = Fin 0).
Proof.
  destruct (init_contents c a e g) as (qc & qa & qe & g' & E & Hc & Ha & He).
  destruct (synchronize_built_tree c a e qc qa qe Hc Ha He) as (fs & Es & Hlen & Hu & Hin).
  exists (built_tree c a e qc qa qe), g', (System.average fs).
  split; [exact E|]. split; [exact Es|]. split; [|split].
  - now apply average_unit_or_nan.
  - intros Hnz. apply average_in_unit. now apply Hin.
  - intros Hnil. rewrite Hnil in Hlen. destruct fs; [reflexivity | discriminate].
Qed.

Lemma well_scaled_table_norm (a : list (list R)) :
  well_scaled_table a -> FatTree.frobenius (map (map Fin) a) <> Fin 0.
Proof.
  intros [Hlo _]. rewrite frobenius_fin. intros [= H].
  pose proof sq_norm_min_pos. apply sqrt_eq_0 in H; lra.
Qed.

(** X5. For two states that are finite matrices with rows of one length,
    each with a squared norm within the range of [float64],
    [_calculate_sync_fidelity] returns a number of [[0, 1]]: neither [nan]
    nor an exception. *)
Theorem sync_fidelity_of_well_scaled_states (node1 node2 : FatTree.Node)
    (a b : list (list R)) :
  FatTree.quantum_state node1 = Some (map (map Fin) a) ->
  FatTree.quantum_state node2 = Some (map (map Fin) b) ->
  FatTree.ncols (map (map Fin) a) = FatTree.ncols (map (map Fin) b) ->
  well_scaled_table a ->
  well_scaled_table b ->
  exists f, FatTree._calculate_sync_fidelity node1 node2 = Ok f /\ in_unit f.
Proof.
  intros Ha Hb Hcols Hsa Hsb.
  destruct (sync_fidelity_finite node1 node2 a b Ha Hb Hcols) as (f & E & _ & Hf).
  exists f. split; [exact E|].
  now apply Hf; apply well_scaled_table_norm.
Qed.

Lemma ones_well_scaled : well_scaled_table (repeat (repeat 1%R 4) 4).
Proof.
  unfold well_scaled_table.
  replace (Rsquares (repeat (repeat 1%R 4) 4)) with 16%R
    by (unfold Rsquares, Rsum; simpl; lra).
  unfold sq_norm_min, sq_norm_max. split; lra.
Qed.

Lemma sync_fidelity_of_well_scaled_states_witness :
  exists f,
    FatTree._calculate_sync_fidelity (core_node (Some ones_4x4)) (agg_node (Some ones_4x4))
    = Ok f /\ in_unit f.
Proof.
  apply (sync_fidelity_of_well_scaled_states (core_node (Some ones_4x4))
           (agg_node (Some ones_4x4)) (repeat (repeat 1%R 4) 4) (repeat (repeat 1%R 4) 4)).
  - reflexivity.
  - reflexivity.
  - reflexivity.
  - exact ones_well_scaled.
  - exact ones_well_scaled.
Defined.

(** ** Depth and utilities *)

Section DepthFacts.
Local Open Scope R_scope.

Lemma ln_2_pos : 0 < ln 2.
Proof. rewrite <- ln_1. apply ln_increasing; lra. Qed.

Lemma flog2_of_count (n : Z) :
  (0 < n)%Z ->
  exists r, flog2 (Fin (IZR n)) = Fin r /\ 0 <= r /\ Rpower 2 r = IZR n.
Proof.
  intros Hn. assert (H1 : 1 <= IZR n) by (apply IZR_le; lia).
  exists (ln (IZR n) / ln 2). unfold flog2. rewrite Rltb_true by lra.
  split; [reflexivity|]. pose proof ln_2_pos as L2. split.
  - apply Rmult_le_pos; [|left; now apply Rinv_0_lt_compat].
    rewrite <- ln_1. destruct H1 as [H1|<-]; [left; apply ln_increasing; lra | right; reflexivity].
  - unfold Rpower. replace (ln (IZR n) / ln 2 * ln 2) with (ln (IZR n)) by (field; lra).
    apply exp_ln. lra.
Qed.

End DepthFacts.

(** X6. [get_logarithmic_depth] always returns a finite number [r >= 0]:
    [0.0] for a hierarchy without nodes, and otherwise the base-2
    logarithm of the number of nodes, that is, [2 ** r] is that number. *)
Theorem logarithmic_depth_value (self : FatTree.FatTreeHierarchy) :
  exists r : R,
    FatTree.get_logarithmic_depth self = Fin r
    /\ (0 <= r)%R
    /\ (FatTree.nodes self = [] -> r = 0%R)
    /\ (FatTree.nodes self <> [] -> Rpower 2 r = IZR (len (FatTree.nodes self))).
Proof.
  unfold FatTree.get_logarithmic_depth.
  destruct (FatTree.nodes self) as [|item items] eqn:E.
  - exists 0%R. simpl. repeat split; try reflexivity; try lra. congruence.
  - assert (Hpos : (0 < len (item :: items))%Z) by (unfold len; simpl length; lia).
    destruct (flog2_of_count _ Hpos) as (r & Hr & Hr0 & Hp).
    exists r. replace (len (item :: items) >? 0)%Z with true
      by (symmetry; now apply Z.gtb_lt).
    repeat split; auto. discriminate.
Qed.

Section UtilityFacts.
Context {NP : Numpy}.
Import FatTree.
Local Open Scope R_scope.

Lemma eigvals_raises (m : list (list cplx)) (err : exn) :
  eigvals m = Raise err -> err = LinAlgError.
Proof.
  unfold eigvals. destruct (negb (is_square m)); [congruence|].
  destruct (negb (forallb (forallb cfinite) m)); [congruence|].
  destruct (geev m); congruence.
Qed.

Lemma tree_coherence_cases (q : option matrix) :
  match _calculate_coherence q with
  | Raise err => err = LinAlgError
  | Ok x => unit_or_nan x
  end.
Proof.
  unfold _calculate_coherence. destruct q as [q|]; [|right; apply in_unit_0].
  destruct (eigvals _) as [l|err] eqn:E; simpl.
  - apply clip_unit_or_nan.
  - now apply eigvals_raises in E.
Qed.

Lemma values_set_Forall {V} (P : V -> Prop) (d : dict V) (k : string) (v : V) :
  Forall P (values d) -> P v -> Forall P (values (dict_set d k v)).
Proof.
  intros Hd Hv. induction d as [|[k' v'] d IH]; simpl.
  - now constructor.
  - inversion Hd; subst. destruct (String.eqb k' k); simpl; constructor; auto.
Qed.

Lemma utility_bound (thr : R) (x : npfloat) :
  0 <= thr -> unit_or_nan x -> utility_within thr (fmul x (Fin thr)).
Proof.
  intros Ht [-> | (r & -> & Hr)]; [now left|]. right. exists (r * thr). simpl.
  split; [reflexivity|]. nra.
Qed.

Lemma utility_within_weaken (b b' : R) (u : npfloat) :
  b <= b' -> utility_within b u -> utility_within b' u.
Proof.
  intros Hb [-> | (r & -> & Hr)]; [now left|]. right. exists r. split; [reflexivity | lra].
Qed.

Lemma utilities_loop_spec (bound : R) (items : list (string * Node)) :
  Forall (fun item => exists thr, 0 <= thr <= bound
            /\ _calculate_ethical_score (ethical_constraints (snd item)) = Fin thr) items ->
  forall acc,
    NoDup (keys acc ++ keys items) ->
    Forall (utility_within bound) (values acc) ->
    match utilities_loop items acc with
    | Raise err => err = LinAlgError
    | Ok utilities =>
        keys utilities = (keys acc ++ keys items)%list
        /\ Forall (utility_within bound) (values utilities)
    end.
Proof.
  induction 1 as [|[k node] items (thr & Hthr & Hscore) _ IH]; intros acc Hnd Hacc; simpl.
  - now rewrite app_nil_r.
  - pose proof (tree_coherence_cases (quantum_state node)) as Hc.
    destruct (_calculate_coherence (quantum_state node)) as [x|err]; simpl; [|exact Hc].
    simpl in Hscore. rewrite Hscore.
    assert (Hk : keys (dict_set acc k (fmul x (Fin thr))) = (keys acc ++ [k])%list).
    { apply keys_set_fresh. intros Hin. apply NoDup_remove_2 in Hnd. apply Hnd.
      apply in_or_app. now left. }
    specialize (IH (dict_set acc k (fmul x (Fin thr)))).
    rewrite Hk, <- app_assoc in IH. apply IH; [exact Hnd|].
    apply values_set_Forall; [assumption|].
    apply utility_within_weaken with (b := thr); [lra|]. apply utility_bound; [lra | assumption].
Qed.

Lemma layer_items_scores (prefix layer : string) (level : Z) (thr : R)
    (indices : list Z) (qs : list matrix) (bound : R) :
  0 <= thr <= bound ->
  Forall (fun item => exists t, 0 <= t <= bound
            /\ _calculate_ethical_score (ethical_constraints (snd item)) = Fin t)
         (layer_items prefix layer level thr indices qs).
Proof.
  intros Ht. unfold layer_items. apply Forall_map, Forall_forall. intros [i q] _.
  exists thr. split; [assumption | reflexivity].
Qed.

End UtilityFacts.

(** X7. On a constructed hierarchy [optimize_resource_allocation] either
    raises numpy's [LinAlgError] (the eigenvalue routine did not converge)
    or returns one utility per node, under the node's identifier and in
    the order of the nodes; each utility is [nan] or lies between [0] and
    the largest layer threshold [0.95]. *)
Theorem utilities_of_constructed_hierarchy {NP : Numpy} (c a e : Z) (g : rng) :
  exists self g',
    FatTree.__init__ c a e g = (Ok self, g')
    /\ match FatTree.optimize_resource_allocation self with
       | Raise err => err = LinAlgError
       | Ok utilities =>
           keys utilities = keys (FatTree.nodes self)
           /\ Forall (utility_within (95 / 100)) (values utilities)
       end.
Proof.
  destruct (init_contents c a e g) as (qc & qa & qe & g' & E & Hc & Ha & He).
  exists (built_tree c a e qc qa qe), g'. split; [exact E|].
  unfold FatTree.optimize_resource_allocation.
  apply (utilities_loop_spec (95 / 100)).
  - cbn [built_tree FatTree.nodes]. rewrite !Forall_app.
    repeat split; apply layer_items_scores; lra.
  - simpl app. rewrite (keys_built_tree c a e qc qa qe Hc Ha He). apply all_ids_NoDup.
  - constructor.
Qed.

(** ** The registry: failures, identifiers *)

Section RegistryMore.
Context {NP : Numpy}.
Local Open Scope R_scope.

Lemma ethical_fidelity_raises (self : SPC.SPCFramework) (w : ndarray) (err : exn) :
  SPC._calculate_ethical_fidelity self w = Raise err -> err = ValueError.
Proof.
  unfold SPC._calculate_ethical_fidelity, vdot.
  destruct (SPC.consciousness_field self) as [field|]; [|discriminate].
  destruct (Nat.eqb _ _); simpl; congruence.
Qed.

Lemma make_record_raises (self : SPC.SPCFramework) (g : rng) (w : ndarray) (err : exn) :
  make_record self g w = Raise err -> err = LinAlgError \/ err = ValueError.
Proof.
  unfold make_record. destruct (eigvals _) as [l|e] eqn:E; simpl.
  - destruct (SPC._calculate_ethical_fidelity self w) as [f|e] eqn:Ef; simpl; [discriminate|].
    intros [= <-]. right. now apply ethical_fidelity_raises in Ef.
  - intros [= <-]. left. now apply eigvals_raises in E.
Qed.

Lemma stored_lookup (self : SPC.SPCFramework) (state_id : string) (qs : SPC.QuantumState) :
  dict_get (SPC.quantum_states (stored self state_id qs)) state_id = Some qs
  /\ (forall k, k <> state_id ->
        dict_get (SPC.quantum_states (stored self state_id qs)) k
        = dict_get (SPC.quantum_states self) k).
Proof.
  unfold stored. simpl. split; [apply dict_get_set_same|].
  intros k Hk. apply dict_get_set_other. congruence.
Qed.

Lemma stored_keys_present (self : SPC.SPCFramework) (state_id : string)
    (qs : SPC.QuantumState) :
  In state_id (keys (SPC.quantum_states self)) ->
  keys (SPC.quantum_states (stored self state_id qs)) = keys (SPC.quantum_states self).
Proof. intros H. unfold stored. simpl. now apply keys_set_present. Qed.

End RegistryMore.

(** X8. [evolve_quantum_state] on an identifier that is not registered
    raises [ValueError] and leaves the framework and the random generator
    as they were. *)
Theorem evolve_unknown_id_raises {NP : Numpy} (self : SPC.SPCFramework) (g : rng)
    (state_id : string) (hamiltonian : ndarray) (time : npfloat) :
  ~ In state_id (keys (SPC.quantum_states self)) ->
  SPC.evolve_quantum_state state_id hamiltonian time (self, g)
  = (Raise ValueError, (self, g)).
Proof.
  intros H. apply dict_get_none_keys in H. now rewrite evolve_unfold, H.
Qed.

Lemma evolve_unknown_id_raises_witness :
  SPC.evolve_quantum_state (NP := exact_numpy) "psi" zero_hamiltonian (Fin 1)
    (demo_framework, 0%nat)
  = (Raise ValueError, (demo_framework, 0%nat)).
Proof.
  apply (evolve_unknown_id_raises (NP := exact_numpy) demo_framework 0%nat "psi"
           zero_hamiltonian (Fin 1)).
  simpl. tauto.
Defined.

(** X9. [evolve_quantum_state] never adds or removes an identifier: the
    registry has the same identifiers, in the same order, after the call
    as before it, whether the call returns or raises; and when it raises,
    the framework is exactly the one the call started with. *)
Theorem evolve_keeps_registered_ids {NP : Numpy} (self : SPC.SPCFramework) (g : rng)
    (state_id : string) (hamiltonian : ndarray) (time : npfloat) :
  let out := SPC.evolve_quantum_state state_id hamiltonian time (self, g) in
  keys (SPC.quantum_states (fst (snd out))) = keys (SPC.quantum_states self)
  /\ (forall err, fst out = Raise err -> fst (snd out) = self).
Proof.
  cbv zeta. rewrite evolve_unfold.
  destruct (dict_get _ state_id) as [old|] eqn:E; [|simpl; auto].
  destruct (propagate _ _ _ _) as [raw|e]; [|simpl; auto].
  destruct (make_record self g _) as [qs|e]; simpl; [|auto].
  split; [|discriminate]. apply keys_set_present, dict_get_in_keys. congruence.
Qed.

(** X10. [create_quantum_state] either returns the record it has stored
    under the identifier, with the wavefunction divided by its norm and
    every other identifier left as it was, or raises numpy's [LinAlgError]
    or [ValueError] and leaves the framework exactly as it was: a failed
    registration stores nothing. *)
Theorem create_stores_or_leaves_untouched {NP : Numpy} (self : SPC.SPCFramework) (g : rng)
    (state_id : string) (wavefunction : ndarray) :
  match SPC.create_quantum_state state_id wavefunction (self, g) with
  | (Ok qs, (self', _)) =>
      dict_get (SPC.quantum_states self') state_id = Some qs
      /\ (forall k, k <> state_id ->
            dict_get (SPC.quantum_states self') k = dict_get (SPC.quantum_states self) k)
      /\ SPC.wavefunction qs = array_div wavefunction (norm wavefunction)
      /\ SPC.consciousness_field self' = SPC.consciousness_field self
  | (Raise err, (self', _)) =>
      self' = self /\ (err = LinAlgError \/ err = ValueError)
  end.
Proof.
  rewrite create_unfold.
  destruct (make_record self g _) as [qs|err] eqn:E.
  - destruct (stored_lookup self state_id qs) as [H1 H2].
    repeat split; auto. now apply make_record_wavefunction in E.
  - split; [reflexivity|]. now apply make_record_raises in E.
Qed.

(** ** Adding and removing records through the system *)

Section AddRemoveFacts.
Context {NP : Numpy}.
Local Open Scope meth_scope.

Lemma add_unfold (state_id : string) (w : ndarray) (sys : System.SystemArchitecture)
    (g : rng) :
  System.add_quantum_state state_id w (sys, g)
  = match SPC.create_quantum_state state_id w (System.spc_framework sys, g) with
    | (Ok _, (spc', g')) => (Ok true, (System.set_spc_framework sys spc', g'))
    | (Raise _, (spc', g')) => (Ok false, (System.set_spc_framework sys spc', g'))
    end.
Proof.
  unfold System.add_quantum_state, try_except, bind, System.spc, zoom, ret.
  simpl fst; simpl snd.
  destruct (SPC.create_quantum_state state_id w _) as [[qs|e] [spc' g']]; reflexivity.
Qed.

Lemma remove_unfold (state_id : string) (sys : System.SystemArchitecture) (g : rng) :
  System.remove_quantum_state state_id (sys, g)
  = if dict_contains (registry sys) state_id
    then (Ok true,
          (System.set_spc_framework sys
             (SPC.set_quantum_states (System.spc_framework sys)
                (dict_del (registry sys) state_id)), g))
    else (Ok false, (sys, g)).
Proof.
  unfold System.remove_quantum_state, bind, System.self_, registry. simpl fst.
  destruct (dict_contains _ state_id); reflexivity.
Qed.

Lemma set_spc_framework_same (sys : System.SystemArchitecture) :
  System.set_spc_framework sys (System.spc_framework sys) = sys.
Proof. now destruct sys. Qed.

Lemma set_quantum_states_same (self : SPC.SPCFramework) :
  SPC.set_quantum_states self (SPC.quantum_states self) = self.
Proof. now destruct self. Qed.

Lemma dict_contains_keys {V} (d : dict V) (k : string) :
  dict_contains d k = true <-> In k (keys d).
Proof.
  rewrite <- dict_get_in_keys. unfold dict_contains.
  destruct (dict_get d k); split; congruence.
Qed.

End AddRemoveFacts.

(** X11. [add_quantum_state] never raises.  It returns [True] after the
    record has been stored under the identifier, with the wavefunction
    divided by its norm, and [False] when the registration failed, in which
    case the framework is exactly as before; the hierarchy and the status
    dictionary are never touched. *)
Theorem add_quantum_state_reports {NP : Numpy} (sys : System.SystemArchitecture) (g : rng)
    (state_id : string) (wavefunction : ndarray) :
  exists (b : bool) sys' g',
    System.add_quantum_state state_id wavefunction (sys, g) = (Ok b, (sys', g'))
    /\ System.fat_tree sys' = System.fat_tree sys
    /\ System.system_state sys' = System.system_state sys
    /\ (if b
        then exists qs,
            dict_get (registry sys') state_id = Some qs
            /\ SPC.wavefunction qs = array_div wavefunction (norm wavefunction)
        else System.spc_framework sys' = System.spc_framework sys).
Proof.
  rewrite add_unfold, create_unfold.
  destruct (make_record (System.spc_framework sys) g _) as [qs|e] eqn:E.
  - do 3 eexists. split; [reflexivity|]. repeat split. exists qs. split.
    + apply stored_lookup.
    + now apply make_record_wavefunction in E.
  - do 3 eexists. split; [reflexivity|]. repeat split.
Qed.

(** X12. Adding an array with at least one entry and norm zero is reported
    as [False], not as an exception; the system is unchanged, only the
    random generator has advanced. *)
Theorem add_zero_vector_returns_false {NP : Numpy} (sys : System.SystemArchitecture)
    (g : rng) (state_id : string) (wavefunction : ndarray) :
  ravel wavefunction <> [] ->
  norm wavefunction = Fin 0 ->
  System.add_quantum_state state_id wavefunction (sys, g)
  = (Ok false, (sys, advance g (length (ravel wavefunction)))).
Proof.
  intros Hne Hz. rewrite add_unfold, (zero_norm_create_raises _ _ _ _ Hne Hz).
  now rewrite set_spc_framework_same.
Qed.

Lemma add_zero_vector_returns_false_witness :
  System.add_quantum_state (NP := exact_numpy) "psi" zero_state (demo_system, 0%nat)
  = (Ok false, (demo_system, 4%nat)).
Proof.
  apply (add_zero_vector_returns_false (NP := exact_numpy) demo_system 0%nat "psi" zero_state).
  - discriminate.
  - exact norm_zero_state.
Defined.

(** X13. Round trip: when an identifier that is not registered is added
    successfully and then removed, [remove_quantum_state] returns [True]
    and the system is the one before the addition (the generator keeps the
    state it had after the addition). *)
Theorem add_then_remove_restores {NP : Numpy} (sys sys' : System.SystemArchitecture)
    (g g' : rng) (state_id : string) (wavefunction : ndarray) :
  ~ In state_id (keys (registry sys)) ->
  System.add_quantum_state state_id wavefunction (sys, g) = (Ok true, (sys', g')) ->
  System.remove_quantum_state state_id (sys', g') = (Ok true, (sys, g')).
Proof.
  intros Hfresh. rewrite add_unfold, create_unfold.
  destruct (make_record (System.spc_framework sys) g _) as [qs|e]; [|discriminate].
  intros [= <- <-]. rewrite remove_unfold. unfold registry in *. simpl.
  unfold dict_contains. rewrite dict_get_set_same, dict_del_set_fresh by assumption.
  do 2 f_equal. destruct sys as [tree spc st]. destruct spc. reflexivity.
Qed.

Lemma add_then_remove_restores_witness :
  exists sys' g',
    System.add_quantum_state (NP := exact_numpy) "psi" basis_state (demo_system, 0%nat)
    = (Ok true, (sys', g'))
    /\ System.remove_quantum_state (NP := exact_numpy) "psi" (sys', g')
       = (Ok true, (demo_system, g')).
Proof.
  destruct (demo_register demo_framework "psi" 0%nat eq_refl) as (qs & E).
  assert (Ha : System.add_quantum_state (NP := exact_numpy) "psi" basis_state
                 (demo_system, 0%nat)
               = (Ok true, (System.set_spc_framework demo_system
                              (stored demo_framework "psi" qs), 4%nat))).
  { pose proof (add_unfold (NP := exact_numpy) "psi" basis_state demo_system 0%nat) as Hu.
    simpl System.spc_framework in Hu. rewrite E in Hu. exact Hu. }
  do 2 eexists. split; [exact Ha|].
  apply (add_then_remove_restores (NP := exact_numpy) demo_system _ 0%nat _ "psi"
           basis_state); [|exact Ha].
  simpl. tauto.
Defined.

(** X14. [remove_quantum_state] returns whether the identifier was
    registered and never raises.  Afterwards the identifier is not
    registered and every other record is as before; when it returns
    [False] the system is unchanged; the generator, the hierarchy and the
    status are never touched. *)
Theorem remove_quantum_state_reports {NP : Numpy} (sys : System.SystemArchitecture)
    (g : rng) (state_id : string) :
  NoDup (keys (registry sys)) ->
  exists sys',
    System.remove_quantum_state state_id (sys, g)
    = (Ok (dict_contains (registry sys) state_id), (sys', g))
    /\ dict_get (registry sys') state_id = None
    /\ (forall k, k <> state_id -> dict_get (registry sys') k = dict_get (registry sys) k)
    /\ (dict_contains (registry sys) state_id = false -> sys' = sys)
    /\ System.fat_tree sys' = System.fat_tree sys
    /\ System.system_state sys' = System.system_state sys.
Proof.
  intros Hnd. rewrite remove_unfold.
  destruct (dict_contains (registry sys) state_id) eqn:E.
  - eexists. split; [reflexivity|]. unfold registry in *. simpl.
    repeat split; try discriminate.
    + now apply dict_get_del_same.
    + intros k Hk. apply dict_get_del_other. congruence.
  - exists sys. split; [reflexivity|]. repeat split.
    unfold dict_contains in E. now destruct (dict_get (registry sys) state_id).
Qed.

Lemma remove_quantum_state_reports_witness :
  exists sys',
    System.remove_quantum_state (NP := exact_numpy) "psi" (one_record_system, 0%nat)
    = (Ok true, (sys', 0%nat))
    /\ dict_get (registry sys') "psi" = None.
Proof.
  destruct (remove_quantum_state_reports (NP := exact_numpy) one_record_system 0%nat "psi")
    as (sys' & E & Hnone & _).
  - simpl. constructor; [simpl; tauto | constructor].
  - exists sys'. split; [exact E | exact Hnone].
Defined.

(** ** A constructed framework *)

Section FrameworkContents.
Context {NP : Numpy}.
Local Open Scope R_scope.

Lemma length_concat_table (r c : nat) (q : matrix) :
  finite_table r c q -> length (concat q) = (r * c)%nat.
Proof.
  intros (rows & -> & <- & Hrows). induction Hrows as [|row rows Hrow _ IH]; simpl.
  - reflexivity.
  - now rewrite length_app, length_map, Hrow, IH.
Qed.

Lemma default_constraints_hold (qs : SPC.QuantumState) :
  SPC.constraints_hold qs
    [ SPC.mkEthicalConstraint "fidelity_threshold" (Fin (95 / 100)) (Fin 1)
        "Minimum quantum state fidelity";
      SPC.mkEthicalConstraint "coherence_threshold" (Fin (90 / 100)) (Fin (8 / 10))
        "Minimum quantum coherence";
      SPC.mkEthicalConstraint "entanglement_bound" (Fin (85 / 100)) (Fin (7 / 10))
        "Maximum entanglement entropy" ]
  = within_default_constraints qs.
Proof.
  unfold within_default_constraints. cbn [SPC.constraints_hold SPC.name SPC.threshold].
  simpl String.eqb. cbv iota.
  destruct (flt (SPC.ethical_fidelity qs) (Fin (95 / 100))); [reflexivity|].
  destruct (flt (SPC.coherence qs) (Fin (90 / 100))); [reflexivity|].
  destruct (fgt (SPC.entanglement_entropy qs) (Fin (85 / 100))); reflexivity.
Qed.

(** The constructor of the framework returns for every dimension that is
    not negative: an empty registry, the three default constraints and a
    reference field of [d * d] entries. *)
Lemma spc_init_contents (d : Z) (g : rng) :
  (0 <= d)%Z ->
  exists self g',
    SPC.__init__ d g = (Ok self, g')
    /\ SPC.dimension self = d
    /\ SPC.quantum_states self = []
    /\ (forall qs, SPC.constraints_hold qs (SPC.ethical_constraints self)
                   = within_default_constraints qs)
    /\ length (SPC.ethical_constraints self) = 3%nat
    /\ exists field,
         SPC.consciousness_field self = Some field
         /\ length (ravel field) = (Z.to_nat d * Z.to_nat d)%nat.
Proof.
  intros Hd.
  unfold SPC.__init__, SPC._initialize_ethical_constraints,
    SPC._initialize_consciousness_field, SPC.modify, SPC.self_, bind.
  simpl. unfold random_rand. simpl.
  destruct (Z.ltb_spec d 0); [lia|]. simpl.
  do 2 eexists. split; [reflexivity|]. simpl.
  split; [reflexivity|]. split; [reflexivity|].
  split; [exact default_constraints_hold|]. split; [reflexivity|].
  eexists. split; [reflexivity|]. simpl. rewrite !length_map.
  apply (length_concat_table (Z.to_nat d) (Z.to_nat d)).
  exists (map (fun i => map (fun j => uniform g (i * Z.to_nat d + j)) (seq 0 (Z.to_nat d)))
              (seq 0 (Z.to_nat d))).
  split.
  - rewrite map_map. apply map_ext. intros i. now rewrite map_map.
  - rewrite length_map, length_seq. split; [reflexivity|].
    apply Forall_map, Forall_forall. intros i _. now rewrite length_map, length_seq.
Qed.

End FrameworkContents.

(** X15. A framework constructed with a non-negative dimension applies
    exactly three checks to a registered record: its [ethical_fidelity] is
    not below 0.95, its [coherence] is not below 0.90 and its
    [entanglement_entropy] is not above 0.85; an identifier that is not
    registered is not compliant.  Since a comparison with [nan] is false, a
    record whose three metrics are [nan] passes every check. *)
Theorem default_constraints_decide_compliance {NP : Numpy} (d : Z) (g : rng) :
  (0 <= d)%Z ->
  exists self g',
    SPC.__init__ d g = (Ok self, g')
    /\ (forall reg state_id,
          SPC.apply_ethical_constraints (SPC.set_quantum_states self reg) state_id
          = match dict_get reg state_id with
            | Some qs => within_default_constraints qs
            | None => false
            end)
    /\ (forall reg state_id w,
          dict_get reg state_id = Some (SPC.mkQuantumState w NaN NaN NaN) ->
          SPC.apply_ethical_constraints (SPC.set_quantum_states self reg) state_id = true).
Proof.
  intros Hd. destruct (spc_init_contents d g Hd) as (self & g' & E & _ & _ & Hc & _).
  exists self, g'. split; [exact E|].
  assert (H : forall reg state_id,
             SPC.apply_ethical_constraints (SPC.set_quantum_states self reg) state_id
             = match dict_get reg state_id with
               | Some qs => within_default_constraints qs
               | None => false
               end).
  { intros reg state_id. unfold SPC.apply_ethical_constraints. simpl.
    destruct (dict_get reg state_id); [apply Hc | reflexivity]. }
  split; [exact H|]. intros reg state_id w Hw. now rewrite H, Hw.
Qed.

Lemma default_constraints_decide_compliance_witness :
  exists self g',
    SPC.__init__ (NP := exact_numpy) 2 0%nat = (Ok self, g')
    /\ SPC.apply_ethical_constraints self "psi" = false.
Proof.
  destruct (default_constraints_decide_compliance (NP := exact_numpy) 2 0%nat)
    as (self & g' & E & H & _); [lia|].
  exists self, g'. split; [exact E|].
  destruct (spc_init_contents (NP := exact_numpy) 2 0%nat) as (self0 & g0 & E0 & _ & Hq & _);
    [lia|].
  assert (self0 = self) by congruence. subst self0.
  rewrite <- (set_quantum_states_same self), Hq. now rewrite H.
Defined.

(** ** Integration scores and the health summary *)

Section IntegrationFacts.
Local Open Scope R_scope.

Lemma cmul_cfin (p q : R * R) : cmul (cfin p) (cfin q) = cfin (Cmul p q).
Proof. reflexivity. Qed.

Lemma conj_cfin (p : R * R) : conj (cfin p) = cfin (Cconj p).
Proof. reflexivity. Qed.

Lemma fold_cadd_cfin (l : list (R * R)) (a b : R) :
  fold_left cadd (map cfin l) (cfin (a, b))
  = cfin (a + Rsum (map fst l), b + Rsum (map snd l)).
Proof.
  revert a b. induction l as [|[x y] l IH]; intros a b; simpl.
  - rewrite Rsum_nil. unfold cfin. simpl. now rewrite !Rplus_0_r.
  - change (cadd (cfin (a, b)) (cfin (x, y))) with (cfin (a + x, b + y)).
    rewrite IH, !Rsum_cons. unfold cfin. simpl. f_equal; f_equal; ring.
Qed.

Lemma csum_cfin (l : list (R * R)) :
  csum (map cfin l) = cfin (Rsum (map fst l), Rsum (map snd l)).
Proof.
  unfold csum. change (of_real (Fin 0)) with (cfin (0, 0)).
  rewrite fold_cadd_cfin. unfold cfin. simpl. now rewrite !Rplus_0_l.
Qed.

Lemma vdot_cfin (a b : list (R * R)) :
  length a = length b ->
  vdot (map cfin a) (map cfin b)
  = Ok (cfin (Rsum (map fst (vdot_terms a b)), Rsum (map snd (vdot_terms a b)))).
Proof.
  intros H. unfold vdot. rewrite !length_map, H, Nat.eqb_refl. f_equal.
  rewrite <- csum_cfin. f_equal. unfold vdot_terms. clear H.
  revert b. induction a as [|p a IH]; intros [|q b]; simpl; try reflexivity.
  now rewrite IH.
Qed.

Lemma vdot_mismatch (a b : list cplx) :
  length a <> length b -> vdot a b = Raise ValueError.
Proof.
  intros H. unfold vdot. now destruct (Nat.eqb_spec (length a) (length b)).
Qed.

Lemma integration_raises (self : SPC.SPCFramework) (k : string) (err : exn) :
  SPC.get_consciousness_integration self k = Raise err -> err = ValueError.
Proof.
  unfold SPC.get_consciousness_integration, vdot.
  destruct (dict_get _ k) as [qs|]; [|discriminate].
  destruct (SPC.consciousness_field self) as [field|]; [|discriminate].
  destruct (Nat.eqb _ _); simpl; congruence.
Qed.

Lemma integration_scores_spec (self : SPC.SPCFramework) (ids : list string) :
  match SPC.integration_scores self ids with
  | Raise err =>
      err = ValueError
      /\ exists k, In k ids /\ SPC.get_consciousness_integration self k = Raise ValueError
  | Ok scores =>
      length scores = length ids /\ Forall unit_or_nan scores
      /\ forall k, In k ids -> exists s, SPC.get_consciousness_integration self k = Ok s
  end.
Proof.
  induction ids as [|k ids IH]; simpl.
  - repeat split; [constructor | tauto].
  - destruct (SPC.get_consciousness_integration self k) as [s|err] eqn:E; simpl.
    + destruct (SPC.integration_scores self ids) as [scores|err]; simpl.
      * destruct IH as (Hlen & Hs & Hall). repeat split.
        -- now rewrite Hlen.
        -- constructor; [|assumption].
           now apply consciousness_integration_unit_or_nan in E.
        -- intros k' [<-|H]; [eauto | now apply Hall].
      * destruct IH as (-> & k' & Hin & Hk'). split; [reflexivity|]. eauto.
    + pose proof (integration_raises _ _ _ E) as ->. split; [reflexivity|]. eauto.
Qed.

End IntegrationFacts.

(** X16. For a registered record and a reference field that are both
    finite arrays of one size, [get_consciousness_integration] returns a
    number of [[0, 1]]: the modulus of [np.vdot(wavefunction, field)],
    clipped. *)
Theorem integration_of_finite_record (self : SPC.SPCFramework) (state_id : string)
    (qs : SPC.QuantumState) (field : ndarray) (ws fs : list (R * R)) :
  dict_get (SPC.quantum_states self) state_id = Some qs ->
  SPC.consciousness_field self = Some field ->
  ravel (SPC.wavefunction qs) = map cfin ws ->
  ravel field = map cfin fs ->
  length ws = length fs ->
  let x := Rsum (map fst (vdot_terms ws fs)) in
  let y := Rsum (map snd (vdot_terms ws fs)) in
  SPC.get_consciousness_integration self state_id
  = Ok (clip (Fin (sqrt (x * x + y * y))) (Fin 0) (Fin 1))
  /\ in_unit (clip (Fin (sqrt (x * x + y * y))) (Fin 0) (Fin 1)).
Proof.
  intros Hq Hf Hw Hfs Hlen x y. unfold SPC.get_consciousness_integration.
  rewrite Hq, Hf, Hw, Hfs, (vdot_cfin ws fs Hlen). simpl rbind.
  fold x y. unfold cfin. simpl fst. simpl snd. rewrite cabs_fin.
  split; [reflexivity | apply clip_fin_in_unit].
Qed.

Lemma integration_of_finite_record_witness :
  exists s,
    SPC.get_consciousness_integration (System.spc_framework one_record_system) "psi" = Ok s
    /\ in_unit s.
Proof.
  eexists.
  apply (integration_of_finite_record (System.spc_framework one_record_system) "psi"
           registered_record field_4x4 ((1, 0) :: repeat (0, 0) 15)%R
           (repeat (1 / 4, 0) 16)%R); reflexivity.
Defined.

(** X17. When a registered record and the reference field differ in size
    (the field was replaced by one of another shape), the integration score
    of that record cannot be computed: [get_consciousness_integration] raises
    numpy's [ValueError], and so does [get_system_health]. *)
Theorem size_mismatch_raises (self : SPC.SPCFramework) (state_id : string)
    (qs : SPC.QuantumState) (field : ndarray) :
  dict_get (SPC.quantum_states self) state_id = Some qs ->
  SPC.consciousness_field self = Some field ->
  length (ravel (SPC.wavefunction qs)) <> length (ravel field) ->
  SPC.get_consciousness_integration self state_id = Raise ValueError
  /\ SPC.get_system_health self = Raise ValueError.
Proof.
  intros Hq Hf Hlen.
  assert (Hi : SPC.get_consciousness_integration self state_id = Raise ValueError).
  { unfold SPC.get_consciousness_integration. rewrite Hq, Hf.
    now rewrite (vdot_mismatch _ _ Hlen). }
  split; [exact Hi|]. unfold SPC.get_system_health.
  destruct (SPC.quantum_states self) as [|item items] eqn:E; [discriminate|].
  pose proof (integration_scores_spec self (keys (item :: items))) as H.
  destruct (SPC.integration_scores self (keys (item :: items))) as [scores|err].
  - destruct H as (_ & _ & Hall). destruct (Hall state_id) as (s & Hs).
    + apply dict_get_in_keys. congruence.
    + congruence.
  - destruct H as [-> _]. reflexivity.
Qed.

Lemma size_mismatch_raises_witness :
  SPC.get_consciousness_integration mismatched_framework "psi" = Raise ValueError
  /\ SPC.get_system_health mismatched_framework = Raise ValueError.
Proof.
  apply (size_mismatch_raises mismatched_framework "psi" registered_record demo_field).
  - reflexivity.
  - reflexivity.
  - simpl. discriminate.
Defined.

(** X18. [get_system_health] returns the three entries [coherence],
    [ethical_fidelity] and [consciousness_integration], in this order, or
    raises [ValueError].  With an empty registry all three are [0.0];
    otherwise they are the means over the registry, and the mean
    integration score is [nan] or lies in [[0, 1]]. *)
Theorem system_health_entries (self : SPC.SPCFramework) :
  match SPC.get_system_health self with
  | Raise err => err = ValueError
  | Ok health =>
      exists c f i,
        health = [("coherence"%string, c); ("ethical_fidelity"%string, f);
                  ("consciousness_integration"%string, i)]
        /\ unit_or_nan i
        /\ (SPC.quantum_states self = [] -> c = Fin 0 /\ f = Fin 0 /\ i = Fin 0)
        /\ (SPC.quantum_states self <> [] ->
            c = SPC.mean (map SPC.coherence (values (SPC.quantum_states self)))
            /\ f = SPC.mean (map SPC.ethical_fidelity (values (SPC.quantum_states self))))
  end.
Proof.
  unfold SPC.get_system_health.
  destruct (SPC.quantum_states self) as [|item items] eqn:E.
  - do 3 eexists. split; [reflexivity|]. split; [right; apply in_unit_0|].
    split; [auto | congruence].
  - pose proof (integration_scores_spec self (keys (item :: items))) as H.
    destruct (SPC.integration_scores self (keys (item :: items))) as [scores|err];
      simpl; [|tauto].
    destruct H as (Hlen & Hs & _). do 3 eexists. split; [reflexivity|].
    split; [|split; [discriminate | auto]].
    destruct scores as [|s scores]; [discriminate|].
    exact (average_unit_or_nan (s :: scores) Hs).
Qed.

(** ** A constructed system and its initialization *)

Section SystemContents.
Context {NP : Numpy}.
Local Open Scope meth_scope.

Lemma system_init_contents (c a e d : Z) (g : rng) :
  (0 <= d)%Z ->
  exists qc qa qe spc g',
    System.__init__ c a e d g
    = (Ok (System.mkSystem (built_tree c a e qc qa qe) spc fresh_state), g')
    /\ layer_states c qc /\ layer_states a qa /\ layer_states e qe
    /\ SPC.dimension spc = d
    /\ SPC.quantum_states spc = []
    /\ (forall qs, SPC.constraints_hold qs (SPC.ethical_constraints spc)
                   = within_default_constraints qs)
    /\ length (SPC.ethical_constraints spc) = 3%nat
    /\ exists field,
         SPC.consciousness_field spc = Some field
         /\ length (ravel field) = (Z.to_nat d * Z.to_nat d)%nat.
Proof.
  intros Hd.
  destruct (init_contents c a e g) as (qc & qa & qe & g1 & E1 & Hc & Ha & He).
  destruct (spc_init_contents d g1 Hd) as (spc & g2 & E2 & H).
  exists qc, qa, qe, spc, g2. split; [|auto].
  unfold System.__init__, bind. rewrite E1, E2. reflexivity.
Qed.

Lemma built_items_states (c a e : Z) (qc qa qe : list matrix) (item : string * FatTree.Node) :
  layer_states c qc -> layer_states a qa -> layer_states e qe ->
  In item (FatTree.nodes (built_tree c a e qc qa qe)) ->
  exists q, FatTree.quantum_state (snd item) = Some q /\ finite_table 4 4 q.
Proof.
  intros [_ Fc] [_ Fa] [_ Fe] H. destruct item as [k node].
  cbn [built_tree FatTree.nodes] in H.
  repeat (apply in_app_or in H as [H|H]);
    (eapply layer_items_states in H; [exact H | eassumption]).
Qed.

Lemma length_asarray (q : matrix) :
  finite_table 4 4 q -> length (ravel (asarray q)) = 16%nat.
Proof.
  intros H. unfold asarray. simpl. rewrite length_map.
  exact (length_concat_table 4 4 q H).
Qed.

(** Registering a 4x4 state fails when the reference field does not have
    16 entries, and leaves the system as it was. *)
Lemma register_node_mismatch (item : string * FatTree.Node) (sys : System.SystemArchitecture)
    (g : rng) (q : matrix) (field : ndarray) :
  FatTree.quantum_state (snd item) = Some q ->
  finite_table 4 4 q ->
  SPC.consciousness_field (System.spc_framework sys) = Some field ->
  length (ravel field) <> 16%nat ->
  exists err g', System.register_node item (sys, g) = (Raise err, (sys, g')).
Proof.
  intros Hq Hfin Hf Hlen. unfold System.register_node. cbv zeta. rewrite Hq.
  unfold bind, System.spc, zoom. simpl fst; simpl snd. rewrite create_unfold.
  assert (Hm : exists err, make_record (System.spc_framework sys) g
                 (array_div (asarray q) (norm (asarray q))) = Raise err).
  { unfold make_record. destruct (eigvals _) as [l|err]; simpl; [|eauto].
    unfold SPC._calculate_ethical_fidelity. rewrite Hf.
    rewrite vdot_mismatch; [simpl; eauto|].
    unfold array_div. cbn [ravel]. rewrite length_map, (length_asarray q Hfin).
    congruence. }
  destruct Hm as (err & ->). rewrite set_spc_framework_same. eauto.
Qed.

Lemma initialize_first_node_fails (sys : System.SystemArchitecture) (g : rng)
    (item : string * FatTree.Node) (items : list (string * FatTree.Node)) :
  FatTree.nodes (System.fat_tree sys) = item :: items ->
  (exists err g', System.register_node item (sys, g) = (Raise err, (sys, g'))) ->
  exists g', System.initialize_system (sys, g) = (Ok false, (sys, g')).
Proof.
  intros Hn (err & g' & E).
  unfold System.initialize_system, try_except, System.initialize_body.
  unfold bind at 1. unfold System.self_ at 1. simpl fst. unfold bind at 1.
  rewrite Hn. simpl for_each. unfold bind at 1. rewrite E. unfold ret. eauto.
Qed.

End SystemContents.

(** X19. The node states are 4x4 matrices, so a system constructed with a
    quantum dimension other than 4 (and at least one node) cannot be
    initialized: registering the first node fails, because its 16 entries
    do not match the [d * d] entries of the reference field, or earlier in
    the eigenvalue routine; [initialize_system] returns [False] and leaves
    the system as constructed. *)
Theorem initialize_fails_unless_dimension_4 {NP : Numpy} (c a e d : Z) (g : rng) :
  (0 <= d)%Z -> d <> 4%Z -> (0 < c \/ 0 < a \/ 0 < e)%Z ->
  exists sys g1 g2,
    System.__init__ c a e d g = (Ok sys, g1)
    /\ System.initialize_system (sys, g1) = (Ok false, (sys, g2)).
Proof.
  intros Hd Hd4 Hpos.
  destruct (system_init_contents c a e d g Hd)
    as (qc & qa & qe & spc & g1 & E & Hc & Ha & He & _ & _ & _ & _ & field & Hf & Hlen).
  set (sys := System.mkSystem (built_tree c a e qc qa qe) spc fresh_state) in *.
  destruct (FatTree.nodes (built_tree c a e qc qa qe)) as [|item items] eqn:En.
  - exfalso. apply (f_equal (@keys FatTree.Node)) in En.
    rewrite (keys_built_tree c a e qc qa qe Hc Ha He) in En.
    apply (f_equal (@length string)) in En.
    unfold core_ids, agg_ids, edge_ids in En.
    rewrite !length_app, !length_map, !range_length in En. simpl in En. lia.
  - destruct (built_items_states c a e qc qa qe item Hc Ha He) as (q & Hq & Hfin).
    { rewrite En. now left. }
    destruct (initialize_first_node_fails sys g1 item items En) as (g2 & E2).
    + apply (register_node_mismatch item sys g1 q field Hq Hfin Hf).
      rewrite Hlen. intros H16. apply Hd4.
      assert (Z.to_nat d = 4%nat) by nia. lia.
    + exists sys, g1, g2. auto.
Qed.

Lemma initialize_fails_unless_dimension_4_witness :
  exists sys g1 g2,
    System.__init__ (NP := exact_numpy) 4 8 16 2 0%nat = (Ok sys, g1)
    /\ System.initialize_system (NP := exact_numpy) (sys, g1) = (Ok false, (sys, g2)).
Proof.
  apply (initialize_fails_unless_dimension_4 (NP := exact_numpy) 4 8 16 2 0%nat); lia.
Defined.

Section InitializeMore.
Context {NP : Numpy}.
Local Open Scope meth_scope.

Lemma initialize_unfold (sys : System.SystemArchitecture) (g : rng) :
  System.initialize_system (sys, g)
  = match for_each (FatTree.nodes (System.fat_tree sys)) System.register_node (sys, g) with
    | (Raise _, w1) => (Ok false, w1)
    | (Ok _, (sys1, g1)) =>
        match FatTree.synchronize_layers (System.fat_tree sys) with
        | Raise _ => (Ok false, (sys1, g1))
        | Ok v =>
            let st1 := System.system_state sys1 in
            let st2 :=
              System.mkSystemState (System.initialized st1) v
                (System.resource_optimization_score st1)
                (System.ethical_compliance st1) (System.consciousness_integration st1) in
            match FatTree.optimize_resource_allocation (System.fat_tree sys) with
            | Raise _ => (Ok false, (System.set_system_state sys1 st2, g1))
            | Ok u =>
                (Ok true,
                 (System.set_system_state (System.set_system_state sys1 st2)
                    (System.mkSystemState (System.initialized st2)
                       (System.synchronization_fidelity st2) (System.average (values u))
                       (System.ethical_compliance st2)
                       (System.consciousness_integration st2)), g1))
            end
        end
    end.
Proof.
  unfold System.initialize_system, try_except, System.initialize_body, bind,
    System.self_, lift, System.modify_state, ret.
  simpl fst; simpl snd.
  destruct (for_each _ _ (sys, g)) as [[[]|err] [sys1 g1]]; [|reflexivity].
  destruct (FatTree.synchronize_layers _); [|reflexivity].
  simpl fst; simpl snd.
  destruct (FatTree.optimize_resource_allocation _); reflexivity.
Qed.

Lemma register_node_unfold (k : string) (node : FatTree.Node)
    (sys : System.SystemArchitecture) (g : rng) :
  System.register_node (k, node) (sys, g)
  = match FatTree.quantum_state node with
    | Some q =>
        match SPC.create_quantum_state k (asarray q) (System.spc_framework sys, g) with
        | (Ok _, (spc', g')) => (Ok tt, (System.set_spc_framework sys spc', g'))
        | (Raise err, (spc', g')) => (Raise err, (System.set_spc_framework sys spc', g'))
        end
    | None => (Ok tt, (sys, g))
    end.
Proof.
  unfold System.register_node. cbv zeta. cbn [fst snd].
  destruct (FatTree.quantum_state node) as [q|]; [|reflexivity].
  unfold bind, System.spc, zoom, ret. cbn [fst snd].
  destruct (SPC.create_quantum_state k (asarray q) _) as [[qs|err] [spc' g']]; reflexivity.
Qed.

(** The registration loop of [initialize_system], when it completes: one
    record per node, under the node's identifier, holding the node's state
    divided by its norm. *)
Lemma register_loop_keys (items : list (string * FatTree.Node)) :
  forall sys g sys' g',
    for_each items System.register_node (sys, g) = (Ok tt, (sys', g')) ->
    Forall (fun item => FatTree.quantum_state (snd item) <> None) items ->
    NoDup (keys (registry sys) ++ keys items) ->
    keys (registry sys') = (keys (registry sys) ++ keys items)%list
    /\ System.fat_tree sys' = System.fat_tree sys
    /\ System.system_state sys' = System.system_state sys
    /\ (forall k, ~ In k (keys items) ->
          dict_get (registry sys') k = dict_get (registry sys) k)
    /\ Forall (fun item =>
                 exists q qs self0 g0,
                   FatTree.quantum_state (snd item) = Some q
                   /\ dict_get (registry sys') (fst item) = Some qs
                   /\ make_record self0 g0 (array_div (asarray q) (norm (asarray q))) = Ok qs)
              items.
Proof.
  induction items as [|[k node] items IH]; intros sys g sys' g' E Hq Hnd.
  - simpl in E. injection E as <- <-. rewrite app_nil_r. repeat split; auto.
  - simpl for_each in E. unfold bind at 1 in E. rewrite register_node_unfold in E.
    inversion Hq as [|? ? Hk Hq']; subst. simpl in Hk.
    destruct (FatTree.quantum_state node) as [q|] eqn:Eq; [|congruence].
    rewrite create_unfold in E.
    destruct (make_record (System.spc_framework sys) g _) as [qs|err] eqn:Em;
      [|discriminate].
    set (sys1 := System.set_spc_framework sys (stored (System.spc_framework sys) k qs)) in *.
    assert (Hfresh : ~ In k (keys (registry sys))).
    { intros Hin. simpl in Hnd. apply NoDup_remove_2 in Hnd. apply Hnd.
      apply in_or_app. now left. }
    assert (Hk1 : keys (registry sys1) = (keys (registry sys) ++ [k])%list).
    { subst sys1. unfold registry. simpl. now apply keys_set_fresh. }
    apply IH in E; [|assumption | rewrite Hk1, <- app_assoc; exact Hnd].
    destruct E as (K & T & S & O & A).
    assert (Hout : ~ In k (keys items)).
    { simpl in Hnd. apply NoDup_remove_2 in Hnd. intros Hin. apply Hnd.
      apply in_or_app. now right. }
    split; [rewrite K, Hk1, <- app_assoc; reflexivity|].
    split; [rewrite T; reflexivity|]. split; [rewrite S; reflexivity|]. split.
    + intros k' Hk'. simpl in Hk'. rewrite O by tauto. subst sys1. unfold registry. simpl.
      apply dict_get_set_other. tauto.
    + constructor; [|exact A]. exists q, qs, (System.spc_framework sys), g. simpl.
      split; [exact Eq|]. split; [|exact Em].
      rewrite O by assumption. subst sys1. unfold registry. simpl.
      apply dict_get_set_same.
Qed.

End InitializeMore.

(** X20. When [initialize_system] returns [True] on a system as it was
    constructed, the registry holds exactly one record per node of the
    hierarchy, under the node's identifier and in the order of the nodes;
    each record holds the node's state divided by its norm, a wavefunction
    of norm 1.  The hierarchy is unchanged. *)
Theorem initialize_registers_every_node {NP : Numpy} (c a e d : Z) (g g1 g2 : rng)
    (sys sys' : System.SystemArchitecture) :
  System.__init__ c a e d g = (Ok sys, g1) ->
  System.initialize_system (sys, g1) = (Ok true, (sys', g2)) ->
  keys (registry sys') = keys (FatTree.nodes (System.fat_tree sys))
  /\ System.fat_tree sys' = System.fat_tree sys
  /\ forall k node,
       dict_get (FatTree.nodes (System.fat_tree sys)) k = Some node ->
       exists q qs,
         FatTree.quantum_state node = Some q
         /\ dict_get (registry sys') k = Some qs
         /\ SPC.wavefunction qs = array_div (asarray q) (norm (asarray q))
         /\ norm (SPC.wavefunction qs) = Fin 1.
Proof.
  intros Hinit Hrun.
  assert (Hd : (0 <= d)%Z).
  { destruct (Z.ltb_spec d 0) as [Hneg|]; [exfalso | assumption].
    destruct (init_contents c a e g) as (qc & qa & qe & g0 & E0 & _).
    pose proof (spc_init_cases d g0) as Hs.
    replace (d <? 0)%Z with true in Hs by (symmetry; now apply Z.ltb_lt).
    unfold System.__init__, bind in Hinit. rewrite E0, Hs in Hinit. discriminate. }
  destruct (system_init_contents c a e d g Hd)
    as (qc & qa & qe & spc & g0 & E & Hc & Ha & He & _ & Hreg & _).
  rewrite E in Hinit. injection Hinit as <- <-.
  set (tree := built_tree c a e qc qa qe) in *.
  set (sys := System.mkSystem tree spc fresh_state) in *.
  rewrite initialize_unfold in Hrun.
  destruct (for_each _ _ (sys, g0)) as [[[]|err] [sys1 g3]] eqn:Eloop; [|discriminate].
  destruct (FatTree.synchronize_layers _); [|discriminate].
  destruct (FatTree.optimize_resource_allocation _); [|discriminate].
  cbv zeta in Hrun. injection Hrun as <- _.
  change (System.fat_tree sys) with tree in *.
  apply register_loop_keys in Eloop.
  - destruct Eloop as (K & T & _ & _ & A). unfold registry in *. simpl in K, T. simpl.
    rewrite Hreg in K. split; [exact K|]. split; [exact T|].
    intros k node Hk. apply dict_get_In in Hk. rewrite Forall_forall in A.
    destruct (A _ Hk) as (q & qs & self0 & g4 & Hq & Hget & Hm).
    exists q, qs. simpl in Hq, Hget. repeat split; auto.
    + now apply make_record_wavefunction in Hm.
    + apply (make_record_unit_norm self0 g4 _ qs Hm).
      rewrite (make_record_wavefunction _ _ _ _ Hm). unfold array_div. cbn [ravel].
      destruct (built_items_states c a e qc qa qe (k, node) Hc Ha He Hk) as (q' & Hq' & Hfin).
      simpl in Hq'. assert (q' = q) by congruence. subst q'.
      intros Hnil. apply (f_equal (@length cplx)) in Hnil.
      rewrite length_map, (length_asarray q Hfin) in Hnil. discriminate.
  - apply Forall_forall. intros item Hitem.
    destruct (built_items_states c a e qc qa qe item Hc Ha He Hitem) as (q & -> & _).
    discriminate.
  - unfold registry. cbn [System.spc_framework sys]. rewrite Hreg. cbn [keys map app].
    unfold tree. rewrite (keys_built_tree c a e qc qa qe Hc Ha He). apply all_ids_NoDup.
Qed.

Section InitializeDemoMore.
Local Open Scope R_scope.
Local Open Scope string_scope.

(** On the concrete numpy every finite array of non-zero norm can be
    registered in a framework whose reference field has as many entries. *)
Lemma exact_create_succeeds (self : SPC.SPCFramework) (state_id : string)
    (g : @rng exact_numpy) (sh : list nat) (ps : list (R * R)) (field : ndarray) :
  SPC.consciousness_field self = Some field ->
  length (ravel field) = length ps ->
  0 < Rsum (map sq2 ps) ->
  exists qs,
    SPC.create_quantum_state (NP := exact_numpy) state_id (Array sh (map cfin ps)) (self, g)
    = (Ok qs, (stored self state_id qs, advance g (length ps))).
Proof.
  intros Hf Hlen Hpos.
  assert (Hr : sqrt (Rsum (map sq2 ps)) <> 0).
  { apply Rgt_not_eq. now apply sqrt_lt_R0. }
  rewrite create_unfold, norm_cfin, array_div_cfin by exact Hr.
  cbn [ravel]. rewrite length_map.
  set (ws := map (scaled (sqrt (Rsum (map sq2 ps)))) ps).
  assert (Hone : Rsum (map sq2 ws) = 1).
  { subst ws. rewrite Rsum_sq2_scaled by exact Hr.
    rewrite sqrt_sqrt by lra. field. lra. }
  destruct (make_record_returns (NP := exact_numpy) self g sh ws) as (qs & Hqs).
  - rewrite exact_noise_neutral, Hone, sqrt_1. lra.
  - apply exact_geev_returns.
  - apply ethical_fidelity_returns. rewrite Hf. cbn [ravel].
    subst ws. now rewrite !length_map.
  - rewrite Hqs. now exists qs.
Qed.

Lemma exact_one_node_tree :
  FatTree.__init__ (NP := exact_numpy) 1 0 0 0%nat = (Ok one_node_tree, 16%nat).
Proof. reflexivity. Qed.

Lemma half_state_positive : 0 < Rsum (map sq2 (repeat (1 / 2, 0) 16)).
Proof. unfold Rsum, sq2. simpl. lra. Qed.

Lemma exact_one_node_initializes :
  exists spc g1 sys' g2,
    System.__init__ (NP := exact_numpy) 1 0 0 4 0%nat
    = (Ok (System.mkSystem one_node_tree spc fresh_state), g1)
    /\ System.initialize_system (NP := exact_numpy)
         (System.mkSystem one_node_tree spc fresh_state, g1)
       = (Ok true, (sys', g2)).
Proof.
  destruct (spc_init_contents (NP := exact_numpy) 4 16%nat)
    as (spc & g1 & Es & _ & _ & _ & _ & field & Hf & Hlen); [lia|].
  exists spc, g1.
  assert (Ei : System.__init__ (NP := exact_numpy) 1 0 0 4 0%nat
               = (Ok (System.mkSystem one_node_tree spc fresh_state), g1)).
  { unfold System.__init__, bind. rewrite exact_one_node_tree, Es. reflexivity. }
  set (sys := System.mkSystem one_node_tree spc fresh_state).
  destruct (exact_create_succeeds spc "core_0" g1 [4%nat; 4%nat] (repeat (1 / 2, 0) 16)
              field Hf Hlen half_state_positive) as (qs & Ec).
  pose proof (initialize_unfold (NP := exact_numpy) sys g1) as Hu.
  assert (El : for_each (FatTree.nodes (System.fat_tree sys))
                 (System.register_node (NP := exact_numpy)) (sys, g1)
               = (Ok tt, (System.set_spc_framework sys (stored spc "core_0" qs),
                          advance (Numpy := exact_numpy) g1 16))).
  { change (FatTree.nodes (System.fat_tree sys))
      with [("core_0", layer_node "core_" "core" 0 (95 / 100) 0 half_4x4)].
    simpl for_each. unfold bind.
    rewrite (register_node_unfold (NP := exact_numpy)). cbn [layer_node FatTree.quantum_state].
    change (asarray half_4x4) with (Array [4%nat; 4%nat] (map cfin (repeat (1 / 2, 0) 16))).
    cbn [System.spc_framework sys]. rewrite Ec. reflexivity. }
  rewrite El in Hu.
  assert (Esync : FatTree.synchronize_layers (System.fat_tree sys) = Ok (Fin 0))
    by reflexivity.
  rewrite Esync in Hu.
  assert (Eopt : exists u, FatTree.optimize_resource_allocation (NP := exact_numpy)
                             (System.fat_tree sys) = Ok u)
    by (eexists; reflexivity).
  destruct Eopt as (u & Eopt). rewrite Eopt in Hu. cbv zeta in Hu.
  do 2 eexists. split; [exact Ei | exact Hu].
Qed.

End InitializeDemoMore.

Lemma initialize_registers_every_node_witness :
  exists spc g1 sys' g2,
    System.__init__ (NP := exact_numpy) 1 0 0 4 0%nat
    = (Ok (System.mkSystem one_node_tree spc fresh_state), g1)
    /\ System.initialize_system (NP := exact_numpy)
         (System.mkSystem one_node_tree spc fresh_state, g1)
       = (Ok true, (sys', g2))
    /\ keys (registry sys') = keys (FatTree.nodes one_node_tree).
Proof.
  destruct exact_one_node_initializes as (spc & g1 & sys' & g2 & Ei & Er).
  exists spc, g1, sys', g2. split; [exact Ei|]. split; [exact Er|].
  exact (proj1 (initialize_registers_every_node (NP := exact_numpy) 1 0 0 4 0%nat g1 g2
                  (System.mkSystem one_node_tree spc fresh_state) sys' Ei Er)).
Defined.

(** ** Status and validation of a constructed system *)

Section StatusFacts.
Local Open Scope Z_scope.

Lemma range_nonpositive (n : Z) : n <= 0 -> range n = [].
Proof. intros H. unfold range. now replace (Z.to_nat n) with 0%nat by lia. Qed.

Lemma len_range (n : Z) : len (range n) = Z.max 0 n.
Proof. unfold len. rewrite range_length. lia. Qed.

Lemma length_layer_items (prefix layer : string) (level : Z) (thr : R)
    (indices : list Z) (qs : list matrix) :
  length qs = length indices ->
  length (layer_items prefix layer level thr indices qs) = length indices.
Proof.
  intros H. unfold layer_items. rewrite length_map, length_combine, H. apply Nat.min_id.
Qed.

Lemma len_pairs (xs ys : list string) : len (pairs xs ys) = len xs * len ys.
Proof. unfold len, pairs. rewrite pairs_length. lia. Qed.

Lemma built_tree_counts (c a e : Z) (qc qa qe : list matrix) :
  layer_states c qc -> layer_states a qa -> layer_states e qe ->
  let tree := built_tree c a e qc qa qe in
  len (FatTree.get_node_by_layer tree "core") = Z.max 0 c
  /\ len (FatTree.get_node_by_layer tree "aggregation") = Z.max 0 a
  /\ len (FatTree.get_node_by_layer tree "edge") = Z.max 0 e
  /\ len (FatTree.nodes tree) = Z.max 0 c + Z.max 0 a + Z.max 0 e
  /\ len (FatTree.edges tree) = Z.max 0 c * Z.max 0 a + Z.max 0 a * Z.max 0 e.
Proof.
  intros [Lc _] [La _] [Le _] tree. subst tree.
  rewrite !layer_of_built_tree. simpl String.eqb. cbv iota.
  rewrite !app_nil_r, !app_nil_l. cbn [built_tree FatTree.nodes FatTree.edges].
  unfold len at 1 2 3 4 5. unfold values.
  rewrite !length_app, !length_map, !length_layer_items by assumption.
  rewrite !Nat2Z.inj_add. fold (len (range c)) (len (range a)) (len (range e)).
  fold (len (pairs (core_ids c) (agg_ids a))) (len (pairs (agg_ids a) (edge_ids e))).
  rewrite !len_pairs.
  assert (Hm : forall (f : Z -> string) n, len (map f (range n)) = Z.max 0 n).
  { intros f n. unfold len. rewrite length_map. apply len_range. }
  unfold core_ids, agg_ids, edge_ids. rewrite !Hm, !len_range.
  repeat split; try reflexivity. ring.
Qed.

End StatusFacts.

(** X21. A system constructed with no node at all (every count is zero or
    negative) initializes successfully and is left exactly as constructed:
    nothing is registered, and the synchronization fidelity and the
    resource score stay [0.0]. *)
Theorem initialize_empty_hierarchy {NP : Numpy} (c a e d : Z) (g : rng) :
  (c <= 0)%Z -> (a <= 0)%Z -> (e <= 0)%Z -> (0 <= d)%Z ->
  exists sys g1,
    System.__init__ c a e d g = (Ok sys, g1)
    /\ System.initialize_system (sys, g1) = (Ok true, (sys, g1))
    /\ FatTree.nodes (System.fat_tree sys) = []
    /\ registry sys = []
    /\ System.system_state sys = fresh_state.
Proof.
  intros Hc Ha He Hd.
  destruct (system_init_contents c a e d g Hd)
    as (qc & qa & qe & spc & g1 & E & _ & _ & _ & _ & Hreg & _).
  exists (System.mkSystem (built_tree c a e qc qa qe) spc fresh_state), g1.
  split; [exact E|].
  assert (Hn : FatTree.nodes (built_tree c a e qc qa qe) = []).
  { cbn [built_tree FatTree.nodes]. unfold layer_items.
    now rewrite !range_nonpositive by assumption. }
  assert (Hed : FatTree.edges (built_tree c a e qc qa qe) = []).
  { cbn [built_tree FatTree.edges]. unfold core_ids, agg_ids, edge_ids.
    now rewrite !range_nonpositive by assumption. }
  split; [|auto].
  rewrite initialize_unfold. cbn [System.fat_tree]. rewrite Hn. simpl for_each.
  unfold ret. unfold FatTree.synchronize_layers, FatTree.optimize_resource_allocation.
  rewrite Hed, Hn. reflexivity.
Qed.

Lemma initialize_empty_hierarchy_witness :
  exists sys g1,
    System.__init__ (NP := exact_numpy) 0 0 0 4 0%nat = (Ok sys, g1)
    /\ System.initialize_system (NP := exact_numpy) (sys, g1) = (Ok true, (sys, g1)).
Proof.
  destruct (initialize_empty_hierarchy (NP := exact_numpy) 0 0 0 4 0%nat)
    as (sys & g1 & E & Er & _); try lia.
  exists sys, g1. split; [exact E | exact Er].
Defined.

(** X22. The status of a system as it was constructed (with a dimension
    that is not negative): each layer has [max(0, count)] nodes, the total
    number of nodes is the sum of the three layers, the number of edges is
    [core * agg + agg * edge], no quantum state is registered, there are
    three ethical constraints, the health summary is all [0.0] and the
    status dictionary holds its initial values. *)
Theorem status_of_constructed_system {NP : Numpy} (c a e d : Z) (g : rng) :
  (0 <= d)%Z ->
  exists sys g1 status,
    System.__init__ c a e d g = (Ok sys, g1)
    /\ System.get_system_status sys = Ok status
    /\ System.layer_core status = Z.max 0 c
    /\ System.layer_aggregation status = Z.max 0 a
    /\ System.layer_edge status = Z.max 0 e
    /\ System.total_nodes status
       = (System.layer_core status + System.layer_aggregation status
          + System.layer_edge status)%Z
    /\ System.total_edges status
       = (System.layer_core status * System.layer_aggregation status
          + System.layer_aggregation status * System.layer_edge status)%Z
    /\ System.status_quantum_states status = 0%Z
    /\ System.status_ethical_constraints status = 3%Z
    /\ System.spc_metrics status
       = [("coherence"%string, Fin 0); ("ethical_fidelity"%string, Fin 0);
          ("consciousness_integration"%string, Fin 0)]
    /\ System.status_system_state status = fresh_state.
Proof.
  intros Hd.
  destruct (system_init_contents c a e d g Hd)
    as (qc & qa & qe & spc & g1 & E & Hc & Ha & He & _ & Hreg & _ & Hlen & _).
  destruct (built_tree_counts c a e qc qa qe Hc Ha He) as (L1 & L2 & L3 & Ln & Le).
  do 3 eexists. split; [exact E|].
  unfold System.get_system_status, SPC.get_system_health. cbn [System.spc_framework].
  rewrite Hreg. cbn [rbind]. split; [reflexivity|].
  cbn [System.layer_core System.layer_aggregation System.layer_edge System.total_nodes
       System.total_edges System.status_quantum_states System.status_ethical_constraints
       System.spc_metrics System.status_system_state System.fat_tree System.system_state].
  rewrite L1, L2, L3, Ln, Le. unfold len. rewrite Hlen. repeat split; reflexivity.
Qed.

Lemma status_of_constructed_system_witness :
  exists sys g1 status,
    System.__init__ (NP := exact_numpy) 4 8 16 4 0%nat = (Ok sys, g1)
    /\ System.get_system_status sys = Ok status
    /\ System.total_nodes status = 28%Z
    /\ System.total_edges status = 160%Z.
Proof.
  destruct (status_of_constructed_system (NP := exact_numpy) 4 8 16 4 0%nat)
    as (sys & g1 & status & E & Es & L1 & L2 & L3 & Ln & Le & _); [lia|].
  exists sys, g1, status. rewrite Ln, Le, L1, L2, L3. repeat split; assumption.
Defined.

(** X23. [validate_system_integrity] on a system as it was constructed
    never raises, and reports: [fat_tree_valid] exactly when there is a
    node; [spc_framework_valid] false, since nothing is registered before
    [initialize_system]; the constraints and the reference field present;
    [synchronization_valid] exactly when the layer synchronization exceeds
    0.5; and [ethical_compliance_valid] true, vacuously. *)
Theorem validation_of_constructed_system {NP : Numpy} (c a e d : Z) (g : rng) :
  (0 <= d)%Z ->
  exists sys g1 sync,
    System.__init__ c a e d g = (Ok sys, g1)
    /\ FatTree.synchronize_layers (System.fat_tree sys) = Ok sync
    /\ System.validate_system_integrity sys
       = Ok [("fat_tree_valid"%string, (Z.max 0 c + Z.max 0 a + Z.max 0 e >? 0)%Z);
             ("spc_framework_valid"%string, false);
             ("ethical_constraints_valid"%string, true);
             ("consciousness_field_valid"%string, true);
             ("synchronization_valid"%string, fgt sync (Fin (1 / 2)));
             ("ethical_compliance_valid"%string, true)].
Proof.
  intros Hd.
  destruct (system_init_contents c a e d g Hd)
    as (qc & qa & qe & spc & g1 & E & Hc & Ha & He & _ & Hreg & _ & Hlen & field & Hf & _).
  destruct (built_tree_counts c a e qc qa qe Hc Ha He) as (_ & _ & _ & Ln & _).
  destruct (synchronize_built_tree c a e qc qa qe Hc Ha He) as (fs & Es & _).
  do 3 eexists. split; [exact E|]. cbn [System.fat_tree]. split; [exact Es|].
  unfold System.validate_system_integrity. cbn [System.fat_tree System.spc_framework].
  rewrite Es, Ln, Hreg, Hf. unfold len. rewrite Hlen. reflexivity.
Qed.

Lemma validation_of_constructed_system_witness :
  exists sys g1 report,
    System.__init__ (NP := exact_numpy) 4 8 16 4 0%nat = (Ok sys, g1)
    /\ System.validate_system_integrity sys = Ok report
    /\ dict_get report "spc_framework_valid" = Some false
    /\ dict_get report "ethical_compliance_valid" = Some true.
Proof.
  destruct (validation_of_constructed_system (NP := exact_numpy) 4 8 16 4 0%nat)
    as (sys & g1 & sync & E & _ & Ev); [lia|].
  exists sys, g1. eexists. split; [exact E|]. split; [exact Ev|].
  split; reflexivity.
Defined.

(** ** Evolving the whole system *)

Section EvolveSystemFacts.
Context {NP : Numpy}.
Local Open Scope meth_scope.

Lemma evolve_step_unfold (state_id : string) (hamiltonian : ndarray) (time : npfloat)
    (sys : System.SystemArchitecture) (g : rng) :
  try_except
    (evolved_state <- System.spc (SPC.evolve_quantum_state state_id hamiltonian time) ;;
     ret (System.StateMetrics (SPC.coherence evolved_state)
            (SPC.ethical_fidelity evolved_state) (SPC.entanglement_entropy evolved_state)))
    (fun err => ret (System.ErrorMetrics err)) (sys, g)
  = match SPC.evolve_quantum_state state_id hamiltonian time (System.spc_framework sys, g) with
    | (Ok qs, (spc', g')) =>
        (Ok (System.StateMetrics (SPC.coherence qs) (SPC.ethical_fidelity qs)
               (SPC.entanglement_entropy qs)),
         (System.set_spc_framework sys spc', g'))
    | (Raise err, (spc', g')) =>
        (Ok (System.ErrorMetrics err), (System.set_spc_framework sys spc', g'))
    end.
Proof.
  unfold try_except, bind, System.spc, zoom, ret. cbn [fst snd].
  destruct (SPC.evolve_quantum_state state_id hamiltonian time _) as [[qs|err] [spc' g']];
    reflexivity.
Qed.

Lemma evolve_keeps_keys (state_id : string) (hamiltonian : ndarray) (time : npfloat)
    (self : SPC.SPCFramework) (g : rng) :
  keys (SPC.quantum_states
          (fst (snd (SPC.evolve_quantum_state state_id hamiltonian time (self, g)))))
  = keys (SPC.quantum_states self).
Proof.
  rewrite evolve_unfold.
  destruct (dict_get _ state_id) as [old|] eqn:E; [|reflexivity].
  destruct (propagate _ _ _ _) as [raw|e]; [|reflexivity].
  destruct (make_record self g _) as [qs|e]; [|reflexivity].
  simpl. apply keys_set_present, dict_get_in_keys. congruence.
Qed.

Lemma evolve_loop_spec (ids : list string) (hamiltonian : ndarray) (time : npfloat) :
  forall sys g acc,
    Forall (fun m => forall h, m <> System.HealthMetrics h) (values acc) ->
    exists metrics sys' g',
      System.evolve_loop ids hamiltonian time acc (sys, g) = (Ok metrics, (sys', g'))
      /\ keys (registry sys') = keys (registry sys)
      /\ System.fat_tree sys' = System.fat_tree sys
      /\ System.system_state sys' = System.system_state sys
      /\ (forall k, In k (keys acc) \/ In k ids -> In k (keys metrics))
      /\ Forall (fun m => forall h, m <> System.HealthMetrics h) (values metrics).
Proof.
  induction ids as [|k ids IH]; intros sys g acc Hacc.
  - exists acc, sys, g. simpl. unfold ret. repeat split; auto. tauto.
  - simpl System.evolve_loop. unfold bind at 1. rewrite evolve_step_unfold.
    pose proof (evolve_keeps_keys k hamiltonian time (System.spc_framework sys) g) as Hk.
    destruct (SPC.evolve_quantum_state k hamiltonian time _) as [r [spc' g1]].
    simpl in Hk.
    assert (Hstep : exists m,
               (forall h, m <> System.HealthMetrics h)
               /\ (let (r0, w') :=
                     match r with
                     | Ok qs =>
                         (Ok (System.StateMetrics (SPC.coherence qs)
                                (SPC.ethical_fidelity qs) (SPC.entanglement_entropy qs)),
                          (System.set_spc_framework sys spc', g1))
                     | Raise err =>
                         (Ok (System.ErrorMetrics err),
                          (System.set_spc_framework sys spc', g1))
                     end in
                   match r0 with
                   | Ok a =>
                       System.evolve_loop ids hamiltonian time (dict_set acc k a) w'
                   | Raise e => (Raise e, w')
                   end)
                  = System.evolve_loop ids hamiltonian time (dict_set acc k m)
                      (System.set_spc_framework sys spc', g1)).
    { destruct r as [qs|err]; eexists; (split; [|reflexivity]); discriminate. }
    destruct Hstep as (m & Hm & ->).
    destruct (IH (System.set_spc_framework sys spc') g1 (dict_set acc k m))
      as (metrics & sys' & g' & E & K & T & S & I & F).
    { now apply values_set_Forall. }
    exists metrics, sys', g'. split; [exact E|]. unfold registry in *. simpl in K.
    split; [congruence|]. split; [exact T|]. split; [exact S|]. split; [|exact F].
    intros k' [Hin|[<-|Hin]]; apply I; auto.
    + left. now apply keys_set_incl.
    + left. apply keys_set_member.
Qed.

Lemma system_health_raises (self : SPC.SPCFramework) (err : exn) :
  SPC.get_system_health self = Raise err -> err = ValueError.
Proof.
  unfold SPC.get_system_health.
  destruct (SPC.quantum_states self) as [|item items]; [discriminate|].
  pose proof (integration_scores_spec self (keys (item :: items))) as H.
  destruct (SPC.integration_scores self (keys (item :: items))) as [scores|e];
    simpl; [discriminate|].
  destruct H as [-> _]. congruence.
Qed.

End EvolveSystemFacts.

(** X24. [evolve_system] never adds or removes a registered identifier and
    never touches the hierarchy or the status dictionary.  The failure of a
    single state is caught and recorded, so the only exception that can
    escape is the [ValueError] of the final health summary.  When the call
    returns, the result has an entry for every registered identifier (other
    than the name ["system_health"] itself) and the health summary under
    ["system_health"]. *)
Theorem evolve_system_outcome {NP : Numpy} (sys : System.SystemArchitecture) (g : rng)
    (hamiltonian : ndarray) (time : npfloat) :
  exists r sys' g',
    System.evolve_system hamiltonian time (sys, g) = (r, (sys', g'))
    /\ keys (registry sys') = keys (registry sys)
    /\ System.fat_tree sys' = System.fat_tree sys
    /\ System.system_state sys' = System.system_state sys
    /\ match r with
       | Raise err => err = ValueError
       | Ok metrics =>
           (exists h, dict_get metrics "system_health" = Some (System.HealthMetrics h))
           /\ forall k,
                In k (keys (registry sys)) -> k <> "system_health"%string ->
                exists m, dict_get metrics k = Some m
                          /\ forall h, m <> System.HealthMetrics h
       end.
Proof.
  destruct (evolve_loop_spec (keys (registry sys)) hamiltonian time sys g [])
    as (metrics & sys' & g' & E & K & T & S & I & F); [constructor|].
  unfold System.evolve_system, bind, System.self_, lift, ret. cbn [fst snd].
  fold (registry sys). rewrite E. cbn [fst snd].
  destruct (SPC.get_system_health (System.spc_framework sys')) as [h|err] eqn:Eh.
  - do 3 eexists. split; [reflexivity|]. repeat split; auto.
    + exists h. apply dict_get_set_same.
    + intros k Hin Hne.
      assert (Hk : In k (keys metrics)) by (apply I; now right).
      apply dict_get_in_keys in Hk.
      destruct (dict_get metrics k) as [m|] eqn:Em; [|congruence].
      exists m. split.
      * rewrite dict_get_set_other by congruence. exact Em.
      * rewrite Forall_forall in F. apply F.
        apply dict_get_In in Em. change m with (snd (k, m)). now apply in_map.
  - do 3 eexists. split; [reflexivity|]. repeat split; auto.
    now apply system_health_raises in Eh.
Qed.

(** ** The purity of a stored record *)

Section PurityFacts.
Local Open Scope R_scope.










End PurityFacts.

Section RecordMetrics.
Context {NP : Numpy}.
Local Open Scope R_scope.



End RecordMetrics.







(** ** Neighbours and node attributes *)

Section ConnectivityFacts.

Lemma other_end_symmetric (x y : string) (edge : string * string) :
  In y (other_end x edge) -> In x (other_end y edge).
Proof.
  destruct edge as [u v]. unfold other_end. simpl.
  destruct (String.eqb_spec u x) as [->|Hux].
  - intros [<-|[]]. destruct (String.eqb_spec x v) as [->|_]; [now left|].
    rewrite String.eqb_refl. now left.
  - destruct (String.eqb_spec v x) as [->|Hvx]; [|intros []].
    intros [<-|[]]. rewrite String.eqb_refl. now left.
Qed.

End ConnectivityFacts.

(** X28. Connectivity is symmetric, in every system: [y] is among the
    nodes connected to [x] exactly when [x] is among the nodes connected to
    [y]. *)
Theorem connectivity_is_symmetric (sys : System.SystemArchitecture) (x y : string) :
  In y (System.get_node_connectivity sys x) <-> In x (System.get_node_connectivity sys y).
Proof.
  assert (H : forall a b,
             In b (System.get_node_connectivity sys a) ->
             In a (System.get_node_connectivity sys b)).
  { intros a b. unfold System.get_node_connectivity, FatTree.get_connected_nodes.
    fold (other_end a) (other_end b). rewrite !in_flat_map.
    intros (edge & Hedge & Hin). exists edge. split; [exact Hedge|].
    now apply other_end_symmetric. }
  split; apply H.
Qed.

(** X29. Every node of a constructed hierarchy carries a state, a finite
    4x4 matrix, belongs to one of the three layers, and its ethical score
    is the threshold of its layer: 0.95 for ["core"], 0.90 for
    ["aggregation"], 0.85 for ["edge"]. *)
Theorem nodes_of_constructed_hierarchy {NP : Numpy} (c a e : Z) (g : rng) :
  exists self g',
    FatTree.__init__ c a e g = (Ok self, g')
    /\ forall k node,
         dict_get (FatTree.nodes self) k = Some node ->
         (exists q, FatTree.quantum_state node = Some q /\ finite_table 4 4 q)
         /\ ((FatTree.layer node = "core"%string
              /\ FatTree._calculate_ethical_score (FatTree.ethical_constraints node)
                 = Fin (95 / 100))
             \/ (FatTree.layer node = "aggregation"%string
                 /\ FatTree._calculate_ethical_score (FatTree.ethical_constraints node)
                    = Fin (90 / 100))
             \/ (FatTree.layer node = "edge"%string
                 /\ FatTree._calculate_ethical_score (FatTree.ethical_constraints node)
                    = Fin (85 / 100))).
Proof.
  destruct (init_contents c a e g) as (qc & qa & qe & g' & E & Hc & Ha & He).
  exists (built_tree c a e qc qa qe), g'. split; [exact E|].
  intros k node Hk. apply dict_get_In in Hk. split.
  - exact (built_items_states c a e qc qa qe (k, node) Hc Ha He Hk).
  - cbn [built_tree FatTree.nodes] in Hk. unfold layer_items in Hk.
    apply in_app_or in Hk as [Hk|Hk]; [|apply in_app_or in Hk as [Hk|Hk]];
      apply in_map_iff in Hk as ([i q] & [= _ <-] & _).
    + left. split; reflexivity.
    + right. left. split; reflexivity.
    + right. right. split; reflexivity.
Qed.
